(** * medusa-plugin-strapi: the authenticated synchronisation core

    A shallow embedding of [src/services/update-strapi.ts]: the credential
    cache, the health-gated request executor with its rate-limit retry
    layer, the entry data layer with its id translation, the entity
    operations (create / update / delete of products, variants, regions)
    and the bootstrap sequence.

    Effects are explicit: every asynchronous method of the service is a
    function from a [State] (service fields, module-level variables, the
    clock, the key-value store, and the list of requests put on the wire)
    to an [Outcome] (a returned value, a thrown error, or a wait that never
    ends), each with the state reached.  The remote service and the domain
    services are parameters of the development. *)

From Stdlib Require Import ZArith List String Bool Lia.
From stdpp Require Import gmap strings list pretty.
Import ListNotations.

Local Open Scope string_scope.
Local Open Scope list_scope.
Local Open Scope Z_scope.

(** ** JavaScript values

    Payloads, events and response bodies are untyped JavaScript data.
    Numbers are restricted to integers.  A JavaScript number is a double:
    the embedding is exact for the integers up to 2^53 in absolute value
    ([Js.exact]), each of which is a double and is printed in decimal
    notation.  Objects keep their keys in insertion order, as
    [Object.keys] observes them. *)

#[warnings="-register-all"] Inductive JsVal : Type :=
  | JUndef
  | JNull
  | JBool (b : bool)
  | JNum (z : Z)
  | JStr (s : string)
  | JArr (l : list JsVal)
  | JObj (es : list (string * JsVal)).

Module Js.

(** [if (v)] *)
Definition truthy (v : JsVal) : bool :=
  match v with
  | JUndef | JNull => false
  | JBool b => b
  | JNum z => negb (z =? 0)
  | JStr s => negb (String.eqb s "")
  | JArr _ | JObj _ => true
  end.

(** [v instanceof Object] *)
Definition instanceofObject (v : JsVal) : bool :=
  match v with
  | JArr _ | JObj _ => true
  | _ => false
  end.

(** [obj[key]] on the entries of an object. *)
Fixpoint get (es : list (string * JsVal)) (key : string) : JsVal :=
  match es with
  | [] => JUndef
  | (k, v) :: es' => if String.eqb k key then v else get es' key
  end.

Fixpoint has (es : list (string * JsVal)) (key : string) : bool :=
  match es with
  | [] => false
  | (k, _) :: es' => String.eqb k key || has es' key
  end.

(** [obj[key] = v]: an existing key keeps its place, a new one goes last. *)
Fixpoint set (es : list (string * JsVal)) (key : string) (v : JsVal)
  : list (string * JsVal) :=
  match es with
  | [] => [(key, v)]
  | (k, x) :: es' =>
      if String.eqb k key then (k, v) :: es' else (k, x) :: set es' key v
  end.

(** [delete obj[key]] *)
Fixpoint del (es : list (string * JsVal)) (key : string)
  : list (string * JsVal) :=
  match es with
  | [] => []
  | (k, x) :: es' =>
      if String.eqb k key then del es' key else (k, x) :: del es' key
  end.

(** [Object.keys(obj)] *)
Definition keys (es : list (string * JsVal)) : list string := map fst es.

(** [v.key] for a value that may not be an object: reading a property of
    [undefined] or [null] throws a TypeError ([None]); primitives and
    arrays have none of the data keys used here. *)
Definition prop (v : JsVal) (key : string) : option JsVal :=
  match v with
  | JUndef | JNull => None
  | JObj es => Some (get es key)
  | _ => Some JUndef
  end.

(** The numbers that the printing of a value goes through are integers
    that a double holds exactly. *)
Fixpoint exact (v : JsVal) : bool :=
  match v with
  | JNum z => Z.abs z <=? 2 ^ 53
  | JArr l => forallb exact l
  | _ => true
  end.

(** [`${v}`] and [v.toString()], as used in store keys and in the path of
    an endpoint.  A number is printed in decimal notation, which is
    what JavaScript prints for an [exact] one. *)
Fixpoint toString (v : JsVal) : string :=
  match v with
  | JUndef => "undefined"
  | JNull => "null"
  | JBool true => "true"
  | JBool false => "false"
  | JNum z => pretty z
  | JStr s => s
  | JArr l =>
      String.concat ","
        (map (fun x => match x with
                       | JUndef | JNull => ""
                       | _ => toString x
                       end) l)
  | JObj _ => "[object Object]"
  end.

(** Nesting depth, the measure of every recursion over a value. *)
Fixpoint depth (v : JsVal) : nat :=
  match v with
  | JArr l => S (fold_right (fun x n => Nat.max (depth x) n) 0%nat l)
  | JObj es => S (fold_right (fun kx n => Nat.max (depth (snd kx)) n) 0%nat es)
  | _ => 0%nat
  end.

End Js.

(** ** Id translation ([translateIdsToMedusaIds])

    The method walks the (already cloned) payload and mutates it in place.
    The loop runs over the snapshot [Object.keys(dataToSend)] but reads each
    child from the object as mutated so far, so the recursion is not
    structural: it is driven by [fuel], and [None] means the fuel ran out. *)

(** One turn of [for (const key of keys)] on an object: [recurse] is the
    recursive call, [acc] the object as mutated so far. *)
Definition object_step (recurse : JsVal -> option JsVal)
  (acc : option (list (string * JsVal))) (key : string)
  : option (list (string * JsVal)) :=
  match acc with
  | None => None
  | Some cur =>
      let child := Js.get cur key in
      if Js.instanceofObject child then
        match recurse child with
        | None => None
        | Some child' => Some (Js.set cur key child')   (* mutated in place *)
        end
      else if String.eqb key "id" then
        Some (Js.del (Js.set cur "medusa_id" child) key)
      else Some cur
  end.

(** The same turn on an array, whose keys are its indices, never "id". *)
Definition array_step (recurse : JsVal -> option JsVal)
  (acc : option (list JsVal)) (i : nat) : option (list JsVal) :=
  match acc with
  | None => None
  | Some cur =>
      match cur !! i with
      | Some child =>
          if Js.instanceofObject child then
            match recurse child with
            | None => None
            | Some child' => Some (<[i := child']> cur)
            end
          else Some cur
      | None => Some cur
      end
  end.

Fixpoint translateIdsToMedusaIds (fuel : nat) (dataToSend : JsVal)
  : option JsVal :=
  match fuel with
  | O => None
  | S fuel' =>
      match dataToSend with
      | JObj es =>
          option_map JObj
            (fold_left (object_step (translateIdsToMedusaIds fuel'))
               (Js.keys es) (Some es))
      | JArr l =>
          option_map JArr
            (fold_left (array_step (translateIdsToMedusaIds fuel'))
               (seq 0 (length l)) (Some l))
      | _ => Some dataToSend (* a primitive has no own keys *)
      end
  end.

(** [translateIdsToMedusaIds] with the fuel its argument needs
    ([translateIdsToMedusaIds_fuel] below shows the fuel is never short). *)
Definition translateIds (v : JsVal) : JsVal :=
  match translateIdsToMedusaIds (S (Js.depth v)) v with
  | Some r => r
  | None => v
  end.

(** ** Requests and replies *)

Inductive Method := GET | POST | PUT | DELETE | HEAD.

(** The call site a request comes from: one constructor per [axios] call
    of the service. *)
Inductive Call :=
  | HealthProbe     (* axios.head in executeStrapiHealthCheck *)
  | UserLogin       (* axios.post in executeLoginAsStrapiUser *)
  | AdminLogin      (* axios.post in executeLoginAsStrapiSuperAdmin *)
  | EntrySend       (* axios(config) in executeStrapiSend *)
  | AdminSend       (* axios(config) in executeStrapiAdminSend *)
  | RegisterUser    (* axios.post in executeRegisterMedusaUser *)
  | SyncTables.     (* axios.post in executeSync *)

#[global] Instance Method_eq_dec : EqDecision Method.
Proof. solve_decision. Defined.
#[global] Instance Call_eq_dec : EqDecision Call.
Proof. solve_decision. Defined.

Record Request := mkRequest {
  call : Call;
  method : Method;
  url : string;
  bearer : option JsVal;     (* Authorization: Bearer <token> *)
  body : JsVal;
  attempt : Z                (* 0 for the call itself, k for its k-th retry *)
}.

Record Response := mkResponse {
  status : Z;
  x_retry_after : option Z;      (* headers["x-retry-after"], when non-empty *)
  x_ratelimit_reset : option Z;  (* headers["x-ratelimit-reset"] *)
  data : JsVal
}.

(** What the network does with one request put on the wire. *)
Inductive Reply :=
  | Replied (r : Response) (took : N)
  | NoReply (took : N).

(** ** Errors *)

Inductive Err :=
  | TypeError
  | AxiosError (response : option Response)
  | WrappedError (m : option Method) (type : option string) (id : option string)
                 (cause : Err)                      (* thrown by _axiosError *)
  | DomainError (e : JsVal)                         (* thrown by a domain service *)
  | RedisError.

(** ** Configuration and state *)

Record AuthInterface := mkAuth { email : string; password : string }.

Record Options := mkOptions {
  strapi_url : string;
  strapi_admin : AuthInterface;
  strapi_default_user : AuthInterface;
  strapi_ignore_threshold : option Z;
  STRAPI_HEALTH_CHECK_INTERVAL : option Z   (* parseInt of the variable, when set *)
}.

Record UserCreds := mkCreds { token : JsVal; time : Z; user : JsVal }.

Record State := mkState {
  now : Z;                                   (* Date.now(), milliseconds *)
  wire : list Request;                       (* requests sent so far, oldest first *)
  strapiRetryDelay : option Z;               (* module-level let, undefined at load *)
  lastHealthCheckTime : Z;                   (* static, 0 at load *)
  isHealthy : bool;                          (* static *)
  userTokens : gmap string UserCreds;
  strapiSuperAdminAuthToken : JsVal;
  userAdminProfile : JsVal;
  lastAdminLoginAttemptTime : option Z;
  redis : gmap string Z                      (* key -> expiry time of its value 1 *)
}.

Definition set_now (v : Z) (s : State) : State :=
  mkState v (wire s) (strapiRetryDelay s) (lastHealthCheckTime s) (isHealthy s)
    (userTokens s) (strapiSuperAdminAuthToken s) (userAdminProfile s)
    (lastAdminLoginAttemptTime s) (redis s).
Definition set_wire (v : list Request) (s : State) : State :=
  mkState (now s) v (strapiRetryDelay s) (lastHealthCheckTime s) (isHealthy s)
    (userTokens s) (strapiSuperAdminAuthToken s) (userAdminProfile s)
    (lastAdminLoginAttemptTime s) (redis s).
Definition set_strapiRetryDelay (v : option Z) (s : State) : State :=
  mkState (now s) (wire s) v (lastHealthCheckTime s) (isHealthy s)
    (userTokens s) (strapiSuperAdminAuthToken s) (userAdminProfile s)
    (lastAdminLoginAttemptTime s) (redis s).
Definition set_lastHealthCheckTime (v : Z) (s : State) : State :=
  mkState (now s) (wire s) (strapiRetryDelay s) v (isHealthy s)
    (userTokens s) (strapiSuperAdminAuthToken s) (userAdminProfile s)
    (lastAdminLoginAttemptTime s) (redis s).
Definition set_isHealthy (v : bool) (s : State) : State :=
  mkState (now s) (wire s) (strapiRetryDelay s) (lastHealthCheckTime s) v
    (userTokens s) (strapiSuperAdminAuthToken s) (userAdminProfile s)
    (lastAdminLoginAttemptTime s) (redis s).
Definition set_userTokens (v : gmap string UserCreds) (s : State) : State :=
  mkState (now s) (wire s) (strapiRetryDelay s) (lastHealthCheckTime s) (isHealthy s)
    v (strapiSuperAdminAuthToken s) (userAdminProfile s)
    (lastAdminLoginAttemptTime s) (redis s).
Definition set_strapiSuperAdminAuthToken (v : JsVal) (s : State) : State :=
  mkState (now s) (wire s) (strapiRetryDelay s) (lastHealthCheckTime s) (isHealthy s)
    (userTokens s) v (userAdminProfile s)
    (lastAdminLoginAttemptTime s) (redis s).
Definition set_userAdminProfile (v : JsVal) (s : State) : State :=
  mkState (now s) (wire s) (strapiRetryDelay s) (lastHealthCheckTime s) (isHealthy s)
    (userTokens s) (strapiSuperAdminAuthToken s) v
    (lastAdminLoginAttemptTime s) (redis s).
Definition set_lastAdminLoginAttemptTime (v : option Z) (s : State) : State :=
  mkState (now s) (wire s) (strapiRetryDelay s) (lastHealthCheckTime s) (isHealthy s)
    (userTokens s) (strapiSuperAdminAuthToken s) (userAdminProfile s)
    v (redis s).

(** ** The credential cache as a plain object

    [this.userTokens] is created as [{}]: a read [this.userTokens[email]]
    that finds no entry of its own goes on to [Object.prototype], and for
    an email that names one of its members finds that member, a function
    (or, under "__proto__", the prototype itself). *)

Definition Object_prototype : list string :=
  ["constructor"; "__defineGetter__"; "__defineSetter__"; "hasOwnProperty";
   "__lookupGetter__"; "__lookupSetter__"; "isPrototypeOf";
   "propertyIsEnumerable"; "toString"; "valueOf"; "__proto__";
   "toLocaleString"].

Definition inherited (key : string) : bool :=
  existsb (String.eqb key) Object_prototype.

(** An inherited member as the service reads it: it is truthy, and its
    [token], [time] and [user] are all [undefined] ([time ?? 0] is 0). *)
Definition prototype_member : UserCreds := mkCreds JUndef 0 JUndef.

(** [userTokens[email]]; [None] is [undefined].  An assignment under
    "__proto__" replaces the prototype instead of adding an entry; what was
    assigned is kept here as the entry of that key, which is what a read of
    that key then finds.  The reads of "token", "time" and "user" that a
    prototype so replaced would answer are not modelled: [pristine] says
    that the prototype is the original one. *)
Definition lookup_member (tokens : gmap string UserCreds) (email : string)
  : option UserCreds :=
  match tokens !! email with
  | Some creds => Some creds
  | None => if inherited email then Some prototype_member else None
  end.

(** [delete userTokens[email]]: it removes an entry of the object's own,
    and so leaves a replaced prototype in place. *)
Definition delete_member (email : string) (tokens : gmap string UserCreds)
  : gmap string UserCreds :=
  if String.eqb email "__proto__" then tokens else delete email tokens.

Definition pristine (tokens : gmap string UserCreds) : Prop :=
  tokens !! "__proto__" = None.

(** The state of a freshly loaded module and a freshly constructed service. *)
Definition initial_state (t : Z) : State :=
  mkState t [] None 0 false ∅ JUndef JUndef None ∅.

(** ** The monad of service methods *)

Inductive Outcome (A : Type) :=
  | Returned (a : A) (s : State)
  | Thrown (e : Err) (s : State)
  | Hangs (s : State).
Arguments Returned {A} a s.
Arguments Thrown {A} e s.
Arguments Hangs {A} s.

Definition final {A} (o : Outcome A) : State :=
  match o with Returned _ s | Thrown _ s | Hangs s => s end.

Definition M (A : Type) : Type := State -> Outcome A.

Definition ret {A} (a : A) : M A := fun s => Returned a s.
Definition throw {A} (e : Err) : M A := fun s => Thrown e s.
Definition bind {A B} (m : M A) (k : A -> M B) : M B :=
  fun s => match m s with
           | Returned a s' => k a s'
           | Thrown e s' => Thrown e s'
           | Hangs s' => Hangs s'
           end.
(** [try { m } catch (e) { h e }] *)
Definition try_catch {A} (m : M A) (h : Err -> M A) : M A :=
  fun s => match m s with
           | Returned a s' => Returned a s'
           | Thrown e s' => h e s'
           | Hangs s' => Hangs s'
           end.
Definition gets {A} (f : State -> A) : M A := fun s => Returned (f s) s.
Definition modify (f : State -> State) : M unit := fun s => Returned tt (f s).
(** A property read that throws a TypeError on [undefined] and [null]. *)
Definition prop (v : JsVal) (key : string) : M JsVal :=
  match Js.prop v key with
  | Some x => ret x
  | None => throw TypeError
  end.

Notation "'let*' x := c1 'in' c2" := (bind c1 (fun x => c2))
  (at level 10, x name, c1 at level 100, c2 at level 200).
Notation "c1 ;; c2" := (bind c1 (fun _ => c2))
  (at level 100, c2 at level 200, right associativity).

Definition hang {A} : M A := fun s => Hangs s.
Definition sleep (ms : Z) : M unit :=
  modify (fun s => set_now (now s + Z.max 0 ms) s).

(** ** The retry layer ([axiosRetry(axios, {...})]) *)

Definition retries : nat := 100.

(** [retryCondition]: an error without a response makes the asynchronous
    condition reject, which the retry library reads as "do not retry". *)
Definition retryCondition (error : Err) : bool :=
  match error with
  | AxiosError (Some r) => status r =? 429
  | _ => false
  end.

(** The value [retryDelay] computes at time [t] (milliseconds). *)
Definition retryDelay_value (t : Z) (retryCount : Z) (r : Response) : Z :=
  let rateLimitResetTime :=
    match x_ratelimit_reset r with
    | Some reset => reset
    | None => t + 120000
    end in
  match x_retry_after r with
  | None =>
      let timeDiffms := Z.abs (rateLimitResetTime - t / 1000) + 2 in
      timeDiffms * 1000
  | Some retryHeaderDelay => retryCount * 1000 * retryHeaderDelay
  end.

(** [retryDelay]: both branches store the delay in [strapiRetryDelay]. *)
Definition retryDelay (retryCount : Z) (r : Response) : M Z :=
  let* t := gets now in
  let d := retryDelay_value t retryCount r in
  modify (set_strapiRetryDelay (Some d));;
  ret d.

(** ** The environment of the service

    The remote service is a function: its reply to a request, given the
    requests it has seen before and the time.  The domain services
    ([retrieve(id, config)]) yield the entity, [undefined], or throw.
    [patience] is the number of polls [waitForHealth] is observed for
    before the wait is reported as one that does not end.  The key-value
    store may refuse a command: [redis_refuses t] says that it does at
    time [t]. *)

Class Env := mkEnv {
  remote : list Request -> Z -> Request -> Reply;
  options_ : Options;
  patience : nat;
  productService_retrieve : JsVal -> Err + option (list (string * JsVal));
  productVariantService_retrieve : JsVal -> Err + option (list (string * JsVal));
  regionService_retrieve : JsVal -> Err + option (list (string * JsVal));
  redis_refuses : Z -> bool
}.

Section Service.

Context `{env : Env}.

(** One request on the wire; axios resolves on 2xx and rejects otherwise. *)
Definition transmit (rq : Request) : M Response :=
  fun s =>
    let sent := set_wire (wire s ++ [rq]) s in
    match remote (wire s) (now s) rq with
    | Replied r took =>
        let s' := set_now (now s + Z.of_N took) sent in
        if (200 <=? status r) && (status r <? 300)
        then Returned r s'
        else Thrown (AxiosError (Some r)) s'
    | NoReply took =>
        Thrown (AxiosError None) (set_now (now s + Z.of_N took) sent)
    end.

Definition with_attempt (k : Z) (rq : Request) : Request :=
  mkRequest (call rq) (method rq) (url rq) (bearer rq) (body rq) k.

Fixpoint axios_from (left : nat) (retryCount : Z) (rq : Request) : M Response :=
  try_catch (transmit (with_attempt retryCount rq))
    (fun error =>
       match left with
       | S left' =>
           if retryCondition error then
             match error with
             | AxiosError (Some r) =>
                 let* delay := retryDelay (retryCount + 1) r in
                 sleep delay;;
                 axios_from left' (retryCount + 1) rq
             | _ => throw error
             end
           else throw error
       | O => throw error
       end).

(** [axios(config)], [axios.post], [axios.head]: every call goes through
    the retry layer installed on the shared instance. *)
Definition axios (rq : Request) : M Response := axios_from retries 0 rq.

(** ** Health monitor *)

Definition timeInterval : Z :=
  match STRAPI_HEALTH_CHECK_INTERVAL options_ with
  | Some z => z
  | None => 120000
  end.

Definition health_request : Request :=
  mkRequest HealthProbe HEAD (strapi_url options_ +:+ "/_health") None JUndef 0.

(** [while (timeOut-- > 0) { response = await axios.head(url); ... }] *)
Fixpoint health_probe_loop (timeOut : nat) (response : option Response)
  : M (option Response) :=
  match timeOut with
  | O => ret response
  | S timeOut' =>
      let* r := axios health_request in
      if negb (status r =? 0) then ret (Some r)
      else sleep 1000;; health_probe_loop timeOut' (Some r)
  end.

Definition executeStrapiHealthCheck : M bool :=
  try_catch
    (let* response := health_probe_loop (Z.to_nat timeInterval) None in
     let* t := gets now in
     modify (set_lastHealthCheckTime t);;
     match response with
     | Some r => modify (set_isHealthy (status r <? 300));; gets isHealthy
     | None => modify (set_isHealthy false);; gets isHealthy
     end)
    (fun _ => modify (set_isHealthy false);; ret false).

Definition checkStrapiHealth : M bool :=
  let* currentTime := gets now in
  let* last := gets lastHealthCheckTime in
  let intervalElapsed := currentTime - last >? timeInterval in
  if intervalElapsed then executeStrapiHealthCheck else gets isHealthy.

Fixpoint waitForHealth_loop (polls : nat) : M unit :=
  match polls with
  | O => hang
  | S polls' =>
      let* health := checkStrapiHealth in
      if health then ret tt
      else sleep 1000;; waitForHealth_loop polls'
  end.

Definition waitForHealth : M unit := waitForHealth_loop patience.

(** [_axiosError]: logs and always throws. *)
Definition _axiosError {A} (error : Err) (id type : option string)
  (m : option Method) : M A :=
  throw (WrappedError m type id error).

(** ** Credential cache and login *)

Definition executeLoginAsStrapiUser (authInterface : AuthInterface)
  : M Response :=
  waitForHealth;;
  try_catch
    (let authData := JObj [("identifier", JStr (email authInterface));
                           ("password", JStr (password authInterface))] in
     axios (mkRequest UserLogin POST (strapi_url options_ +:+ "/api/auth/local")
              None authData 0))
    (fun error => _axiosError error None None None).

Definition falsy_delay (d : option Z) : bool :=
  match d with
  | None => true
  | Some z => z =? 0
  end.

(** The tail of [strapiLoginSendDatalayer]: log in, and cache the token
    when the reply carries one. *)
Definition login_and_cache (authInterface : AuthInterface)
  : M (option UserCreds) :=
  let* res := executeLoginAsStrapiUser authInterface in
  let* jwt := prop (data res) "jwt" in
  if Js.truthy jwt then
    let* user := prop (data res) "user" in
    let* t := gets now in
    let creds := mkCreds jwt t user in
    modify (fun s =>
      set_userTokens (<[email authInterface := creds]> (userTokens s)) s);;
    ret (Some creds)
  else ret None.

Definition strapiLoginSendDatalayer (authInterface : AuthInterface)
  : M (option UserCreds) :=
  let email := email authInterface in
  let* currentTime := gets now in
  let* lastRetrived := gets (fun s => lookup_member (userTokens s) email) in
  let* cached :=
    match lastRetrived with
    | Some creds =>
        let* d := gets strapiRetryDelay in
        (if falsy_delay d then modify (set_strapiRetryDelay (Some 180000))
         else ret tt);;
        let* d := gets strapiRetryDelay in
        let diff := currentTime / 1000 - time creds / 1000 in
        if diff <? default 0 d then ret (Some creds) else ret None
    | None => ret None
    end in
  match cached with
  | Some creds => ret (Some creds)
  | None => login_and_cache authInterface
  end.

(** [fetchUserToken(email = this.defaultUserEmail)]:
    [this.userTokens[email].token], with no guard on the entry. *)
Definition defaultUserEmail : string := email (strapi_default_user options_).
Definition defaultAuthInterface : AuthInterface := strapi_default_user options_.

Definition fetchUserToken (email : option string) : M JsVal :=
  let email := default defaultUserEmail email in
  let* entry := gets (fun s => lookup_member (userTokens s) email) in
  match entry with
  | Some creds => ret (token creds)
  | None => throw TypeError
  end.

(** ** Request executor and entry data layer *)

Definition executeStrapiSend (method : Method) (type : string) (token : JsVal)
  (id : JsVal) (data : option JsVal) : M Response :=
  waitForHealth;;
  let endPoint :=
    match method with
    | POST => strapi_url options_ +:+ "/api/" +:+ type
    | _ => strapi_url options_ +:+ "/api/" +:+ type +:+
             (if Js.truthy id then "/" +:+ Js.toString id else "/")
    end in
  try_catch
    (axios (mkRequest EntrySend method endPoint (Some token)
              (default JUndef data) 0))
    (fun error =>
       _axiosError error
         (if Js.truthy id then Some (Js.toString id) else None)
         (Some type) (Some method)).

Record StrapiSendParams := mkSendParams {
  sp_method : Method;
  sp_type : string;
  sp_id : JsVal;                                  (* undefined when absent *)
  sp_data : option (list (string * JsVal));       (* the entity, when given *)
  sp_authInterface : AuthInterface
}.

Record StrapiResult := mkResult {
  result_id : JsVal;
  result_medusa_id : JsVal;
  result_status : Z;
  result_data : JsVal
}.

(** [{ status: 400 }] *)
Definition status400 : StrapiResult := mkResult JUndef JUndef 400 JUndef.

(** The body built from [data]: clone, translate, then set the top-level
    [medusa_id] from the original [data.id] and delete [id]. *)
Definition dataToSend_of (data : option (list (string * JsVal))) : JsVal :=
  match data with
  | Some es =>
      match translateIds (JObj es) with
      | JObj translated =>
          JObj (Js.del (Js.set translated "medusa_id" (Js.get es "id")) "id")
      | other => other
      end
  | None => JUndef
  end.

Definition strapiSendDataLayer (params : StrapiSendParams) : M StrapiResult :=
  let* userCreds := strapiLoginSendDatalayer (sp_authInterface params) in
  let dataToSend := dataToSend_of (sp_data params) in
  try_catch
    (let* token := match userCreds with
                   | Some creds => ret (token creds)
                   | None => throw TypeError
                   end in
     let* result := executeStrapiSend (sp_method params) (sp_type params) token
                      (sp_id params) (Some (JObj [("data", dataToSend)])) in
     let* id := prop (data result) "id" in
     let* medusa_id := prop (data result) "medusa_id" in
     ret (mkResult id medusa_id (status result) (data result)))
    (fun _ => ret status400).

Definition processStrapiEntry (command : StrapiSendParams) : M StrapiResult :=
  try_catch (strapiSendDataLayer command) (fun _ => ret status400).

Definition with_method (m : Method) (c : StrapiSendParams) : StrapiSendParams :=
  mkSendParams m (sp_type c) (sp_id c) (sp_data c) (sp_authInterface c).

Definition createEntryInStrapi (command : StrapiSendParams) : M StrapiResult :=
  processStrapiEntry (with_method POST command).
Definition updateEntryInStrapi (command : StrapiSendParams) : M StrapiResult :=
  processStrapiEntry (with_method PUT command).
Definition deleteEntryInStrapi (command : StrapiSendParams) : M StrapiResult :=
  processStrapiEntry (with_method DELETE command).

Definition getType (type : string) (authInterface : AuthInterface)
  : M StrapiResult :=
  strapiSendDataLayer (mkSendParams GET type JUndef None authInterface).

(** [await this.getType(t, a).then(() => true).catch(() => false)] *)
Definition hasType (type : string) (authInterface : AuthInterface) : M bool :=
  try_catch (getType type authInterface;; ret true) (fun _ => ret false).

(** ** Echo guard ([addIgnore_], [shouldIgnore_])

    The store keeps, for each key, the time at which its value expires
    ([SET key 1 EX seconds]); a read after that time finds nothing. *)


Definition ignore_key (id : JsVal) (side : string) : string :=
  Js.toString id +:+ "_ignore_" +:+ side.



Definition shouldIgnore_ (id : JsVal) (side : string) : M bool :=
  let key := ignore_key id side in
  gets (fun s =>
    match redis s !! key with
    | Some expiry => now s <? expiry
    | None => false
    end).

(** [shouldIgnore_] is the read as the store answers it.  Where an
    operation awaits the read, the store may refuse the command
    instead, and the promise rejects. *)
Definition redis_command : M unit :=
  let* t := gets now in
  if redis_refuses t then throw RedisError else ret tt.

(** ** Field relevance ([verifyDataContainsFields]) *)

(** [updateFields.includes(f)] *)
Definition includes (updateFields : list string) (f : JsVal) : bool :=
  match f with
  | JStr name => existsb (String.eqb name) updateFields
  | _ => false
  end.

(** [fields.find((f) => updateFields.includes(f))] *)
Definition find_field (updateFields : list string) (fields : list JsVal)
  : JsVal :=
  default JUndef (List.find (includes updateFields) fields).

Definition verifyDataContainsFields (data : list (string * JsVal))
  (updateFields : list string) : M JsVal :=
  let* found :=
    match Js.get data "fields" with
    | JUndef | JNull => ret JUndef                  (* [?.] short-circuits *)
    | JArr fields => ret (find_field updateFields fields)
    | _ => throw TypeError                          (* find is not a function *)
    end in
  if negb (Js.truthy found) then
    let fieldsOfdata := Js.keys data in
    ret (JBool (existsb (fun field =>
                   existsb (fun uf => String.eqb uf field) updateFields)
                  fieldsOfdata))
  else ret found.

(** ** Entity operations *)

Definition domain {A} (r : Err + A) : M A :=
  match r with
  | inl e => throw e
  | inr a => ret a
  end.

Definition createRegionInStrapi (regionId : JsVal)
  (authInterface : AuthInterface) : M StrapiResult :=
  let* hasType := hasType "regions" authInterface in
  if negb hasType then ret status400
  else
    try_catch
      (let* region := domain (regionService_retrieve regionId) in
       createEntryInStrapi
         (mkSendParams POST "regions" regionId region authInterface))
      (fun error => throw error).

Definition region_updateFields : list string :=
  ["name"; "currency_code"; "countries"; "payment_providers";
   "fulfillment_providers"].

Definition updateRegionInStrapi (data : list (string * JsVal))
  (authInterface : AuthInterface) : M StrapiResult :=
  let* hasType := hasType "regions" authInterface in
  if negb hasType then ret status400
  else
    let* found := verifyDataContainsFields data region_updateFields in
    if negb (Js.truthy found) then ret status400
    else
      try_catch
        (let* ignore := (redis_command;;
                         shouldIgnore_ (Js.get data "id") "strapi") in
         if ignore then ret status400
         else
           let* region := domain (regionService_retrieve (Js.get data "id")) in
           match region with
           | Some r =>
               updateEntryInStrapi
                 (mkSendParams PUT "regions" (Js.get r "id") (Some r) authInterface)
           | None => ret status400
           end)
        (fun _ => ret status400).

Definition product_updateFields : list string :=
  ["variants"; "options"; "tags"; "title"; "subtitle"; "tags"; "type";
   "type_id"; "collection"; "collection_id"; "thumbnail"].

Definition updateProductInStrapi (data : list (string * JsVal))
  (authInterface : AuthInterface) : M StrapiResult :=
  let* hasType := hasType "products" authInterface in
  if negb hasType then ret status400
  else
    let* found := verifyDataContainsFields data product_updateFields in
    if negb (Js.truthy found) then ret status400
    else
      try_catch
        (let* ignore := (redis_command;;
                         shouldIgnore_ (Js.get data "id") "strapi") in
         if ignore then ret status400
         else
           let* product := domain (productService_retrieve (Js.get data "id")) in
           match product with
           | Some p =>
               updateEntryInStrapi
                 (mkSendParams PUT "products" (Js.get p "id") (Some p) authInterface)
           | None => ret status400
           end)
        (fun error => throw error).

Definition variant_updateFields : list string :=
  ["title"; "prices"; "sku"; "material"; "weight"; "length"; "height";
   "origin_country"; "options"].

Definition updateProductVariantInStrapi (data : list (string * JsVal))
  (authInterface : AuthInterface) : M StrapiResult :=
  let* proceed :=
    if Js.truthy (Js.get data "fields") then
      let* found :=
        match Js.get data "fields" with
        | JArr fields =>
            let first := find_field variant_updateFields fields in
            if Js.truthy first then ret first
            else verifyDataContainsFields data variant_updateFields
        | _ => throw TypeError
        end in
      ret (Js.truthy found)
    else ret true in
  if negb proceed then ret status400
  else
    try_catch
      (let* ignore := (redis_command;;
                         shouldIgnore_ (Js.get data "id") "strapi") in
       if ignore then ret status400
       else
         let* variant :=
           domain (productVariantService_retrieve (Js.get data "id")) in
         match variant with
         | Some v =>
             updateEntryInStrapi
               (mkSendParams PUT "product-variants" (Js.get v "id") (Some v)
                  authInterface)
         | None => ret status400
         end)
      (fun _ => ret status400).

(** The shape shared by the delete operations: probe a type, consult the
    echo guard, delete the entry of a type. *)
Definition delete_guarded (probed deleted : string)
  (data : list (string * JsVal)) (authInterface : AuthInterface)
  : M StrapiResult :=
  let* hasType := hasType probed authInterface in
  if negb hasType then ret status400
  else
    let* ignore := (redis_command;;
                    shouldIgnore_ (Js.get data "id") "strapi") in
    if ignore then ret status400
    else
      deleteEntryInStrapi
        (mkSendParams DELETE deleted (Js.get data "id") None authInterface).

(** [getType("product-variants", ...)], then [type: "regions"]. *)
Definition deleteRegionInStrapi := delete_guarded "product-variants" "regions".

(** ** Privileged identity and bootstrap *)

Definition admin_auth : JsVal :=
  JObj [("email", JStr (email (strapi_admin options_)));
        ("password", JStr (password (strapi_admin options_)))].

Definition truthy_delay (d : option Z) : bool := negb (falsy_delay d).

(** Returns [{ data: { user, token } }], here the pair [(user, token)]. *)
Definition executeLoginAsStrapiSuperAdmin : M (JsVal * JsVal) :=
  let* currentLoginAttempt := gets now in
  let* last := gets lastAdminLoginAttemptTime in
  let timeDiff := (currentLoginAttempt - default 0 last) / 1000 in
  let* d := gets strapiRetryDelay in
  if truthy_delay d && (timeDiff <? default 0 d) then
    let* user := gets userAdminProfile in
    let* token := gets strapiSuperAdminAuthToken in
    ret (user, token)
  else
    modify (set_lastAdminLoginAttemptTime (Some currentLoginAttempt));;
    waitForHealth;;
    try_catch
      (let* response :=
         axios (mkRequest AdminLogin POST (strapi_url options_ +:+ "/admin/login")
                  None admin_auth 0) in
       let* inner := prop (data response) "data" in
       let* user := prop inner "user" in
       let* token := prop inner "token" in
       modify (set_strapiSuperAdminAuthToken token);;
       modify (set_userAdminProfile user);;
       ret (user, token))
      (fun error => _axiosError error None None None).

Definition admin_path (type : string) (action id : option string) : string :=
  String.concat "/"
    (List.filter (fun item => negb (String.eqb item ""))
       [type; default "" action; default "" id]).

Definition executeStrapiAdminSend (method : Method) (type : string)
  (id action : option string) (data : option JsVal) (query : option string)
  : M Response :=
  let* result := executeLoginAsStrapiSuperAdmin in
  modify (set_strapiSuperAdminAuthToken (snd result));;
  let* token := gets strapiSuperAdminAuthToken in
  let headers := if Js.truthy token then Some token else None in
  let q := match query with
           | Some qs => if String.eqb qs "" then "" else "?" +:+ qs
           | None => ""
           end in
  try_catch
    (axios (mkRequest AdminSend method
              (strapi_url options_ +:+ "/admin/" +:+ admin_path type action id +:+ q)
              headers (default JUndef data) 0))
    (fun error => _axiosError error id (Some type) (Some method)).

Definition registerSuperAdminUserInStrapi : M JsVal :=
  let* response :=
    executeStrapiAdminSend POST "register-admin" None None (Some admin_auth) None in
  prop (data response) "user".

Definition registerOrLoginAdmin : M (JsVal * JsVal) :=
  try_catch (registerSuperAdminUserInStrapi;; ret tt) (fun _ => ret tt);;
  executeLoginAsStrapiSuperAdmin.

Definition default_user_auth : JsVal :=
  JObj [("email", JStr (email (strapi_default_user options_)));
        ("password", JStr (password (strapi_default_user options_)))].

Definition executeRegisterMedusaUser (auth : JsVal) : M Response :=
  executeLoginAsStrapiSuperAdmin;;
  waitForHealth;;
  let* token := gets strapiSuperAdminAuthToken in
  try_catch
    (axios (mkRequest RegisterUser POST
              (strapi_url options_ +:+ "/strapi-plugin-medusajs/create-medusa-user")
              (Some token) auth 0))
    (fun e => _axiosError e None None None).

Definition registerDefaultMedusaUser : M JsVal :=
  try_catch
    (let* registerResponse := executeRegisterMedusaUser default_user_auth in
     ret (data registerResponse))
    (fun _ => ret JUndef).

Definition loginAsDefaultMedusaUser : M (option UserCreds) :=
  try_catch (strapiLoginSendDatalayer defaultAuthInterface)
    (fun _ => ret None).

Definition registerOrLoginDefaultMedusaUser : M (option UserCreds) :=
  try_catch (registerDefaultMedusaUser;; ret tt) (fun _ => ret tt);;
  loginAsDefaultMedusaUser.

Definition executeSync (token : JsVal) : M Response :=
  waitForHealth;;
  axios (mkRequest SyncTables POST
           (strapi_url options_ +:+
              "/strapi-plugin-medusajs/synchronise-medusa-tables")
           (Some token) (JObj []) 0).

(** [intializeServer] (the name is the source's). *)
Definition intializeServer : M (option Response) :=
  registerOrLoginAdmin;;
  let* adminToken := gets strapiSuperAdminAuthToken in
  if Js.truthy adminToken then
    let* creds := registerOrLoginDefaultMedusaUser in
    let* user := match creds with
                 | Some c => ret (user c)
                 | None => throw TypeError     (* [undefined.user] *)
                 end in
    if Js.truthy user then
      let* adminToken := gets strapiSuperAdminAuthToken in
      let* response := executeSync adminToken in
      if status response <? 300 then ret (Some response) else ret None
    else ret None
  else ret None.

End Service.

(** * Vocabulary of the statements *)

(** ** Outcomes and the monad *)

Definition is_hang {A} (o : Outcome A) : bool :=
  match o with Hangs _ => true | _ => false end.

(** [stable R m]: whatever [m] does, the state it reaches is [R]-related
    to the state it starts from. *)
Definition stable (R : State -> State -> Prop) {A} (m : M A) : Prop :=
  forall s, R s (final (m s)).

(** ** What a method may put on the wire

    [Extends l s s']: time has not gone back, the key-value store is as it
    was, and the requests sent in between all come from the call sites
    (with the methods) listed in [l]. *)

Definition sends (l : list (Call * Method)) (r : Request) : Prop :=
  In (call r, method r) l.

Definition Extends (l : list (Call * Method)) (s s' : State) : Prop :=
  now s <= now s' /\ redis s' = redis s /\
  exists tr, wire s' = wire s ++ tr /\ Forall (sends l) tr.

Definition health_calls : list (Call * Method) := [(HealthProbe, HEAD)].

Definition login_calls : list (Call * Method) :=
  [(HealthProbe, HEAD); (UserLogin, POST)].

Definition send_calls (m : Method) : list (Call * Method) :=
  [(HealthProbe, HEAD); (EntrySend, m)].

Definition layer_calls (m : Method) : list (Call * Method) :=
  [(HealthProbe, HEAD); (UserLogin, POST); (EntrySend, m)].

(** ** Fields a method leaves alone *)

Definition Keeps {A} (f : State -> A) (s s' : State) : Prop := f s' = f s.

(** A projection that does not see what the transport and the health
    monitor write. *)
Definition transport_blind {A} (f : State -> A) : Prop :=
  (forall v s, f (set_now v s) = f s) /\
  (forall v s, f (set_wire v s) = f s) /\
  (forall v s, f (set_strapiRetryDelay v s) = f s) /\
  (forall v s, f (set_lastHealthCheckTime v s) = f s) /\
  (forall v s, f (set_isHealthy v s) = f s).

Definition never_throws {A} (m : M A) : Prop :=
  forall s e s', m s <> Thrown e s'.


Section Vocabulary.

Context `{env : Env}.

Definition remote_healthy : Prop :=
  forall h t k, exists r took,
    remote h t (with_attempt k health_request) = Replied r took /\
    200 <= status r < 300.

Definition Ready (s : State) : Prop :=
  isHealthy s = true \/ timeInterval < now s - lastHealthCheckTime s.

Definition live {A} (m : M A) : Prop :=
  forall s, Ready s -> Ready (final (m s)) /\ is_hang (m s) = false.

(** The conditions under which no wait hangs: the remote service answers
    its health probes, a probe is actually made when one is due (the
    probe loop runs [timeInterval] times at most), and the wait is
    observed for at least one poll. *)
Definition Calm : Prop :=
  remote_healthy /\ 0 < timeInterval /\ (0 < patience)%nat.





End Vocabulary.
(** ** Measures on the wire and on the cache *)

(** The number of calls made from call site [c]: a retry of a call is not
    a call of its own. *)
Definition calls_of (c : Call) (w : list Request) : nat :=
  length (List.filter (fun r => bool_decide (call r = c) && (attempt r =? 0)) w).
Arguments calls_of : simpl never.

(** The reuse window of the credential cache: [strapiRetryDelay], or 180e3
    when that is unset or zero. *)
Definition reuse_window (s : State) : Z :=
  match strapiRetryDelay s with
  | Some d => if d =? 0 then 180000 else d
  | None => 180000
  end.

(** The state in which the credential layer makes its login: a read of
    the cache that finds something also sets the reuse window. *)
Definition login_state (a : AuthInterface) (s : State) : State :=
  match lookup_member (userTokens s) (email a) with
  | Some _ => set_strapiRetryDelay (Some (reuse_window s)) s
  | None => s
  end.

(** The age of a cached credential, in whole seconds. *)
Definition age (s : State) (creds : UserCreds) : Z :=
  now s / 1000 - time creds / 1000.

(** The requests that write an entry: what [executeStrapiSend] sends with
    a method other than GET. *)
Definition is_entry_write (r : Request) : bool :=
  bool_decide (call r = EntrySend) && negb (bool_decide (method r = GET)).

Definition entry_writes (w : list Request) : list Request :=
  List.filter is_entry_write w.

(** An event's [fields] is a list none of whose members is in the
    allow-list. *)
Definition fields_disjoint (updateFields : list string)
  (data : list (string * JsVal)) : Prop :=
  exists fields, Js.get data "fields" = JArr fields /\
                 Forall (fun f => forall name, f = JStr name -> ~ In name updateFields)
                   fields.

(** None of the event's own keys is in the allow-list. *)
Definition keys_disjoint (updateFields : list string)
  (data : list (string * JsVal)) : Prop :=
  Forall (fun key => ~ In key updateFields) (Js.keys data).

(** What [shouldIgnore_] answers for the marker at [key]: there is one
    and it has not expired. *)
Definition marker_live (key : string) (s : State) : bool :=
  match redis s !! key with
  | Some expiry => now s <? expiry
  | None => false
  end.





(** ** Vocabulary of the id translation *)

Module Payload.

(** Some object of the value has an "id" key. *)
Fixpoint has_id_key (v : JsVal) : bool :=
  match v with
  | JObj es => Js.has es "id" || existsb (fun kv => has_id_key (snd kv)) es
  | JArr l => existsb has_id_key l
  | _ => false
  end.

(** Some object of the value has a "medusa_id" key. *)
Fixpoint has_medusa_id_key (v : JsVal) : bool :=
  match v with
  | JObj es =>
      Js.has es "medusa_id" || existsb (fun kv => has_medusa_id_key (snd kv)) es
  | JArr l => existsb has_medusa_id_key l
  | _ => false
  end.

Fixpoint nodup_keys (ks : list string) : bool :=
  match ks with
  | [] => true
  | k :: ks' => negb (existsb (String.eqb k) ks') && nodup_keys ks'
  end.

(** Every object of the value has distinct keys, as every JavaScript
    object has. *)
Fixpoint distinct_keys (v : JsVal) : bool :=
  match v with
  | JObj es =>
      nodup_keys (Js.keys es) && forallb (fun kv => distinct_keys (snd kv)) es
  | JArr l => forallb distinct_keys l
  | _ => true
  end.

(** A well-formed payload in which no "id" holds an object or an array:
    every object has distinct keys, and the value at "id", where there
    is one, is a primitive. *)
Fixpoint plain_ids (v : JsVal) : bool :=
  match v with
  | JObj es =>
      nodup_keys (Js.keys es) &&
      negb (Js.instanceofObject (Js.get es "id")) &&
      forallb (fun kv => plain_ids (snd kv)) es
  | JArr l => forallb plain_ids l
  | _ => true
  end.

(** The translation as the specification words it: every "id" key
    renamed to "medusa_id", at every nesting level. *)
Fixpoint rename_ids (v : JsVal) : JsVal :=
  match v with
  | JObj es =>
      JObj (map (fun kv =>
                   (if String.eqb (fst kv) "id" then "medusa_id" else fst kv,
                    rename_ids (snd kv))) es)
  | JArr l => JArr (map rename_ids l)
  | _ => v
  end.

(** Membership in a list of keys. *)
Definition mem (k : string) (ks : list string) : bool :=
  existsb (String.eqb k) ks.

(** What one level of the translation makes of a child. *)
Definition translated (n : nat) (v r : JsVal) : Prop :=
  if Js.instanceofObject v then translateIdsToMedusaIds n v = Some r
  else r = v.

(** What the loop over the keys [ks] leaves at [key], started on [cur]:
    the "id" entry is gone, "medusa_id" holds its value, every other
    visited child is translated, and the rest is as it was. *)
Definition after_loop (n : nat) (ks : list string)
  (cur : list (string * JsVal)) (key : string) (x : JsVal) : Prop :=
  if mem "id" ks then
    if String.eqb key "id" then x = JUndef
    else if String.eqb key "medusa_id" then x = Js.get cur "id"
    else if mem key ks then translated n (Js.get cur key) x
    else x = Js.get cur key
  else if mem key ks then translated n (Js.get cur key) x
  else x = Js.get cur key.

(** Equality of values as property reads see them: the order of the keys
    of an object does not count. *)
#[warnings="-register-all"] Inductive Same : JsVal -> JsVal -> Prop :=
  | Same_prim v : Js.instanceofObject v = false -> Same v v
  | Same_arr l1 l2 : Forall2 Same l1 l2 -> Same (JArr l1) (JArr l2)
  | Same_obj es1 es2 :
      (forall key, Same (Js.get es1 key) (Js.get es2 key)) ->
      Same (JObj es1) (JObj es2).

End Payload.

(** * The first revision of the data path ([strapiSend])

    The earliest revision of the service sends entries through
    [strapiSend].  It has no retry layer and no waiting: every call is
    one request, and the service state is the health flag and a cache of
    bare tokens.  The methods are written as functions from the state to
    a result and the state reached. *)

Module V1.

Record State := mkState {
  now : Z;
  wire : list Request;
  isHealthy : bool;
  userTokens : gmap string JsVal             (* [Tokens]: email -> jwt *)
}.

Inductive Result (A : Type) :=
  | Resolved (a : A) (s : State)
  | Rejected (e : Err) (s : State).
Arguments Resolved {A} a s.
Arguments Rejected {A} e s.

Definition final {A} (r : Result A) : State :=
  match r with
  | Resolved _ s | Rejected _ s => s
  end.

(** [a || b] on optional strings. *)
Definition or_else (a b : option string) : option string :=
  match a with
  | Some x => if String.eqb x "" then b else Some x
  | None => b
  end.

(** The property key an optional string turns into. *)
Definition key (email : option string) : string := default "undefined" email.

(** [v ?? ...] takes its right side for these. *)
Definition nullish (v : JsVal) : bool :=
  match v with
  | JUndef | JNull => true
  | _ => false
  end.

Section Service.

Context `{env : Env}.

(** [axios(config)]: resolves on 2xx, rejects otherwise. *)
Definition axios (rq : Request) (s : State) : Result Response :=
  let sent := wire s ++ [rq] in
  match remote (wire s) (now s) rq with
  | Replied r took =>
      let s' := mkState (now s + Z.of_N took) sent (isHealthy s) (userTokens s) in
      if (200 <=? status r) && (status r <? 300)
      then Resolved r s'
      else Rejected (AxiosError (Some r)) s'
  | NoReply took =>
      Rejected (AxiosError None)
        (mkState (now s + Z.of_N took) sent (isHealthy s) (userTokens s))
  end.

Definition health_request : Request :=
  mkRequest HealthProbe HEAD (strapi_url options_ +:+ "/_health") None JUndef 0.

Definition set_isHealthy (b : bool) (s : State) : State :=
  mkState (now s) (wire s) b (userTokens s).

(** Every call probes; healthy is status 204. *)
Definition checkStrapiHealth (s : State) : bool * State :=
  match axios health_request s with
  | Resolved response s1 =>
      (status response =? 204, set_isHealthy (status response =? 204) s1)
  | Rejected _ s1 => (false, set_isHealthy false s1)
  end.

Definition defaultUserPassword : string :=
  password (strapi_default_user options_).

Definition login_request (email password : option string) : Request :=
  mkRequest UserLogin POST (strapi_url options_ +:+ "/api/auth/local") None
    (JObj [("identifier", JStr (default defaultUserEmail email));
           ("password",
            JStr (default defaultUserPassword password))])
    0.

(** Resolves with the response when it carries a token (then cached
    under [email]), with [undefined] when the service is unhealthy or
    the response has no token. *)
Definition loginAsStrapiUser (email password : option string) (s : State)
  : Result (option Response) :=
  match checkStrapiHealth s with
  | (false, s1) => Resolved None s1
  | (true, s1) =>
      match axios (login_request email password) s1 with
      | Resolved res s2 =>
          match Js.prop (data res) "jwt" with
          | Some jwt =>
              if Js.truthy jwt then
                Resolved (Some res)
                  (mkState (now s2) (wire s2) (isHealthy s2)
                     (<[key email := jwt]> (userTokens s2)))
              else Resolved None s2
          | None => Rejected (WrappedError None None None TypeError) s2
          end
      | Rejected error s2 => Rejected (WrappedError None None None error) s2
      end
  end.

(** [this.userTokens[email]] *)
Definition fetchUserToken (email : option string) (s : State) : JsVal :=
  default JUndef (userTokens s !! key email).

Definition send_request (method : Method) (type : string) (token : JsVal)
  (id : option string) (data : option JsVal) : Request :=
  mkRequest EntrySend method
    (strapi_url options_ +:+ "/api/" +:+ type +:+ "/" +:+ key id)
    (Some token)
    (match data with
     | Some d => if Js.truthy d then d else JUndef
     | None => JUndef
     end)
    0.

(** Resolves with [undefined] when the service is unhealthy. *)
Definition executeStrapiSend (method : Method) (type : string)
  (token : JsVal) (id : option string) (data : option JsVal) (s : State)
  : Result (option Response) :=
  match checkStrapiHealth s with
  | (false, s1) => Resolved None s1
  | (true, s1) =>
      match axios (send_request method type token id data) s1 with
      | Resolved result s2 => Resolved (Some result) s2
      | Rejected error s2 =>
          Rejected (WrappedError (Some method) (Some type) id error) s2
      end
  end.

(** [fetchUserToken(email) ?? (await loginAsStrapiUser(...)).data.jwt] *)
Definition first_token (username password email : option string) (s : State)
  : Result JsVal :=
  let token := fetchUserToken email s in
  if nullish token then
    match loginAsStrapiUser (or_else email username) password s with
    | Resolved (Some res) s1 =>
        match Js.prop (data res) "jwt" with
        | Some jwt => Resolved jwt s1
        | None => Rejected TypeError s1
        end
    | Resolved None s1 => Rejected TypeError s1
    | Rejected e s1 => Rejected e s1
    end
  else Resolved token s.

Definition strapiSend (method : Method) (type : string) (id : option string)
  (data : option JsVal) (username password email : option string) (s : State)
  : Result (option Response) :=
  match first_token username password email s with
  | Rejected e s1 => Rejected e s1
  | Resolved token s1 =>
      match executeStrapiSend method type token id data s1 with
      | Resolved result s2 => Resolved result s2
      | Rejected _ s2 =>
          (* in case the token expired *)
          match loginAsStrapiUser (or_else email username) password s2 with
          | Rejected e s3 => Rejected e s3
          | Resolved _ s3 =>
              executeStrapiSend method type (fetchUserToken email s3) id data s3
          end
      end
  end.

End Service.

End V1.

(** What a call adds to the wire, as numbers of logins and of entry
    requests. *)
Definition V1_adds (s s' : V1.State) (logins sends : nat) : Prop :=
  exists tr, V1.wire s' = V1.wire s ++ tr /\
             (calls_of UserLogin tr <= logins)%nat /\
             (calls_of EntrySend tr <= sends)%nat.


(** * Deployments

    Concrete remote services, domain services and service states, on
    which the methods are run. *)

Module Shop.

Definition options : Options :=
  mkOptions "http://cms"
    (mkAuth "admin@shop.test" "admin-secret")
    (mkAuth "medusa@shop.test" "user-secret")
    None None.

Definition customer : AuthInterface := strapi_default_user options.

Definition answer (status : Z) (data : JsVal) : Reply :=
  Replied (mkResponse status None None data) 25.

Definition profile : JsVal :=
  JObj [("id", JNum 1); ("email", JStr "medusa@shop.test")].

Definition session (jwt : string) : JsVal :=
  JObj [("jwt", JStr jwt); ("user", profile)].

Definition admin_session : JsVal :=
  JObj [("data", JObj [("user", JObj [("id", JNum 1)]);
                       ("token", JStr "admin-token")])].

Definition stored : JsVal :=
  JObj [("id", JNum 11); ("medusa_id", JStr "reg_1")].

Definition at_path (path : string) (rq : Request) : bool :=
  String.eqb (url rq) ("http://cms" +:+ path).

Definition under (path : string) (rq : Request) : bool :=
  String.prefix ("http://cms" +:+ path) (url rq).

(** A remote service that serves every request; a login yields the
    token "jwt-2". *)
Definition serving : list Request -> Z -> Request -> Reply :=
  fun _ _ rq =>
    if at_path "/_health" rq then answer 204 JUndef
    else if at_path "/api/auth/local" rq then answer 200 (session "jwt-2")
    else if at_path "/admin/login" rq then answer 200 admin_session
    else if under "/admin/" rq then answer 200 (JObj [("user", profile)])
    else if under "/strapi-plugin-medusajs/" rq then answer 200 (JObj [])
    else answer 200 stored.

(** As [serving], but an entry request is unauthorized unless it carries
    the token of the latest login. *)
Definition expiring : list Request -> Z -> Request -> Reply :=
  fun h t rq =>
    if under "/api/" rq && negb (at_path "/api/auth/local" rq) then
      match bearer rq with
      | Some (JStr "jwt-2") => answer 200 stored
      | _ => answer 401 JUndef
      end
    else serving h t rq.

(** As [serving], but with no "regions" type: whatever is asked under
    that type is not found. *)
Definition without_regions : list Request -> Z -> Request -> Reply :=
  fun h t rq =>
    if under "/api/regions" rq then answer 404 JUndef else serving h t rq.

(** As [serving], but with no "product-variants" type. *)
Definition without_variants : list Request -> Z -> Request -> Reply :=
  fun h t rq =>
    if under "/api/product-variants" rq then answer 404 JUndef
    else serving h t rq.

(** A remote service that throttles every request, asking for 2 seconds. *)
Definition throttling : list Request -> Z -> Request -> Reply :=
  fun _ _ _ => Replied (mkResponse 429 (Some 2) None JUndef) 25.


Definition product (id : JsVal) : Err + option (list (string * JsVal)) :=
  inr (Some [("id", id); ("title", JStr "Shirt");
             ("options", JArr [JObj [("id", JStr "opt_1"); ("title", JStr "Size")]])]).

Definition variant (id : JsVal) : Err + option (list (string * JsVal)) :=
  inr (Some [("id", id); ("title", JStr "Small"); ("sku", JStr "sh-s")]).

Definition region (id : JsVal) : Err + option (list (string * JsVal)) :=
  inr (Some [("id", id); ("name", JStr "Europe"); ("currency_code", JStr "eur")]).

Definition deployment (remote : list Request -> Z -> Request -> Reply) : Env :=
  mkEnv remote options 3%nat product variant region (fun _ => false).

Definition open_shop : Env := deployment serving.
Definition stale_shop : Env := deployment expiring.
Definition regionless : Env := deployment without_regions.
Definition variantless : Env := deployment without_variants.
Definition throttled : Env := deployment throttling.

(** The service some time after start: healthy, probed 10 seconds ago. *)
Definition booted : State :=
  mkState 1000000 [] None 990000 true ∅ JUndef JUndef None ∅.

Definition cached : UserCreds := mkCreds (JStr "jwt-1") 995000 profile.

(** The same, with the default user logged in 5 seconds ago. *)
Definition logged_in : State :=
  set_userTokens {[ "medusa@shop.test" := cached ]} booted.

(** The same, a long time later. *)
Definition much_later : State := set_now 1000000000 logged_in.


(** Events. *)
Definition retitled : list (string * JsVal) :=
  [("id", JStr "prod_1"); ("fields", JArr [JStr "title"])].

Definition untouched : list (string * JsVal) :=
  [("id", JStr "prod_1"); ("fields", JArr [JStr "metadata"])].

Definition named : list (string * JsVal) :=
  [("id", JStr "reg_1"); ("fields", JArr [JStr "metadata"]);
   ("name", JStr "Europe")].

Definition region_gone : list (string * JsVal) := [("id", JStr "reg_1")].

(** Entities. *)
Definition shirt : list (string * JsVal) :=
  [("id", JStr "prod_1"); ("title", JStr "Shirt");
   ("options", JArr [JObj [("id", JStr "opt_1"); ("title", JStr "Size")]])].

Definition imported : list (string * JsVal) :=
  [("id", JStr "prod_1");
   ("origin", JObj [("id", JObj [("erp", JNum 7)])])].

Definition put (entity : list (string * JsVal)) : StrapiSendParams :=
  mkSendParams PUT "products" (JStr "prod_1") (Some entity) customer.

(** The first revision of the service, with a token cached. *)
Definition first_revision : V1.State :=
  V1.mkState 1000000 [] true {[ "medusa@shop.test" := JStr "jwt-1" ]}.

(** What the wire shows of a request. *)
Definition line (rq : Request) : Method * string := (method rq, url rq).

End Shop.

(** * More of the service

    The operations built on the entry data layer and on the privileged
    sender that the development above leaves out. *)

Section Operations.

Context `{env : Env}.

(** [checkType]: [result ? true : false], where a result is an object. *)
Definition checkType (type : string) (authInterface : AuthInterface) : M bool :=
  try_catch (getType type authInterface;; ret true) (fun _ => ret false).

(** [getEntriesInStrapi], [doesEntryExistInStrapi] *)
Definition getEntriesInStrapi (command : StrapiSendParams) : M StrapiResult :=
  processStrapiEntry (with_method GET command).

Definition doesEntryExistInStrapi (type : string) (id : JsVal)
  (authInterface : AuthInterface) : M StrapiResult :=
  processStrapiEntry (mkSendParams GET type id None authInterface).

(** [o[to] = _.cloneDeep(o[from]); delete o[from]] *)
Definition move_key (es : list (string * JsVal)) (from to : string)
  : list (string * JsVal) :=
  Js.del (Js.set es to (Js.get es from)) from.

(** The payload [createProductInStrapi] builds from a product. *)
Definition productToSend (product : list (string * JsVal))
  : list (string * JsVal) :=
  move_key
    (move_key
       (move_key (move_key product "type" "product-type") "tags" "product-tag")
       "options" "product-option")
    "variants" "product-variant".

(** [hasType] is [getType(...) ? true : false] here, and a result is an
    object: the test never fails.  The result is [undefined] ([None])
    when there is no such product. *)
Definition createProductInStrapi (productId : JsVal)
  (authInterface : AuthInterface) : M (option StrapiResult) :=
  getType "products" authInterface;;
  try_catch
    (let* product := domain (productService_retrieve productId) in
     match product with
     | Some p =>
         let* result :=
           createEntryInStrapi
             (mkSendParams POST "products" JUndef (Some (productToSend p))
                authInterface) in
         ret (Some result)
     | None => ret None
     end)
    (fun error => throw error).

(** The payload [createProductVariantInStrapi] builds: the prices move,
    the options are copied and stay. *)
Definition variantToSend (variant : list (string * JsVal))
  : list (string * JsVal) :=
  let moved := move_key variant "prices" "money-amount" in
  Js.set moved "product-option" (Js.get moved "options").

Definition createProductVariantInStrapi (variantId : JsVal)
  (authInterface : AuthInterface) : M (option StrapiResult) :=
  let* hasType := hasType "product-variants" authInterface in
  if negb hasType then ret (Some status400)
  else
    try_catch
      (let* variant := domain (productVariantService_retrieve variantId) in
       match variant with
       | Some v =>
           let* result :=
             createEntryInStrapi
               (mkSendParams POST "product-variants" variantId
                  (Some (variantToSend v)) authInterface) in
           ret (Some result)
       | None => ret None
       end)
      (fun error => throw error).

(** [createEntityInStrapi]: the answer of [checkType] is not looked at. *)
Definition createEntityInStrapi (strapiEntityType : string)
  (medusaService_retrieve : JsVal -> Err + option (list (string * JsVal)))
  (id : JsVal) (authInterface : AuthInterface) : M (option StrapiResult) :=
  checkType strapiEntityType authInterface;;
  let* entity := domain (medusaService_retrieve id) in
  match entity with
  | Some e =>
      let* result :=
        createEntryInStrapi
          (mkSendParams POST strapiEntityType JUndef (Some e) authInterface) in
      ret (Some result)
  | None => ret None
  end.

(** [{ data: result?.data, status: result.status }] *)
Definition getEntitiesFromStrapi (strapiEntityType : string) (id : JsVal)
  (authInterface : AuthInterface) : M (JsVal * Z) :=
  checkType strapiEntityType authInterface;;
  try_catch
    (let* result :=
       getEntriesInStrapi
         (mkSendParams GET strapiEntityType id None authInterface) in
     ret (result_data result, result_status result))
    (fun _ => ret (JUndef, 404)).

(** [{ ..._.cloneDeep(data), created_at, updated_at }] *)
Definition metafield_dataToInsert (data productInfo : list (string * JsVal))
  : list (string * JsVal) :=
  Js.set (Js.set data "created_at" (Js.get productInfo "created_at"))
    "updated_at" (Js.get productInfo "updated_at").

(** [productInfo.created_at] on what [retrieve] resolved with. *)
Definition product_info (id : JsVal) : M (list (string * JsVal)) :=
  let* productInfo := domain (productService_retrieve id) in
  match productInfo with
  | Some p => ret p
  | None => throw TypeError
  end.

Definition createProductMetafieldInStrapi (data : list (string * JsVal))
  (authInterface : AuthInterface) : M StrapiResult :=
  let* typeExists := checkType "product-metafields" authInterface in
  if negb typeExists then ret status400
  else
    let* productInfo := product_info (Js.get data "id") in
    createEntryInStrapi
      (mkSendParams POST "product-metafields" (Js.get data "id")
         (Some (metafield_dataToInsert data productInfo)) authInterface).

(** Asks for the type "metafields", writes a "product-metafields" entry. *)
Definition updateProductMetafieldInStrapi (data : list (string * JsVal))
  (authInterface : AuthInterface) : M StrapiResult :=
  let* typeExists := checkType "metafields" authInterface in
  if negb typeExists then ret status400
  else
    let* productInfo := product_info (Js.get data "id") in
    let dataToInsert := Js.del (metafield_dataToInsert data productInfo) "id" in
    updateEntryInStrapi
      (mkSendParams PUT "product-metafields" (Js.get data "id")
         (Some dataToInsert) authInterface).

(** [fetchedUser.id?.toString()] *)
Definition id_toString (id : JsVal) : JsVal :=
  match id with
  | JUndef | JNull => JUndef
  | v => JStr (Js.toString v)
  end.

Definition deleteMedusaUserFromStrapi (authInterface : AuthInterface)
  : M StrapiResult :=
  let* fetchedUser :=
    strapiSendDataLayer (mkSendParams GET "users" (JStr "me") None authInterface) in
  let* entry :=
    gets (fun s => lookup_member (userTokens s) (email authInterface)) in
  let* token := match entry with
                | Some creds => ret (token creds)
                | None => throw TypeError
                end in
  let* result :=
    executeStrapiSend DELETE "users" token (id_toString (result_id fetchedUser))
      None in
  ret (mkResult JUndef JUndef (status result) (data result)).

(** Resolves with [undefined] ([None]) when the deletion fails. *)
Definition deleteDefaultMedusaUser : M (option StrapiResult) :=
  try_catch
    (let* response := deleteMedusaUserFromStrapi defaultAuthInterface in
     modify (fun s =>
       set_userTokens
         (delete_member (email defaultAuthInterface) (userTokens s)) s);;
     ret (Some response))
    (fun _ => ret None).

(** [{ status }] *)
Definition status_only (status : Z) : StrapiResult :=
  mkResult JUndef JUndef status JUndef.

Definition configureStrapiMedusaForUser (authInterface : AuthInterface)
  : M StrapiResult :=
  try_catch
    (let* creds := strapiLoginSendDatalayer authInterface in
     let* jwt := match creds with
                 | Some c => ret (token c)
                 | None => throw TypeError          (* [undefined.token] *)
                 end in
     if negb (Js.truthy jwt) then ret status400
     else
       let* result := executeSync jwt in
       ret (status_only (status result)))
    (fun _ => ret status400).

Record StrapiAdminSendParams := mkAdminParams {
  ap_method : Method;
  ap_type : string;
  ap_id : option string;
  ap_action : option string;
  ap_data : option JsVal;
  ap_query : option string
}.

(** [{ data, status }] *)
Definition strapiAdminSendDatalayer (command : StrapiAdminSendParams)
  : M (JsVal * Z) :=
  try_catch
    (let* result :=
       executeStrapiAdminSend (ap_method command) (ap_type command)
         (ap_id command) (ap_action command) (ap_data command)
         (ap_query command) in
     ret (data result, status result))
    (fun _ => ret (JUndef, 400)).

Definition getAllAdminUserInStrapi : M (JsVal * Z) :=
  strapiAdminSendDatalayer (mkAdminParams GET "users" None None None None).

Definition startInterface : M (option Response) :=
  try_catch intializeServer (fun e => throw e).

End Operations.

(** ** Vocabulary of the statements about them *)

(** The members of an event's [fields], when it is a list. *)
Definition listed_fields (data : list (string * JsVal)) : list JsVal :=
  match Js.get data "fields" with
  | JArr fields => fields
  | _ => []
  end.

(** The requests a run has added to the wire. *)
Definition added (s : State) {A} (o : Outcome A) (r : Request) : Prop :=
  exists tr, wire (final o) = wire s ++ tr /\ In r tr.

(** A request as first sent and as sent again by the retry layer. *)
Definition attempt_of (rq r : Request) : Prop :=
  exists k, r = mkRequest (call rq) (method rq) (url rq) (bearer rq) (body rq) k.

Section Shapes.

Context `{env : Env}.

(** The endpoint [executeStrapiSend] addresses. *)
Definition entry_url (m : Method) (type : string) (id : JsVal) : string :=
  match m with
  | POST => strapi_url options_ +:+ "/api/" +:+ type
  | _ => strapi_url options_ +:+ "/api/" +:+ type +:+
           (if Js.truthy id then "/" +:+ Js.toString id else "/")
  end.

(** The request [strapiSendDataLayer] hands to the transport, given the
    token. *)
Definition layer_request (p : StrapiSendParams) (token : JsVal) : Request :=
  mkRequest EntrySend (sp_method p) (entry_url (sp_method p) (sp_type p) (sp_id p))
    (Some token) (JObj [("data", dataToSend_of (sp_data p))]) 0.

End Shapes.

(** [Sends P s s']: the wire of [s'] is the wire of [s] and then requests
    that all satisfy [P]. *)
Definition Sends (P : Request -> Prop) (s s' : State) : Prop :=
  exists tr, wire s' = wire s ++ tr /\ Forall P tr.

(** The keys [createProductInStrapi] renames. *)
Definition product_relations : list string :=
  ["type"; "tags"; "options"; "variants"].

(** The event's [fields] is absent or a list. *)
Definition fields_wellformed (data : list (string * JsVal)) : Prop :=
  match Js.get data "fields" with
  | JUndef | JNull | JArr _ => True
  | _ => False
  end.


Definition is_thrown {A} (o : Outcome A) : bool :=
  match o with Thrown _ _ => true | _ => false end.

(** ** More deployments *)

Module Depot.

(** A remote service that is down: its health endpoint answers 503. *)
Definition down : list Request -> Z -> Request -> Reply :=
  fun h t rq =>
    if Shop.at_path "/_health" rq then Shop.answer 503 JUndef
    else Shop.serving h t rq.

(** A remote service that refuses every login. *)
Definition no_login : list Request -> Z -> Request -> Reply :=
  fun h t rq =>
    if Shop.at_path "/api/auth/local" rq then Shop.answer 400 JUndef
    else Shop.serving h t rq.

(** A remote service on which nothing is found under "/api/". *)
Definition empty : list Request -> Z -> Request -> Reply :=
  fun h t rq =>
    if Shop.under "/api/" rq && negb (Shop.at_path "/api/auth/local" rq)
    then Shop.answer 404 JUndef
    else Shop.serving h t rq.

(** A remote service whose login answers without a token. *)
Definition tokenless : list Request -> Z -> Request -> Reply :=
  fun h t rq =>
    if Shop.at_path "/api/auth/local" rq then Shop.answer 200 (JObj [])
    else Shop.serving h t rq.


Definition tokenless_shop : Env := Shop.deployment tokenless.
Definition down_shop : Env := Shop.deployment down.
Definition no_login_shop : Env := Shop.deployment no_login.
Definition empty_shop : Env := Shop.deployment empty.

(** A deployment whose key-value store refuses every command. *)
Definition storeless_shop : Env :=
  mkEnv Shop.serving Shop.options 3%nat Shop.product Shop.variant Shop.region
    (fun _ => true).

(** The service at start, before any probe. *)
Definition started : State := initial_state 1000000.

(** A logged in service whose last rate limit asked for 60 seconds, and
    whose administrator logged in 5 seconds ago. *)
Definition administered : State :=
  set_lastAdminLoginAttemptTime (Some 995000)
    (set_strapiSuperAdminAuthToken (JStr "admin-token")
       (set_strapiRetryDelay (Some 60000) Shop.logged_in)).

(** Entities and events. *)
Definition variant : list (string * JsVal) :=
  [("id", JStr "variant_1"); ("title", JStr "Small");
   ("prices", JArr [JObj [("id", JStr "ma_1"); ("amount", JNum 1000)]]);
   ("options", JArr [JObj [("id", JStr "optval_1"); ("value", JStr "S")]])].

Definition translated : list (string * JsVal) :=
  [("title", JStr "Shirt"); ("medusa_id", JStr "prod_1")].

Definition metafield : list (string * JsVal) :=
  [("id", JStr "prod_1"); ("data", JObj [("care", JStr "wash cold")])].

Definition read_me : StrapiSendParams :=
  mkSendParams GET "users" (JStr "me") None Shop.customer.

(** The last request a run has put on the wire. *)
Definition last_sent {A} (o : Outcome A) : Request :=
  List.last (wire (final o)) (mkRequest HealthProbe HEAD "" None JUndef 0).

End Depot.
(** * Reasoning about service methods *)

Section Stable.

Context (R : State -> State -> Prop) `{!PreOrder R}.

Lemma stable_ret {A} (a : A) : stable R (ret a).
Proof. intros s. simpl. reflexivity. Qed.

Lemma stable_throw {A} (e : Err) : stable R (@throw A e).
Proof. intros s. simpl. reflexivity. Qed.

Lemma stable_hang {A} : stable R (@hang A).
Proof. intros s. simpl. reflexivity. Qed.

Lemma stable_gets {A} (f : State -> A) : stable R (gets f).
Proof. intros s. simpl. reflexivity. Qed.

Lemma stable_prop v key : stable R (prop v key).
Proof. unfold prop. destruct (Js.prop v key); [apply stable_ret | apply stable_throw]. Qed.

Lemma stable_bind {A B} (m : M A) (k : A -> M B) :
  stable R m -> (forall a, stable R (k a)) -> stable R (bind m k).
Proof.
  intros Hm Hk s. unfold bind. specialize (Hm s).
  destruct (m s) as [a s'|e s'|s']; simpl in *; auto.
  etransitivity; [exact Hm | apply Hk].
Qed.

Lemma stable_try {A} (m : M A) (h : Err -> M A) :
  stable R m -> (forall e, stable R (h e)) -> stable R (try_catch m h).
Proof.
  intros Hm Hh s. unfold try_catch. specialize (Hm s).
  destruct (m s) as [a s'|e s'|s']; simpl in *; auto.
  etransitivity; [exact Hm | apply Hh].
Qed.

Lemma stable_modify (f : State -> State) :
  (forall s, R s (f s)) -> stable R (modify f).
Proof. intros Hf s. apply Hf. Qed.

Lemma stable_domain {A} (r : Err + A) : stable R (domain r).
Proof. destruct r; [apply stable_throw | apply stable_ret]. Qed.

End Stable.

(** Structural steps shared by all stability proofs. *)
Ltac sapply lem := apply lem; try typeclasses eauto.

Ltac stable_step :=
  lazymatch goal with
  | |- stable _ (bind _ _) => sapply @stable_bind; [ | intros ? ]
  | |- stable _ (try_catch _ _) => sapply @stable_try; [ | intros ? ]
  | |- stable _ (ret _) => sapply @stable_ret
  | |- stable _ (throw _) => sapply @stable_throw
  | |- stable _ hang => sapply @stable_hang
  | |- stable _ (gets _) => sapply @stable_gets
  | |- stable _ (prop _ _) => sapply @stable_prop
  | |- stable _ (domain _) => sapply @stable_domain
  | |- stable _ (_axiosError _ _ _ _) => sapply @stable_throw
  | |- stable _ (if ?b then _ else _) => destruct b
  | |- stable _ (match ?x with _ => _ end) => destruct x
  end.

#[global] Instance Extends_preorder l : PreOrder (Extends l).
Proof.
  split.
  - intros s. repeat split; [lia|]. exists []. rewrite app_nil_r. auto.
  - intros s1 s2 s3 (H1 & H2 & tr1 & H3 & H4) (H5 & H6 & tr2 & H7 & H8).
    repeat split; [lia | congruence |].
    exists (tr1 ++ tr2). rewrite H7, H3, app_assoc. split; [reflexivity|].
    apply Forall_app; auto.
Qed.

Lemma Extends_weaken l1 l2 s s' :
  incl l1 l2 -> Extends l1 s s' -> Extends l2 s s'.
Proof.
  intros Hi (H1 & H2 & tr & H3 & H4). repeat split; auto.
  exists tr. split; auto. eapply Forall_impl; [exact H4|].
  intros r Hr. apply Hi, Hr.
Qed.

Lemma stable_weaken l1 l2 {A} (m : M A) :
  incl l1 l2 -> stable (Extends l1) m -> stable (Extends l2) m.
Proof. intros Hi Hm s. eapply Extends_weaken; eauto. Qed.

Ltac solve_incl :=
  let x := fresh in let Hx := fresh in
  intros x Hx; simpl in *; intuition.

(** A leaf of a stability proof: a method already treated, possibly with
    a smaller list of call sites. *)
Ltac stable_leaf lem :=
  first [ apply lem | eapply stable_weaken; [| apply lem]; solve_incl ].

Lemma Extends_set_now l s t : now s <= t -> Extends l s (set_now t s).
Proof. intros. repeat split; simpl; auto. exists []. rewrite app_nil_r. auto. Qed.

Ltac extends_field :=
  intros; repeat split; simpl; try lia; try reflexivity;
  exists []; rewrite app_nil_r; auto.

Section Wire.

Context `{env : Env}.

Lemma sleep_extends l ms : stable (Extends l) (sleep ms).
Proof. intros s. unfold sleep, modify. simpl. apply Extends_set_now. lia. Qed.

Lemma retryDelay_extends l k r : stable (Extends l) (retryDelay k r).
Proof.
  unfold retryDelay. repeat stable_step.
  sapply @stable_modify. extends_field.
Qed.

Lemma transmit_extends rq : stable (Extends [(call rq, method rq)]) (transmit rq).
Proof.
  intros s. unfold transmit.
  assert (He : forall t, now s <= t ->
            Extends [(call rq, method rq)] s (set_now t (set_wire (wire s ++ [rq]) s))).
  { intros t Ht. repeat split; simpl; auto. exists [rq]. split; auto.
    constructor; [|constructor]. left. reflexivity. }
  destruct (remote (wire s) (now s) rq) as [r took|took]; simpl.
  - destruct (_ && _); simpl; apply He; lia.
  - apply He. lia.
Qed.

Lemma axios_from_extends left k rq :
  stable (Extends [(call rq, method rq)]) (axios_from left k rq).
Proof.
  revert k. induction left as [|left IH]; intros k; simpl.
  - stable_step; [apply (transmit_extends (with_attempt k rq)) | stable_step].
  - stable_step; [apply (transmit_extends (with_attempt k rq)) |].
    repeat stable_step. 
    + apply retryDelay_extends.
    + apply sleep_extends.
    + apply IH.
Qed.

Lemma axios_extends rq : stable (Extends [(call rq, method rq)]) (axios rq).
Proof. apply axios_from_extends. Qed.

Lemma health_probe_loop_extends n r :
  stable (Extends health_calls) (health_probe_loop n r).
Proof.
  revert r. induction n as [|n IH]; intros r; simpl; repeat stable_step.
  - apply (axios_extends health_request).
  - apply sleep_extends.
  - apply IH.
Qed.

Lemma executeStrapiHealthCheck_extends :
  stable (Extends health_calls) executeStrapiHealthCheck.
Proof.
  unfold executeStrapiHealthCheck. repeat stable_step;
    try (sapply @stable_modify; extends_field).
  apply health_probe_loop_extends.
Qed.

Lemma checkStrapiHealth_extends :
  stable (Extends health_calls) checkStrapiHealth.
Proof.
  unfold checkStrapiHealth. repeat stable_step.
  apply executeStrapiHealthCheck_extends.
Qed.

Lemma waitForHealth_loop_extends n :
  stable (Extends health_calls) (waitForHealth_loop n).
Proof.
  induction n as [|n IH]; simpl; repeat stable_step.
  - apply checkStrapiHealth_extends.
  - apply sleep_extends.
  - apply IH.
Qed.

Lemma waitForHealth_extends : stable (Extends health_calls) waitForHealth.
Proof. apply waitForHealth_loop_extends. Qed.

Lemma executeLoginAsStrapiUser_extends a :
  stable (Extends login_calls) (executeLoginAsStrapiUser a).
Proof.
  unfold executeLoginAsStrapiUser. repeat stable_step.
  - stable_leaf waitForHealth_extends.
  - eapply stable_weaken; [|apply axios_extends]. solve_incl.
Qed.

Lemma login_and_cache_extends a :
  stable (Extends login_calls) (login_and_cache a).
Proof.
  unfold login_and_cache. repeat stable_step;
    try (sapply @stable_modify; extends_field).
  apply executeLoginAsStrapiUser_extends.
Qed.

Lemma strapiLoginSendDatalayer_extends a :
  stable (Extends login_calls) (strapiLoginSendDatalayer a).
Proof.
  unfold strapiLoginSendDatalayer. repeat stable_step;
    try (sapply @stable_modify; extends_field).
  apply login_and_cache_extends.
Qed.

Lemma executeStrapiSend_extends m type token id data :
  stable (Extends (send_calls m)) (executeStrapiSend m type token id data).
Proof.
  unfold executeStrapiSend. repeat stable_step.
  - stable_leaf waitForHealth_extends.
  - eapply stable_weaken; [|apply axios_extends]. solve_incl.
Qed.

Lemma strapiSendDataLayer_extends p :
  stable (Extends (layer_calls (sp_method p))) (strapiSendDataLayer p).
Proof.
  unfold strapiSendDataLayer. repeat stable_step;
    first [ stable_leaf strapiLoginSendDatalayer_extends
          | stable_leaf executeStrapiSend_extends ].
Qed.

Lemma processStrapiEntry_extends p :
  stable (Extends (layer_calls (sp_method p))) (processStrapiEntry p).
Proof.
  unfold processStrapiEntry. repeat stable_step.
  apply strapiSendDataLayer_extends.
Qed.

Lemma hasType_extends type a :
  stable (Extends (layer_calls GET)) (hasType type a).
Proof.
  unfold hasType, getType. repeat stable_step.
  apply (strapiSendDataLayer_extends (mkSendParams GET type JUndef None a)).
Qed.

End Wire.

(** ** Termination of the health wait

    [waitForHealth] polls until the service is healthy, so a method built
    on it returns only if the remote service answers its health probes.
    [Ready s] says the next health check will not report "unhealthy" from
    the cache: either the cached state is healthy, or a probe is due. *)

Section Live.

Context `{env : Env}.

Lemma live_ret {A} (a : A) : live (ret a).
Proof. intros s H. auto. Qed.
Lemma live_throw {A} (e : Err) : live (@throw A e).
Proof. intros s H. auto. Qed.
Lemma live_gets {A} (f : State -> A) : live (gets f).
Proof. intros s H. auto. Qed.
Lemma live_prop v key : live (prop v key).
Proof. unfold prop. destruct (Js.prop v key); [apply live_ret | apply live_throw]. Qed.
Lemma live_domain {A} (r : Err + A) : live (domain r).
Proof. destruct r; [apply live_throw | apply live_ret]. Qed.

Lemma live_bind {A B} (m : M A) (k : A -> M B) :
  live m -> (forall a, live (k a)) -> live (bind m k).
Proof.
  intros Hm Hk s Hs. unfold bind. destruct (Hm s Hs) as [H1 H2].
  destruct (m s) as [a s'|e s'|s']; simpl in *; auto. apply Hk, H1.
Qed.

Lemma live_try {A} (m : M A) (h : Err -> M A) :
  live m -> (forall e, live (h e)) -> live (try_catch m h).
Proof.
  intros Hm Hh s Hs. unfold try_catch. destruct (Hm s Hs) as [H1 H2].
  destruct (m s) as [a s'|e s'|s']; simpl in *; auto. apply Hh, H1.
Qed.

Lemma live_modify (f : State -> State) :
  (forall s, Ready s -> Ready (f s)) -> live (modify f).
Proof. intros Hf s Hs. split; [apply Hf, Hs | reflexivity]. Qed.

Lemma Ready_later s s' :
  isHealthy s' = isHealthy s -> lastHealthCheckTime s' = lastHealthCheckTime s ->
  now s <= now s' -> Ready s -> Ready s'.
Proof. unfold Ready. intros -> -> Hn [H|H]; [left|right]; auto. lia. Qed.

Lemma live_sleep ms : live (sleep ms).
Proof.
  apply live_modify. intros s. apply Ready_later; simpl; auto. lia.
Qed.

Lemma live_retryDelay k r : live (retryDelay k r).
Proof.
  unfold retryDelay. apply live_bind; [apply live_gets|]. intros t.
  apply live_bind; [|intros; apply live_ret].
  apply live_modify. intros s. apply Ready_later; simpl; auto. lia.
Qed.

Lemma live_transmit rq : live (transmit rq).
Proof.
  intros s Hs. unfold transmit.
  assert (He : forall t, now s <= t ->
            Ready (set_now t (set_wire (wire s ++ [rq]) s))).
  { intros t Ht. revert Hs. apply Ready_later; simpl; auto. }
  destruct (remote (wire s) (now s) rq) as [r took|took]; simpl.
  - destruct (_ && _); simpl; split; auto; apply He; lia.
  - split; auto. apply He. lia.
Qed.

End Live.

Ltac live_step :=
  lazymatch goal with
  | |- live (bind _ _) => apply live_bind; [ | intros ? ]
  | |- live (try_catch _ _) => apply live_try; [ | intros ? ]
  | |- live (ret _) => apply live_ret
  | |- live (throw _) => apply live_throw
  | |- live (gets _) => apply live_gets
  | |- live (prop _ _) => apply live_prop
  | |- live (domain _) => apply live_domain
  | |- live (_axiosError _ _ _ _) => apply live_throw
  | |- live (sleep _) => apply live_sleep
  | |- live (retryDelay _ _) => apply live_retryDelay
  | |- live (transmit _) => apply live_transmit
  | |- live (if ?b then _ else _) => destruct b
  | |- live (match ?x with _ => _ end) => destruct x
  end.

Ltac live_field :=
  apply live_modify; let s := fresh in
  intros s; apply Ready_later; simpl; auto; lia.

Section LiveHealth.

Context `{env : Env}.

Lemma live_axios_from left k rq : live (axios_from left k rq).
Proof.
  revert k. induction left as [|left IH]; intros k; simpl;
    repeat live_step. apply IH.
Qed.

Lemma live_axios rq : live (axios rq).
Proof. apply live_axios_from. Qed.

Lemma axios_health_probe s :
  remote_healthy ->
  exists r s', axios health_request s = Returned r s' /\
               200 <= status r < 300.
Proof.
  intros Hremote.
  unfold axios, retries. simpl. unfold try_catch, transmit.
  destruct (Hremote (wire s) (now s) 0) as (r & took & Hr & Hs).
  rewrite Hr.
  replace ((200 <=? status r) && (status r <? 300)) with true
    by (symmetry; apply andb_true_iff; split; [apply Z.leb_le | apply Z.ltb_lt]; lia).
  eauto.
Qed.

Lemma executeStrapiHealthCheck_healthy s :
  remote_healthy -> 0 < timeInterval ->
  exists s', executeStrapiHealthCheck s = Returned true s' /\
             isHealthy s' = true.
Proof.
  intros Hremote Hinterval.
  unfold executeStrapiHealthCheck.
  destruct (Z.to_nat timeInterval) as [|n] eqn:Hn; [lia|].
  unfold try_catch, bind at 1. simpl health_probe_loop. unfold bind at 1.
  destruct (axios_health_probe s Hremote) as (r & s1 & -> & Hr).
  replace (negb (status r =? 0)) with true
    by (symmetry; apply negb_true_iff, Z.eqb_neq; lia).
  unfold ret, bind, gets, modify. simpl.
  replace (status r <? 300) with true by (symmetry; apply Z.ltb_lt; lia).
  eauto.
Qed.

Lemma checkStrapiHealth_healthy s :
  remote_healthy -> 0 < timeInterval -> Ready s ->
  exists s', checkStrapiHealth s = Returned true s' /\ isHealthy s' = true.
Proof.
  intros Hremote Hinterval Hs. unfold checkStrapiHealth, bind, gets.
  destruct (now s - lastHealthCheckTime s >? timeInterval) eqn:He.
  - apply executeStrapiHealthCheck_healthy; assumption.
  - destruct Hs as [Hs|Hs]; [|lia]. rewrite Hs. eauto.
Qed.

Lemma live_waitForHealth : Calm -> live waitForHealth.
Proof.
  intros (Hremote & Hinterval & Hpatience) s Hs. unfold waitForHealth.
  destruct patience as [|p]; [lia|]. simpl. unfold bind.
  destruct (checkStrapiHealth_healthy s Hremote Hinterval Hs) as (s' & -> & Hh).
  simpl. split; [left; exact Hh | reflexivity].
Qed.

End LiveHealth.

(** * The claims *)

Section Claims.

Context `{env : Env}.

(** ** Token lookup *)

Lemma lookup_member_own tokens e creds :
  tokens !! e = Some creds -> lookup_member tokens e = Some creds.
Proof. unfold lookup_member. intros ->. reflexivity. Qed.



(** C10. [fetchUserToken(email)] reads [userTokens[email].token] with no
    guard.  For an email with no entry in the token cache (the default
    user's email when none is passed) it throws a TypeError, unless the
    email names a member of [Object.prototype]: the read then finds that
    member, whose [token] is [undefined], and [undefined] is returned.
    With an entry, its token is returned. *)
Theorem fetchUserToken_without_entry (e : option string) (s : State) :
  pristine (userTokens s) ->
  (userTokens s !! default defaultUserEmail e = None ->
   fetchUserToken e s =
     if inherited (default defaultUserEmail e) then Returned JUndef s
     else Thrown TypeError s) /\
  (forall creds,
     userTokens s !! default defaultUserEmail e = Some creds ->
     fetchUserToken e s = Returned (token creds) s).
Proof.
  intros _. unfold fetchUserToken, bind, gets, lookup_member. split.
  - intros ->. destruct (inherited _); reflexivity.
  - intros creds ->. reflexivity.
Qed.

(** ** Health monitor *)

Lemma transmit_wire rq s : wire (final (transmit rq s)) = wire s ++ [rq].
Proof.
  unfold transmit. destruct (remote _ _ _); [destruct (_ && _)|]; reflexivity.
Qed.

Lemma transmit_no_hang rq s : is_hang (transmit rq s) = false.
Proof.
  unfold transmit. destruct (remote _ _ _); [destruct (_ && _)|]; reflexivity.
Qed.

Lemma transmit_2xx rq s r s' :
  transmit rq s = Returned r s' -> 200 <= status r < 300.
Proof.
  unfold transmit. destruct (remote _ _ _); [destruct (_ && _) eqn:Hb|];
    intros [= <- <-]. apply andb_true_iff in Hb. lia.
Qed.

(** One step of the retry layer: a reply other than 429 ends the call, a
    429 reply (while retries remain) stores the computed delay, waits for
    it and sends the request again. *)
Lemma axios_from_eq left k rq s :
  axios_from left k rq s =
    match transmit (with_attempt k rq) s with
    | Returned r s1 => Returned r s1
    | Thrown e s1 =>
        match left, e with
        | S left', AxiosError (Some r) =>
            if status r =? 429 then
              let d := retryDelay_value (now s1) (k + 1) r in
              axios_from left' (k + 1) rq
                (set_now (now s1 + Z.max 0 d)
                   (set_strapiRetryDelay (Some d) s1))
            else Thrown e s1
        | _, _ => Thrown e s1
        end
    | Hangs s1 => Hangs s1
    end.
Proof.
  destruct left as [|left]; simpl; unfold try_catch;
    destruct (transmit (with_attempt k rq) s) as [r s1|e s1|s1]; try reflexivity.
  destruct e as [|[r|]| | |]; simpl; try reflexivity.
  destruct (status r =? 429); reflexivity.
Qed.

Lemma axios_from_2xx left k rq s r s' :
  axios_from left k rq s = Returned r s' -> 200 <= status r < 300.
Proof.
  revert k s. induction left as [|left IH]; intros k s; rewrite axios_from_eq;
    destruct (transmit (with_attempt k rq) s) as [r0 s1|e s1|s1] eqn:Ht;
    try discriminate;
    try (intros [= <- <-]; eapply transmit_2xx; exact Ht).
  destruct e as [|[r1|]| | |]; try discriminate.
  destruct (status r1 =? 429); [|discriminate]. apply IH.
Qed.

Lemma axios_from_no_hang left k rq s : is_hang (axios_from left k rq s) = false.
Proof.
  revert k s. induction left as [|left IH]; intros k s; rewrite axios_from_eq;
    pose proof (transmit_no_hang (with_attempt k rq) s) as Hn;
    destruct (transmit (with_attempt k rq) s) as [r0 s1|e s1|s1]; auto.
  destruct e as [|[r1|]| | |]; auto.
  destruct (status r1 =? 429); auto.
Qed.

Lemma axios_from_first left k rq s :
  exists rest,
    wire (final (axios_from left k rq s)) = wire s ++ with_attempt k rq :: rest /\
    Forall (fun r => exists j, k < j /\ r = with_attempt j rq) rest.
Proof.
  revert k s. induction left as [|left IH]; intros k s; rewrite axios_from_eq;
    pose proof (transmit_wire (with_attempt k rq) s) as Hw;
    destruct (transmit (with_attempt k rq) s) as [r0 s1|e s1|s1]; simpl in Hw;
    try (exists []; split; [exact Hw | constructor]).
  destruct e as [|[r1|]| | |];
    try (exists []; split; [exact Hw | constructor]).
  destruct (status r1 =? 429);
    [|exists []; split; [exact Hw | constructor]].
  cbv zeta.
  match goal with |- context [axios_from left (k + 1) rq ?s2] =>
    destruct (IH (k + 1) s2) as (rest & Hw2 & Hr); simpl in Hw2 end.
  exists (with_attempt (k + 1) rq :: rest). rewrite Hw2, Hw, <- app_assoc.
  split; [reflexivity|]. constructor; [exists (k + 1); split; [lia|reflexivity]|].
  eapply Forall_impl; [exact Hr|]. simpl. intros r (j & H1 & H2).
  exists j. split; [lia|auto].
Qed.

Lemma checkStrapiHealth_cached s :
  now s - lastHealthCheckTime s <= timeInterval ->
  checkStrapiHealth s = Returned (isHealthy s) s.
Proof.
  intros H. unfold checkStrapiHealth, bind, gets.
  replace (now s - lastHealthCheckTime s >? timeInterval) with false
    by (symmetry; rewrite Z.gtb_ltb; apply Z.ltb_ge; lia).
  reflexivity.
Qed.

Lemma checkStrapiHealth_due s :
  timeInterval < now s - lastHealthCheckTime s ->
  checkStrapiHealth s = executeStrapiHealthCheck s.
Proof.
  intros H. unfold checkStrapiHealth, bind, gets.
  replace (now s - lastHealthCheckTime s >? timeInterval) with true
    by (symmetry; rewrite Z.gtb_ltb; apply Z.ltb_lt; lia).
  reflexivity.
Qed.

Lemma executeStrapiHealthCheck_eq s :
  0 < timeInterval ->
  executeStrapiHealthCheck s =
    match axios health_request s with
    | Returned r s1 =>
        Returned true (set_isHealthy true (set_lastHealthCheckTime (now s1) s1))
    | Thrown _ s1 => Returned false (set_isHealthy false s1)
    | Hangs s1 => Hangs s1
    end.
Proof.
  intros Hpos. unfold executeStrapiHealthCheck.
  destruct (Z.to_nat timeInterval) as [|n] eqn:Hn; [lia|].
  unfold try_catch, bind at 1. simpl health_probe_loop. unfold bind at 1.
  destruct (axios health_request s) as [r s1|e s1|s1] eqn:Hax; try reflexivity.
  pose proof (axios_from_2xx _ _ _ _ _ _ Hax) as H2.
  replace (negb (status r =? 0)) with true
    by (symmetry; apply negb_true_iff, Z.eqb_neq; lia).
  unfold ret, bind, gets, modify. simpl.
  replace (status r <? 300) with true by (symmetry; apply Z.ltb_lt; lia).
  reflexivity.
Qed.

Lemma axios_from_lastHealthCheckTime left k rq s :
  lastHealthCheckTime (final (axios_from left k rq s)) = lastHealthCheckTime s.
Proof.
  revert k s. induction left as [|left IH]; intros k s; rewrite axios_from_eq;
    unfold transmit; destruct (remote _ _ _) as [r took|took];
    try destruct (_ && _); try reflexivity;
    try (destruct (status r =? 429); [|reflexivity]; cbv zeta; rewrite IH;
         reflexivity).
Qed.

(** C7. [checkStrapiHealth] probes ([HEAD /_health]) only when the time
    since [lastHealthCheckTime] exceeds the interval (120 s unless
    configured); otherwise it returns the cached [isHealthy] and changes
    nothing.  When the probe runs, a 2xx reply makes the shared state
    healthy and any other outcome makes it unhealthy.  Only an answered
    probe moves [lastHealthCheckTime] (to the time of the answer): a
    probe that fails leaves it where it was, so that the next call
    finds a probe due again, however soon it comes. *)
Theorem checkStrapiHealth_probe_or_cache (s : State) :
  (STRAPI_HEALTH_CHECK_INTERVAL options_ = None -> timeInterval = 120000) /\
  (now s - lastHealthCheckTime s <= timeInterval ->
     checkStrapiHealth s = Returned (isHealthy s) s) /\
  (timeInterval < now s - lastHealthCheckTime s -> 0 < timeInterval ->
     (exists rest,
        wire (final (checkStrapiHealth s)) = wire s ++ health_request :: rest /\
        Forall (fun r => call r = HealthProbe) rest) /\
     match axios health_request s with
     | Returned r s1 =>
         200 <= status r < 300 /\
         checkStrapiHealth s =
           Returned true (set_isHealthy true (set_lastHealthCheckTime (now s1) s1))
     | Thrown _ s1 =>
         checkStrapiHealth s = Returned false (set_isHealthy false s1) /\
         lastHealthCheckTime s1 = lastHealthCheckTime s /\
         (forall t, now s1 <= t ->
            timeInterval <
              now (set_now t (set_isHealthy false s1)) -
              lastHealthCheckTime (set_now t (set_isHealthy false s1)))
     | Hangs _ => False
     end).
Proof.
  split; [|split].
  - unfold timeInterval. intros ->. reflexivity.
  - apply checkStrapiHealth_cached.
  - intros H Hpos.
    rewrite (checkStrapiHealth_due s H), (executeStrapiHealthCheck_eq s Hpos).
    destruct (axios_from_first retries 0 health_request s) as (rest & Hw & Hrest).
    fold (axios health_request) in Hw.
    assert (Hrest' : Forall (fun r => call r = HealthProbe) rest).
    { eapply Forall_impl; [exact Hrest|]. simpl. intros r (j & _ & ->). reflexivity. }
    pose proof (axios_from_no_hang retries 0 health_request s) as Hnh.
    fold (axios health_request) in Hnh.
    pose proof (axios_from_lastHealthCheckTime retries 0 health_request s) as Hl.
    pose proof (axios_extends health_request s) as (Ht & _).
    fold (axios health_request) in Hl.
    destruct (axios health_request s) as [r s1|e s1|s1] eqn:Hax;
      simpl in Hw, Hl, Ht; try discriminate.
    + split; [exists rest; auto|]. split; [|reflexivity].
      eapply axios_from_2xx. exact Hax.
    + split; [exists rest; auto|]. split; [reflexivity|].
      split; [exact Hl|]. intros t Hle. simpl. rewrite Hl. lia.
Qed.

End Claims.

(** ** Fields a method leaves alone *)

#[global] Instance Keeps_preorder {A} (f : State -> A) : PreOrder (Keeps f).
Proof. split; [intros s; reflexivity | intros s1 s2 s3 H1 H2; unfold Keeps in *; congruence]. Qed.

Section Transport.

Context `{env : Env} {A : Type} (f : State -> A).
Hypothesis Hf : transport_blind f.

Lemma transmit_keeps rq : stable (Keeps f) (transmit rq).
Proof.
  destruct Hf as (H1 & H2 & _).
  intros s. unfold transmit, Keeps.
  destruct (remote _ _ _); [destruct (_ && _)|]; simpl; rewrite H1, H2; reflexivity.
Qed.

Lemma axios_from_keeps left k rq : stable (Keeps f) (axios_from left k rq).
Proof.
  destruct Hf as (H1 & H2 & H3 & _).
  revert k. induction left as [|left IH]; intros k; simpl; repeat stable_step;
    try apply transmit_keeps; try apply IH.
  - unfold retryDelay. repeat stable_step. sapply @stable_modify.
    intros s. apply H3.
  - sapply @stable_modify. intros s. apply H1.
Qed.

Lemma axios_keeps rq : stable (Keeps f) (axios rq).
Proof. apply axios_from_keeps. Qed.

Lemma checkStrapiHealth_keeps : stable (Keeps f) checkStrapiHealth.
Proof.
  destruct Hf as (H1 & H2 & H3 & H4 & H5).
  assert (Hl : forall n r, stable (Keeps f) (health_probe_loop n r)).
  { induction n as [|n IH]; intros r; simpl; repeat stable_step;
      try apply axios_keeps; try apply IH.
    sapply @stable_modify. intros s. apply H1. }
  unfold checkStrapiHealth, executeStrapiHealthCheck. repeat stable_step;
    try apply Hl; sapply @stable_modify; intros s; unfold Keeps; auto.
Qed.

Lemma waitForHealth_keeps : stable (Keeps f) waitForHealth.
Proof.
  destruct Hf as (H1 & _).
  unfold waitForHealth. induction patience as [|n IH]; simpl; repeat stable_step;
    try apply checkStrapiHealth_keeps; try apply IH.
  sapply @stable_modify. intros s. apply H1.
Qed.

Lemma executeStrapiSend_keeps m type token id data :
  stable (Keeps f) (executeStrapiSend m type token id data).
Proof.
  unfold executeStrapiSend. repeat stable_step;
    first [apply waitForHealth_keeps | apply axios_keeps].
Qed.

Lemma executeLoginAsStrapiUser_keeps a :
  stable (Keeps f) (executeLoginAsStrapiUser a).
Proof.
  unfold executeLoginAsStrapiUser. repeat stable_step;
    first [apply waitForHealth_keeps | apply axios_keeps].
Qed.

End Transport.

Lemma userTokens_blind : transport_blind userTokens.
Proof. repeat split. Qed.
Lemma redis_blind : transport_blind redis.
Proof. repeat split. Qed.
Lemma adminToken_blind : transport_blind strapiSuperAdminAuthToken.
Proof. repeat split. Qed.

(** ** Counting calls *)

Lemma calls_of_app c w1 w2 :
  calls_of c (w1 ++ w2) = (calls_of c w1 + calls_of c w2)%nat.
Proof. unfold calls_of. rewrite List.filter_app, length_app. reflexivity. Qed.

Lemma calls_of_other c l tr :
  Forall (sends l) tr -> ~ In c (map fst l) -> calls_of c tr = 0%nat.
Proof.
  intros Hs Hc. unfold calls_of. induction Hs as [|r tr Hr _ IH]; [reflexivity|].
  simpl. destruct (bool_decide (call r = c)) eqn:Hd; simpl; [|exact IH].
  apply bool_decide_eq_true in Hd. exfalso. apply Hc.
  apply in_map_iff. exists (call r, method r). split; [exact Hd | exact Hr].
Qed.

Lemma calls_of_retries c tr :
  Forall (fun r => 0 < attempt r) tr -> calls_of c tr = 0%nat.
Proof.
  intros Hs. unfold calls_of. induction Hs as [|r tr Hr _ IH]; [reflexivity|].
  simpl. replace (attempt r =? 0) with false by (symmetry; apply Z.eqb_neq; lia).
  rewrite andb_false_r. exact IH.
Qed.

Lemma Extends_calls_of c l s s' :
  Extends l s s' -> ~ In c (map fst l) ->
  calls_of c (wire s') = calls_of c (wire s).
Proof.
  intros (_ & _ & tr & -> & Hs) Hc.
  rewrite calls_of_app, (calls_of_other c l tr Hs Hc). lia.
Qed.

Section Counting.

Context `{env : Env}.

Lemma axios_calls c rq s :
  attempt rq = 0 ->
  calls_of c (wire (final (axios rq s))) =
    (calls_of c (wire s) + if bool_decide (call rq = c) then 1 else 0)%nat.
Proof.
  intros Ha. destruct (axios_from_first retries 0 rq s) as (rest & Hw & Hr).
  unfold axios. rewrite Hw, calls_of_app. f_equal.
  change (with_attempt 0 rq :: rest) with ([with_attempt 0 rq] ++ rest).
  rewrite calls_of_app, (calls_of_retries c rest).
  - unfold calls_of. simpl. destruct (bool_decide (call rq = c)); reflexivity.
  - eapply Forall_impl; [exact Hr|]. simpl. intros r (j & Hj & ->). simpl. lia.
Qed.

Lemma checkStrapiHealth_never_throws : never_throws checkStrapiHealth.
Proof.
  intros s e s'. unfold checkStrapiHealth, bind, gets.
  destruct (_ >? _); [|discriminate].
  unfold executeStrapiHealthCheck, try_catch.
  match goal with |- context [match ?o with _ => _ end] => destruct o end;
    discriminate.
Qed.

Lemma waitForHealth_never_throws : never_throws waitForHealth.
Proof.
  unfold waitForHealth. induction patience as [|n IH]; intros s e s'; simpl.
  - discriminate.
  - unfold bind at 1.
    pose proof (checkStrapiHealth_never_throws s) as Hc.
    destruct (checkStrapiHealth s) as [[|] s1|e1 s1|s1]; try discriminate.
    + unfold bind, sleep, modify. apply IH.
    + exfalso. eapply Hc. reflexivity.
Qed.

End Counting.

(** ** Liveness of the credential layer *)

Section LiveLogin.

Context `{env : Env}.
Hypothesis HC : Calm.

Lemma live_executeLoginAsStrapiUser a : live (executeLoginAsStrapiUser a).
Proof.
  unfold executeLoginAsStrapiUser. repeat live_step;
    first [apply live_waitForHealth, HC | apply live_axios].
Qed.

Lemma live_login_and_cache a : live (login_and_cache a).
Proof.
  unfold login_and_cache. repeat live_step;
    first [apply live_executeLoginAsStrapiUser | live_field].
Qed.

Lemma live_strapiLoginSendDatalayer a : live (strapiLoginSendDatalayer a).
Proof.
  unfold strapiLoginSendDatalayer. repeat live_step;
    first [apply live_login_and_cache | live_field].
Qed.

End LiveLogin.

(** ** Credential cache *)

Section Credentials.

Context `{env : Env}.

Lemma set_strapiRetryDelay_same s d :
  strapiRetryDelay s = d -> set_strapiRetryDelay d s = s.
Proof. intros <-. destruct s; reflexivity. Qed.

(** The decision [strapiLoginSendDatalayer] takes, in one equation. *)
Lemma strapiLoginSendDatalayer_eq a s :
  strapiLoginSendDatalayer a s =
    match lookup_member (userTokens s) (email a) with
    | Some creds =>
        let s' := set_strapiRetryDelay (Some (reuse_window s)) s in
        if age s creds <? reuse_window s then Returned (Some creds) s'
        else login_and_cache a s'
    | None => login_and_cache a s
    end.
Proof.
  unfold strapiLoginSendDatalayer, bind at 1 2, gets at 1 2.
  destruct (lookup_member (userTokens s) (email a)) as [creds|]; [|reflexivity].
  unfold bind at 1 2, gets at 1, reuse_window, age. cbv zeta.
  destruct (strapiRetryDelay s) as [d|] eqn:Hd; simpl.
  - destruct (d =? 0) eqn:Hz; simpl; unfold bind, gets, modify, ret; simpl.
    + destruct (_ <? _); reflexivity.
    + rewrite ?Hd. simpl. rewrite (set_strapiRetryDelay_same s _ Hd).
      destruct (_ <? _); reflexivity.
  - unfold bind, gets, modify, ret. simpl. destruct (_ <? _); reflexivity.
Qed.

Lemma login_and_cache_eq a s :
  login_and_cache a s =
    match executeLoginAsStrapiUser a s with
    | Returned res s1 =>
        match Js.prop (data res) "jwt" with
        | None => Thrown TypeError s1
        | Some jwt =>
            if Js.truthy jwt then
              match Js.prop (data res) "user" with
              | None => Thrown TypeError s1
              | Some u =>
                  let creds := mkCreds jwt (now s1) u in
                  Returned (Some creds)
                    (set_userTokens (<[email a := creds]> (userTokens s1)) s1)
              end
            else Returned None s1
        end
    | Thrown e s1 => Thrown e s1
    | Hangs s1 => Hangs s1
    end.
Proof.
  unfold login_and_cache, bind at 1.
  destruct (executeLoginAsStrapiUser a s) as [res s1|e s1|s1]; try reflexivity.
  unfold bind at 1, prop. destruct (Js.prop (data res) "jwt") as [jwt|]; [|reflexivity].
  unfold ret at 1. destruct (Js.truthy jwt); [|reflexivity].
  unfold bind at 1. destruct (Js.prop (data res) "user") as [u|]; reflexivity.
Qed.

(** A login call puts exactly one login request on the wire, unless the
    health wait before it never ends; it leaves the cache alone. *)
Lemma executeLoginAsStrapiUser_calls a s :
  let o := executeLoginAsStrapiUser a s in
  calls_of UserLogin (wire (final o)) =
    (calls_of UserLogin (wire s) + if is_hang o then 0 else 1)%nat /\
  userTokens (final o) = userTokens s.
Proof.
  split; [|apply (executeLoginAsStrapiUser_keeps userTokens userTokens_blind a s)].
  unfold executeLoginAsStrapiUser, bind.
  pose proof (waitForHealth_extends s) as Hw.
  pose proof (waitForHealth_never_throws s) as Hn.
  destruct (waitForHealth s) as [[] s1|e s1|s1]; simpl in *.
  - assert (Hc : calls_of UserLogin (wire s1) = calls_of UserLogin (wire s)).
    { eapply Extends_calls_of; [exact Hw|]. simpl. intuition discriminate. }
    rewrite <- Hc. unfold try_catch.
    match goal with |- context [axios ?rq s1] =>
      pose proof (axios_calls UserLogin rq s1 eq_refl) as Ha;
      pose proof (axios_from_no_hang retries 0 rq s1) as Hh;
      fold (axios rq) in Hh;
      destruct (axios rq s1) as [r s2|e s2|s2]; simpl in *;
        try discriminate; rewrite Ha; reflexivity
    end.
  - exfalso. eapply Hn. reflexivity.
  - rewrite (Extends_calls_of UserLogin _ _ _ Hw); [lia|]. simpl. intuition discriminate.
Qed.

Lemma login_and_cache_calls a s :
  let o := login_and_cache a s in
  calls_of UserLogin (wire (final o)) =
    (calls_of UserLogin (wire s) + if is_hang o then 0 else 1)%nat.
Proof.
  cbv zeta. rewrite login_and_cache_eq.
  pose proof (executeLoginAsStrapiUser_calls a s) as [Hc _]. cbv zeta in Hc.
  destruct (executeLoginAsStrapiUser a s) as [res s1|e s1|s1]; simpl in *; auto.
  destruct (Js.prop (data res) "jwt") as [jwt|]; simpl; auto.
  destruct (Js.truthy jwt); simpl; auto.
  destruct (Js.prop (data res) "user") as [u|]; simpl; auto.
Qed.


End Credentials.

Section CredentialClaims.

Context `{env : Env}.


(** A cache hit: the cached credential comes back and nothing is sent. *)
Lemma strapiLoginSendDatalayer_hit a s creds :
  lookup_member (userTokens s) (email a) = Some creds ->
  age s creds < reuse_window s ->
  strapiLoginSendDatalayer a s =
    Returned (Some creds) (set_strapiRetryDelay (Some (reuse_window s)) s).
Proof.
  intros Hc Ha. rewrite strapiLoginSendDatalayer_eq, Hc. cbv zeta.
  replace (age s creds <? reuse_window s) with true
    by (symmetry; apply Z.ltb_lt; lia).
  reflexivity.
Qed.




(** ** Rate limiting *)

Lemma retryCondition_429 e :
  retryCondition e = true <-> exists r, e = AxiosError (Some r) /\ status r = 429.
Proof.
  split.
  - destruct e as [|[r|]| | |]; simpl; try discriminate.
    intros H. exists r. split; [reflexivity | apply Z.eqb_eq, H].
  - intros (r & -> & H). simpl. apply Z.eqb_eq, H.
Qed.

(** A service that answers 429 to everything is asked [retries + 1]
    times. *)
Lemma axios_from_exhausts left k rq s :
  (forall h t q, exists r took, remote h t q = Replied r took /\ status r = 429) ->
  length (wire (final (axios_from left k rq s))) = (length (wire s) + S left)%nat.
Proof.
  intros H429. revert k s. induction left as [|left IH]; intros k s;
    rewrite axios_from_eq; unfold transmit;
    destruct (H429 (wire s) (now s) (with_attempt k rq)) as (r & took & -> & Hr);
    rewrite Hr; simpl.
  - rewrite length_app. reflexivity.
  - rewrite Hr. simpl. rewrite IH. simpl. rewrite length_app. simpl. lia.
Qed.

(** C6. The transport layer retries on a 429 reply and on nothing else,
    up to 100 times.  The delay before a retry comes from the
    [x-retry-after] header when the reply has one (that many seconds,
    times the retry count), otherwise from [x-ratelimit-reset] (the
    distance to the reset time plus two seconds); it is stored in
    [strapiRetryDelay], which the credential cache then uses as its reuse
    window. *)
Theorem rate_limit_retry :
  (forall e, retryCondition e = true <->
             exists r, e = AxiosError (Some r) /\ status r = 429) /\
  (100 <= retries)%nat /\
  (forall rq s, axios rq s = axios_from retries 0 rq s) /\
  (forall left k rq s,
     axios_from left k rq s =
       match transmit (with_attempt k rq) s with
       | Returned r s1 => Returned r s1
       | Thrown e s1 =>
           match left, e with
           | S left', AxiosError (Some r) =>
               if status r =? 429 then
                 let d := retryDelay_value (now s1) (k + 1) r in
                 axios_from left' (k + 1) rq
                   (set_now (now s1 + Z.max 0 d)
                      (set_strapiRetryDelay (Some d) s1))
               else Thrown e s1
           | _, _ => Thrown e s1
           end
       | Hangs s1 => Hangs s1
       end) /\
  (forall rq s,
     (forall h t q, exists r took, remote h t q = Replied r took /\ status r = 429) ->
     length (wire (final (axios rq s))) = (length (wire s) + 101)%nat) /\
  (forall t k r seconds,
     x_retry_after r = Some seconds ->
     retryDelay_value t k r = k * 1000 * seconds) /\
  (forall t k r reset,
     x_retry_after r = None -> x_ratelimit_reset r = Some reset ->
     retryDelay_value t k r = (Z.abs (reset - t / 1000) + 2) * 1000) /\
  (forall k r s,
     retryDelay k r s =
       Returned (retryDelay_value (now s) k r)
         (set_strapiRetryDelay (Some (retryDelay_value (now s) k r)) s)) /\
  (forall s d, strapiRetryDelay s = Some d -> d <> 0 -> reuse_window s = d) /\
  (forall a s creds,
     userTokens s !! email a = Some creds ->
     strapiLoginSendDatalayer a s =
       if age s creds <? reuse_window s
       then Returned (Some creds) (set_strapiRetryDelay (Some (reuse_window s)) s)
       else login_and_cache a (set_strapiRetryDelay (Some (reuse_window s)) s)).
Proof.
  split; [exact retryCondition_429|].
  split; [unfold retries; lia|].
  split; [reflexivity|].
  split; [exact axios_from_eq|].
  split; [intros rq s H; apply (axios_from_exhausts retries 0 rq s H)|].
  split; [intros t k r seconds H; unfold retryDelay_value; rewrite H; reflexivity|].
  split; [intros t k r reset H1 H2; unfold retryDelay_value; rewrite H1, H2; reflexivity|].
  split; [reflexivity|].
  split.
  - intros s d H Hd. unfold reuse_window. rewrite H.
    destruct (d =? 0) eqn:Hz; [apply Z.eqb_eq in Hz; contradiction | reflexivity].
  - intros a s creds H.
    rewrite strapiLoginSendDatalayer_eq, (lookup_member_own _ _ _ H).
    reflexivity.
Qed.

End CredentialClaims.

(** ** Liveness of the data layer *)

Section LiveLayer.

Context `{env : Env}.
Hypothesis HC : Calm.

Lemma live_executeStrapiSend m type token id data :
  live (executeStrapiSend m type token id data).
Proof.
  unfold executeStrapiSend. repeat live_step;
    first [apply live_waitForHealth, HC | apply live_axios].
Qed.

Lemma live_strapiSendDataLayer p : live (strapiSendDataLayer p).
Proof.
  unfold strapiSendDataLayer. repeat live_step;
    first [apply live_strapiLoginSendDatalayer, HC | apply live_executeStrapiSend].
Qed.

Lemma live_processStrapiEntry p : live (processStrapiEntry p).
Proof.
  unfold processStrapiEntry. repeat live_step. apply live_strapiSendDataLayer.
Qed.

Lemma live_hasType type a : live (hasType type a).
Proof.
  unfold hasType, getType. repeat live_step. apply live_strapiSendDataLayer.
Qed.

End LiveLayer.

(** ** Field relevance *)

Lemma entry_writes_app w1 w2 :
  entry_writes (w1 ++ w2) = entry_writes w1 ++ entry_writes w2.
Proof. apply List.filter_app. Qed.

Lemma Extends_reads s s' :
  Extends [(HealthProbe, HEAD); (UserLogin, POST); (EntrySend, GET)] s s' ->
  entry_writes (wire s') = entry_writes (wire s).
Proof.
  intros (_ & _ & tr & -> & Hs). rewrite entry_writes_app.
  replace (entry_writes tr) with (@nil Request); [apply app_nil_r|].
  symmetry. induction Hs as [|r tr Hr _ IH]; [reflexivity|].
  unfold entry_writes in *. simpl. rewrite IH.
  unfold sends in Hr. simpl in Hr. unfold is_entry_write.
  destruct Hr as [Hr|[Hr|[Hr|[]]]]; injection Hr as Hc Hm;
    rewrite <- Hc, <- Hm; reflexivity.
Qed.

Section Relevance.

Context `{env : Env}.

Lemma includes_false updateFields f :
  (forall name, f = JStr name -> ~ In name updateFields) ->
  includes updateFields f = false.
Proof.
  intros H. destruct f; try reflexivity. simpl.
  apply not_true_is_false. intros He. apply existsb_exists in He as (x & Hx & Hs).
  apply String.eqb_eq in Hs. subst x. eapply H; eauto.
Qed.

Lemma find_field_disjoint updateFields fields :
  Forall (fun f => forall name, f = JStr name -> ~ In name updateFields) fields ->
  find_field updateFields fields = JUndef.
Proof.
  intros H. unfold find_field. induction H as [|f fields Hf _ IH]; [reflexivity|].
  simpl. rewrite (includes_false _ _ Hf). exact IH.
Qed.

Lemma keys_disjoint_false updateFields data :
  keys_disjoint updateFields data ->
  existsb (fun field => existsb (fun uf => String.eqb uf field) updateFields)
    (Js.keys data) = false.
Proof.
  intros H. apply not_true_is_false. intros He.
  apply existsb_exists in He as (k & Hk & Hu).
  apply existsb_exists in Hu as (uf & Huf & Heq).
  apply String.eqb_eq in Heq. subst uf.
  unfold keys_disjoint in H. rewrite Forall_forall in H.
  apply (H k); [apply list_elem_of_In, Hk | exact Huf].
Qed.

Lemma verifyDataContainsFields_disjoint updateFields data s :
  fields_disjoint updateFields data -> keys_disjoint updateFields data ->
  verifyDataContainsFields data updateFields s = Returned (JBool false) s.
Proof.
  intros (fields & Hf & Hd) Hk. unfold verifyDataContainsFields. rewrite Hf.
  unfold bind, ret. rewrite (find_field_disjoint _ _ Hd). simpl.
  rewrite (keys_disjoint_false _ _ Hk). reflexivity.
Qed.

Lemma hasType_never_throws type a : never_throws (hasType type a).
Proof.
  intros s e s'. unfold hasType, try_catch.
  destruct ((getType type a;; ret true) s); discriminate.
Qed.

(** The shape of the product and region updates up to the field check. *)
Lemma field_check_noop type a updateFields data (rest : M StrapiResult) s :
  fields_disjoint updateFields data -> keys_disjoint updateFields data ->
  let o := (let* hasType := hasType type a in
            if negb hasType then ret status400
            else
              let* found := verifyDataContainsFields data updateFields in
              if negb (Js.truthy found) then ret status400 else rest) s in
  entry_writes (wire (final o)) = entry_writes (wire s) /\
  (o = Returned status400 (final o) \/ is_hang o = true) /\
  (Calm -> Ready s -> is_hang o = false).
Proof.
  intros Hf Hk. cbv zeta. unfold bind.
  pose proof (hasType_extends type a s) as He.
  pose proof (hasType_never_throws type a s) as Hn.
  assert (Hl : Calm -> Ready s -> is_hang (hasType type a s) = false).
  { intros HC Hs. apply (live_hasType HC type a s Hs). }
  destruct (hasType type a s) as [[|] s1|e s1|s1]; simpl in *.
  - rewrite (verifyDataContainsFields_disjoint _ _ _ Hf Hk). simpl.
    split; [apply Extends_reads, He|]. split; [left; reflexivity | auto].
  - split; [apply Extends_reads, He|]. split; [left; reflexivity | auto].
  - exfalso. eapply Hn. reflexivity.
  - split; [apply Extends_reads, He|]. split; [right; reflexivity | auto].
Qed.

(** C4 (amended). When neither the [fields] list of a change event nor
    the event's own keys meet the allow-list of the entity kind, the
    update writes nothing: the variant update returns [{status: 400}]
    without a single call; the product and region updates send only the
    type probe (a GET, with the login and health probes it needs) and
    then return [{status: 400}]. *)
Theorem irrelevant_update_writes_nothing
  (data : list (string * JsVal)) (a : AuthInterface) (s : State) :
  (fields_disjoint variant_updateFields data ->
   keys_disjoint variant_updateFields data ->
   updateProductVariantInStrapi data a s = Returned status400 s) /\
  (fields_disjoint product_updateFields data ->
   keys_disjoint product_updateFields data ->
   let o := updateProductInStrapi data a s in
   entry_writes (wire (final o)) = entry_writes (wire s) /\
   (o = Returned status400 (final o) \/ is_hang o = true) /\
   (Calm -> Ready s -> is_hang o = false)) /\
  (fields_disjoint region_updateFields data ->
   keys_disjoint region_updateFields data ->
   let o := updateRegionInStrapi data a s in
   entry_writes (wire (final o)) = entry_writes (wire s) /\
   (o = Returned status400 (final o) \/ is_hang o = true) /\
   (Calm -> Ready s -> is_hang o = false)).
Proof.
  split; [|split].
  - intros Hf Hk. unfold updateProductVariantInStrapi.
    destruct Hf as (fields & Hf & Hd). unfold bind at 1. rewrite Hf. simpl.
    rewrite (find_field_disjoint _ _ Hd). simpl. unfold bind at 1.
    rewrite (verifyDataContainsFields_disjoint variant_updateFields data s);
      [reflexivity | exists fields; auto | exact Hk].
  - intros Hf Hk. apply field_check_noop; assumption.
  - intros Hf Hk. apply field_check_noop; assumption.
Qed.

End Relevance.

(** ** Expired markers are invisible *)

Section Blind.

Context (key : string).







End Blind.



Section BlindService.

Context `{env : Env} (key : string).











End BlindService.

(** ** Echo guard *)

Section Echo.

Context `{env : Env}.


Lemma shouldIgnore__eq id side s :
  shouldIgnore_ id side s =
    Returned (match redis s !! ignore_key id side with
              | Some expiry => now s <? expiry
              | None => false
              end) s.
Proof. reflexivity. Qed.

(** The echo guard in one equation: a refused read throws, a live
    marker ends the operation, anything else lets it go on. *)
Lemma guard_eq id (cont : M StrapiResult) s :
  (let* ignore := (redis_command;; shouldIgnore_ id "strapi") in
   if ignore then ret status400 else cont) s =
    if redis_refuses (now s) then Thrown RedisError s
    else if marker_live (ignore_key id "strapi") s then Returned status400 s
         else cont s.
Proof.
  unfold redis_command, bind, gets, shouldIgnore_, marker_live. simpl.
  destruct (redis_refuses (now s)); simpl; [reflexivity|].
  match goal with |- context [if ?b then _ else _] => destruct b end;
    reflexivity.
Qed.








End Echo.

(** ** Entry data layer: what one request sends *)

Section DataLayer.

Context `{env : Env}.

(** A request executor call puts one entry request on the wire, unless
    the health wait before it never ends. *)
Lemma executeStrapiSend_calls m type token id data s :
  let o := executeStrapiSend m type token id data s in
  calls_of EntrySend (wire (final o)) =
    (calls_of EntrySend (wire s) + if is_hang o then 0 else 1)%nat /\
  calls_of UserLogin (wire (final o)) = calls_of UserLogin (wire s) /\
  userTokens (final o) = userTokens s.
Proof.
  split; [|split];
    [| eapply Extends_calls_of;
       [apply executeStrapiSend_extends | simpl; intuition discriminate]
     | apply (executeStrapiSend_keeps userTokens userTokens_blind m type token id data s)].
  unfold executeStrapiSend, bind.
  pose proof (waitForHealth_extends s) as Hw.
  pose proof (waitForHealth_never_throws s) as Hn.
  destruct (waitForHealth s) as [[] s1|e s1|s1]; simpl in *.
  - assert (Hc : calls_of EntrySend (wire s1) = calls_of EntrySend (wire s)).
    { eapply Extends_calls_of; [exact Hw|]. simpl. intuition discriminate. }
    rewrite <- Hc. unfold try_catch.
    match goal with |- context [axios ?rq s1] =>
      pose proof (axios_calls EntrySend rq s1 eq_refl) as Ha;
      pose proof (axios_from_no_hang retries 0 rq s1) as Hh;
      fold (axios rq) in Hh;
      destruct (axios rq s1) as [r s2|e s2|s2]; simpl in *;
        try discriminate; rewrite Ha; reflexivity
    end.
  - exfalso. eapply Hn. reflexivity.
  - rewrite (Extends_calls_of EntrySend _ _ _ Hw); [lia|]. simpl. intuition discriminate.
Qed.

Lemma strapiLoginSendDatalayer_calls a s :
  let o := strapiLoginSendDatalayer a s in
  (calls_of UserLogin (wire (final o)) <= S (calls_of UserLogin (wire s)))%nat /\
  calls_of EntrySend (wire (final o)) = calls_of EntrySend (wire s).
Proof.
  cbv zeta. split.
  - rewrite strapiLoginSendDatalayer_eq.
    destruct (lookup_member (userTokens s) (email a)) as [creds|].
    + cbv zeta. destruct (_ <? _); [simpl; lia|].
      pose proof (login_and_cache_calls a (set_strapiRetryDelay (Some (reuse_window s)) s)) as H.
      cbv zeta in H. rewrite H. simpl.
      match goal with |- context [if ?b then _ else _] => destruct b end; lia.
    + pose proof (login_and_cache_calls a s) as H. cbv zeta in H. rewrite H.
      match goal with |- context [if ?b then _ else _] => destruct b end; lia.
  - eapply Extends_calls_of; [apply strapiLoginSendDatalayer_extends|].
    simpl. intuition discriminate.
Qed.

(** [strapiSendDataLayer] in one equation: the credential layer is asked
    once, the executor is called once, and any failure of that call is
    the result. *)
Lemma strapiSendDataLayer_eq p s :
  strapiSendDataLayer p s =
    match strapiLoginSendDatalayer (sp_authInterface p) s with
    | Returned (Some creds) s1 =>
        match executeStrapiSend (sp_method p) (sp_type p) (token creds) (sp_id p)
                (Some (JObj [("data", dataToSend_of (sp_data p))])) s1 with
        | Returned result s2 =>
            match Js.prop (data result) "id", Js.prop (data result) "medusa_id" with
            | Some id, Some medusa_id =>
                Returned (mkResult id medusa_id (status result) (data result)) s2
            | _, _ => Returned status400 s2
            end
        | Thrown _ s2 => Returned status400 s2
        | Hangs s2 => Hangs s2
        end
    | Returned None s1 => Returned status400 s1
    | Thrown e s1 => Thrown e s1
    | Hangs s1 => Hangs s1
    end.
Proof.
  unfold strapiSendDataLayer, bind at 1.
  destruct (strapiLoginSendDatalayer (sp_authInterface p) s)
    as [[creds|] s1|e s1|s1]; try reflexivity.
  unfold try_catch, bind at 1, ret at 1. unfold bind at 1.
  destruct (executeStrapiSend _ _ _ _ _ s1) as [result s2|e s2|s2]; try reflexivity.
  unfold bind, prop.
  destruct (Js.prop (data result) "id"); [|reflexivity].
  destruct (Js.prop (data result) "medusa_id"); reflexivity.
Qed.

Lemma strapiSendDataLayer_calls p s :
  let o := strapiSendDataLayer p s in
  (calls_of EntrySend (wire (final o)) <= S (calls_of EntrySend (wire s)))%nat /\
  (calls_of UserLogin (wire (final o)) <= S (calls_of UserLogin (wire s)))%nat.
Proof.
  cbv zeta. rewrite strapiSendDataLayer_eq.
  pose proof (strapiLoginSendDatalayer_calls (sp_authInterface p) s) as [Hl He].
  cbv zeta in Hl, He.
  destruct (strapiLoginSendDatalayer (sp_authInterface p) s) as [[creds|] s1|e s1|s1];
    simpl in Hl, He; try (simpl; lia).
  match goal with |- context [executeStrapiSend ?m ?t ?k ?i ?d s1] =>
    pose proof (executeStrapiSend_calls m t k i d s1) as (H1 & H2 & _);
    cbv zeta in H1, H2;
    destruct (executeStrapiSend m t k i d s1) as [result s2|e s2|s2];
      simpl in H1, H2
  end; try (simpl; lia).
  destruct (Js.prop (data result) "id"), (Js.prop (data result) "medusa_id");
    simpl; lia.
Qed.

(** [strapiSendDataLayer] asks the credential layer once (at most one
    login per request) and calls the executor at most once.  When the
    remote service rejects that call, for lack of authorization or for
    any other reason, the failure is the result at once, as
    [{status: 400}]: the cached credential stays as it is, and there is
    no second login and no second attempt. *)
Lemma strapiSendDataLayer_sends_once (p : StrapiSendParams) (s : State) :
  let o := strapiSendDataLayer p s in
  (calls_of EntrySend (wire (final o)) <= S (calls_of EntrySend (wire s)))%nat /\
  (calls_of UserLogin (wire (final o)) <= S (calls_of UserLogin (wire s)))%nat /\
  (forall creds s1 e s2,
     strapiLoginSendDatalayer (sp_authInterface p) s = Returned (Some creds) s1 ->
     executeStrapiSend (sp_method p) (sp_type p) (token creds) (sp_id p)
       (Some (JObj [("data", dataToSend_of (sp_data p))])) s1 = Thrown e s2 ->
     o = Returned status400 s2 /\
     userTokens s2 = userTokens s1 /\
     calls_of UserLogin (wire s2) = calls_of UserLogin (wire s1) /\
     calls_of EntrySend (wire s2) = S (calls_of EntrySend (wire s1))).
Proof.
  cbv zeta.
  destruct (strapiSendDataLayer_calls p s) as [H1 H2].
  split; [exact H1|]. split; [exact H2|].
  intros creds s1 e s2 Hl Hs. rewrite strapiSendDataLayer_eq, Hl, Hs.
  split; [reflexivity|].
  match type of Hs with executeStrapiSend ?m ?t ?k ?i ?d s1 = _ =>
    pose proof (executeStrapiSend_calls m t k i d s1) as (Hc & Hu & Hk)
  end.
  cbv zeta in Hc, Hu, Hk. rewrite Hs in Hc, Hu, Hk. simpl in Hc, Hu, Hk.
  repeat split; [exact Hk | exact Hu | lia].
Qed.

End DataLayer.

(** ** Bootstrap *)

Section Bootstrap.

Context `{env : Env}.

Lemma executeLoginAsStrapiSuperAdmin_extends :
  stable (Extends [(HealthProbe, HEAD); (AdminLogin, POST)])
    executeLoginAsStrapiSuperAdmin.
Proof.
  unfold executeLoginAsStrapiSuperAdmin. repeat stable_step;
    first [ stable_leaf waitForHealth_extends
          | sapply @stable_modify; extends_field
          | eapply stable_weaken; [|apply axios_extends]; solve_incl ].
Qed.





Lemma executeSync_bearer token s :
  exists tr, wire (final (executeSync token s)) = wire s ++ tr /\
    Forall (fun r => call r = SyncTables -> bearer r = Some token) tr /\
    (is_hang (executeSync token s) = false ->
     exists r, In r tr /\ call r = SyncTables).
Proof.
  unfold executeSync, bind.
  pose proof (waitForHealth_extends s) as (_ & _ & trh & Hw & Hh).
  pose proof (waitForHealth_never_throws s) as Hn.
  destruct (waitForHealth s) as [[] s1|e s1|s1]; simpl in *.
  - match goal with |- context [axios ?rq s1] =>
      destruct (axios_from_first retries 0 rq s1) as (rest & Ha & Hr);
      fold (axios rq) in Ha;
      exists (trh ++ with_attempt 0 rq :: rest)
    end.
    rewrite Ha, Hw, <- app_assoc. split; [reflexivity|]. split.
    + apply Forall_app. split.
      * eapply Forall_impl; [exact Hh|]. intros r Hs Hc. unfold sends in Hs.
        simpl in Hs. rewrite Hc in Hs. destruct Hs as [Hs|[]]. discriminate.
      * constructor; [reflexivity|].
        eapply Forall_impl; [exact Hr|]. intros r (j & _ & ->) _. reflexivity.
    + intros _. eexists. split; [apply in_or_app; right; left; reflexivity|].
      reflexivity.
  - exfalso. eapply Hn. reflexivity.
  - exists trh. split; [exact Hw|]. split; [|discriminate].
    eapply Forall_impl; [exact Hh|]. intros r Hs Hc. unfold sends in Hs.
    simpl in Hs. rewrite Hc in Hs. destruct Hs as [Hs|[]]. discriminate.
Qed.


End Bootstrap.

(** * Id translation *)

Module Translate.

Import Payload.

(** ** Reads and writes of object entries *)

Lemma eqb_refl_true k : String.eqb k k = true.
Proof. apply String.eqb_refl. Qed.

Lemma get_set es k v k' :
  Js.get (Js.set es k v) k' = if String.eqb k k' then v else Js.get es k'.
Proof.
  induction es as [|[k0 x] es IH]; simpl.
  - destruct (String.eqb k k'); reflexivity.
  - destruct (String.eqb_spec k0 k) as [->|Hne]; simpl.
    + destruct (String.eqb k k'); reflexivity.
    + rewrite IH. destruct (String.eqb_spec k0 k') as [->|Hne'];
        [|reflexivity].
      destruct (String.eqb_spec k k'); [congruence | reflexivity].
Qed.

Lemma get_del es k k' :
  Js.get (Js.del es k) k' = if String.eqb k k' then JUndef else Js.get es k'.
Proof.
  induction es as [|[k0 x] es IH]; simpl.
  - destruct (String.eqb k k'); reflexivity.
  - destruct (String.eqb_spec k0 k) as [->|Hne]; simpl.
    + rewrite IH. destruct (String.eqb k k'); reflexivity.
    + rewrite IH. destruct (String.eqb_spec k0 k') as [->|Hne'];
        [|reflexivity].
      destruct (String.eqb_spec k k'); [congruence | reflexivity].
Qed.

Lemma has_set es k v k' :
  Js.has (Js.set es k v) k' = String.eqb k k' || Js.has es k'.
Proof.
  induction es as [|[k0 x] es IH]; simpl.
  - rewrite orb_false_r. reflexivity.
  - destruct (String.eqb_spec k0 k) as [->|Hne]; simpl.
    + destruct (String.eqb k k'); reflexivity.
    + rewrite IH. destruct (String.eqb k0 k'), (String.eqb k k'); reflexivity.
Qed.

Lemma has_del es k k' :
  Js.has (Js.del es k) k' = negb (String.eqb k k') && Js.has es k'.
Proof.
  induction es as [|[k0 x] es IH]; simpl.
  - rewrite andb_false_r. reflexivity.
  - destruct (String.eqb_spec k0 k) as [->|Hne]; simpl.
    + rewrite IH. destruct (String.eqb k k'); reflexivity.
    + rewrite IH. destruct (String.eqb_spec k0 k') as [->|Hne'];
        [|destruct (String.eqb k k'); reflexivity].
      destruct (String.eqb_spec k k'); [congruence | reflexivity].
Qed.

Lemma has_false_get es k : Js.has es k = false -> Js.get es k = JUndef.
Proof.
  induction es as [|[k0 x] es IH]; simpl; [reflexivity|].
  destruct (String.eqb k0 k); simpl; [discriminate | exact IH].
Qed.

Lemma has_In es k : Js.has es k = true <-> In k (Js.keys es).
Proof.
  induction es as [|[k0 x] es IH]; simpl; [split; [discriminate | tauto]|].
  destruct (String.eqb_spec k0 k) as [->|Hne]; simpl.
  - split; auto.
  - rewrite IH. split; [auto | intros [H|H]; [congruence | exact H]].
Qed.

Lemma nodup_keys_NoDup ks : nodup_keys ks = true <-> List.NoDup ks.
Proof.
  induction ks as [|k ks IH]; simpl.
  - split; [constructor | reflexivity].
  - rewrite andb_true_iff, negb_true_iff, IH. split.
    + intros [Hn Hd]. constructor; [|exact Hd]. intros Hin.
      assert (existsb (String.eqb k) ks = true)
        by (apply existsb_exists; exists k; split; [exact Hin | apply String.eqb_refl]).
      congruence.
    + intros H. inversion H as [|? ? Hn Hd]; subst. split; [|exact Hd].
      apply not_true_is_false. intros He. apply existsb_exists in He as (x & Hx & Heq).
      apply String.eqb_eq in Heq. subst x. contradiction.
Qed.

(** With distinct keys, an entry is what a read of its key returns. *)
Lemma In_get es k v :
  List.NoDup (Js.keys es) -> In (k, v) es -> Js.get es k = v.
Proof.
  induction es as [|[k0 x] es IH]; simpl; [tauto|].
  intros Hd [H|H].
  - injection H as -> ->. rewrite String.eqb_refl. reflexivity.
  - inversion Hd as [|? ? Hn Hd']; subst.
    destruct (String.eqb_spec k0 k) as [->|Hne]; [|apply IH; assumption].
    exfalso. apply Hn. change (In (fst (k, v)) (map fst es)). apply in_map, H.
Qed.

Lemma keys_set es k v :
  Js.keys (Js.set es k v) =
    if Js.has es k then Js.keys es else Js.keys es ++ [k].
Proof.
  unfold Js.keys.
  induction es as [|[k0 x] es IH]; simpl; [reflexivity|].
  destruct (String.eqb_spec k0 k) as [->|Hne]; simpl; [reflexivity|].
  f_equal. rewrite IH. destruct (Js.has es k); reflexivity.
Qed.

Lemma NoDup_keys_set es k v :
  List.NoDup (Js.keys es) -> List.NoDup (Js.keys (Js.set es k v)).
Proof.
  intros H. rewrite keys_set. destruct (Js.has es k) eqn:Hh; [exact H|].
  apply NoDup_ListNoDup, NoDup_app. split; [apply NoDup_ListNoDup, H|].
  split; [|apply NoDup_singleton].
  intros x Hx Hk. apply list_elem_of_In in Hx. apply list_elem_of_singleton in Hk. subst x.
  apply has_In in Hx. congruence.
Qed.

Lemma In_del es k kv : In kv (Js.del es k) -> In kv es /\ fst kv <> k.
Proof.
  induction es as [|[k0 x] es IH]; simpl; [tauto|].
  destruct (String.eqb_spec k0 k) as [->|Hne].
  - intros H. destruct (IH H). auto.
  - intros [<-|H]; [auto|]. destruct (IH H). auto.
Qed.

Lemma NoDup_keys_del es k :
  List.NoDup (Js.keys es) -> List.NoDup (Js.keys (Js.del es k)).
Proof.
  induction es as [|[k0 x] es IH]; simpl; [auto|].
  intros Hd. inversion Hd as [|? ? Hn Hd']; subst.
  destruct (String.eqb_spec k0 k) as [->|Hne]; [apply IH, Hd'|].
  simpl. constructor; [|apply IH, Hd'].
  intros Hin. apply Hn. apply in_map_iff in Hin as (kv & Hk & Hin).
  apply In_del in Hin as [Hin _]. apply in_map_iff. exists kv. auto.
Qed.

Lemma In_set es k v kv :
  In kv (Js.set es k v) -> kv = (k, v) \/ In kv es.
Proof.
  induction es as [|[k0 x] es IH]; simpl.
  - intros [<-|[]]. auto.
  - destruct (String.eqb_spec k0 k) as [->|Hne]; simpl.
    + intros [<-|H]; auto.
    + intros [<-|H]; auto. destruct (IH H); auto.
Qed.

(** ** The loop over the keys of an object *)

Lemma mem_In k ks : mem k ks = true <-> In k ks.
Proof.
  unfold mem. rewrite existsb_exists. split.
  - intros (x & Hx & He). apply String.eqb_eq in He. subst. exact Hx.
  - intros H. exists k. split; [exact H | apply String.eqb_refl].
Qed.

Lemma mem_cons k k0 ks : mem k (k0 :: ks) = String.eqb k k0 || mem k ks.
Proof. reflexivity. Qed.

Ltac keys_cases :=
  repeat match goal with
  | |- context [String.eqb ?a ?b] =>
      destruct (String.eqb_spec a b); subst; simpl in *; try congruence
  | H : context [String.eqb ?a ?b] |- _ =>
      destruct (String.eqb_spec a b); subst; simpl in *; try congruence
  end.

(** Case analysis on every comparison of keys and every membership
    test in sight. *)
Ltac split_keys :=
  repeat first
    [ progress rewrite ?String.eqb_refl in *
    | match goal with
      | |- context [String.eqb ?a ?b] =>
          destruct (String.eqb_spec a b); [subst|]; cbn [orb andb negb] in *
      | H : context [String.eqb ?a ?b] |- _ =>
          destruct (String.eqb_spec a b); [subst|]; cbn [orb andb negb] in *
      | |- context [if mem ?a ?b then _ else _] =>
          destruct (mem a b) eqn:?; cbn [orb andb negb] in *
      | H : context [if mem ?a ?b then _ else _] |- _ =>
          destruct (mem a b) eqn:?; cbn [orb andb negb] in *
      end ];
  try congruence.

Lemma not_In_mem k ks : ~ In k ks -> mem k ks = false.
Proof.
  intros H. apply not_true_is_false. intros Hm. apply mem_In in Hm. contradiction.
Qed.

Lemma object_loop n ks :
  forall cur,
    List.NoDup ks -> List.NoDup (Js.keys cur) ->
    Js.instanceofObject (Js.get cur "id") = false ->
    (forall k, In k ks -> Js.instanceofObject (Js.get cur k) = true ->
               exists r, translateIdsToMedusaIds n (Js.get cur k) = Some r) ->
    exists res,
      fold_left (object_step (translateIdsToMedusaIds n)) ks (Some cur) = Some res /\
      List.NoDup (Js.keys res) /\
      (mem "id" ks = true \/ Js.has cur "id" = false -> Js.has res "id" = false) /\
      (forall key, after_loop n ks cur key (Js.get res key)).
Proof.
  induction ks as [|k ks IH]; intros cur Hks Hcur Hid Htr.
  - exists cur. simpl. repeat split; auto.
    intros [H|H]; [discriminate | exact H].
  - inversion Hks as [|? ? Hk Hks']; subst.
    apply not_In_mem in Hk.
    change (fold_left ?f (k :: ks) ?a) with (fold_left f ks (f a k)).
    unfold object_step at 2.
    destruct (Js.instanceofObject (Js.get cur k)) eqn:Hobj.
    + (* an object or array child: translated in place *)
      assert (Hne : k <> "id") by (intros ->; congruence).
      destruct (Htr k (or_introl eq_refl) Hobj) as (r & Hr). rewrite Hr.
      destruct (IH (Js.set cur k r)) as (res & Hres & Hnd & Hhas & Hget).
      * exact Hks'.
      * apply NoDup_keys_set, Hcur.
      * rewrite get_set. keys_cases.
      * intros k2 Hk2. rewrite get_set.
        destruct (String.eqb_spec k k2) as [->|Hne2].
        -- apply mem_In in Hk2. congruence.
        -- intros Ho. apply Htr; [right; exact Hk2 | exact Ho].
      * exists res. split; [exact Hres|]. split; [exact Hnd|]. split.
        -- intros Hor. apply Hhas. rewrite has_set. rewrite mem_cons in Hor.
           destruct Hor as [Hor|Hor].
           ++ left. destruct (String.eqb_spec "id" k); [congruence | exact Hor].
           ++ right. rewrite Hor. keys_cases.
        -- intros key. specialize (Hget key). clear IH Htr Hhas.
           unfold after_loop in *.
           rewrite !mem_cons. rewrite !get_set in Hget.
           split_keys; unfold translated in *; rewrite ?Hobj in *; congruence.
    + destruct (String.eqb_spec k "id") as [->|Hne].
      * (* the "id" key itself *)
        destruct (IH (Js.del (Js.set cur "medusa_id" (Js.get cur "id")) "id"))
          as (res & Hres & Hnd & Hhas & Hget).
        -- exact Hks'.
        -- apply NoDup_keys_del, NoDup_keys_set, Hcur.
        -- rewrite get_del. reflexivity.
        -- intros k2 Hk2. rewrite get_del, get_set.
           destruct (String.eqb_spec "id" k2) as [<-|_]; [discriminate|].
           destruct (String.eqb_spec "medusa_id" k2) as [<-|_]; [congruence|].
           intros Ho. apply Htr; [right; exact Hk2 | exact Ho].
        -- exists res. split; [exact Hres|]. split; [exact Hnd|]. split.
           ++ intros _. apply Hhas. right. rewrite has_del. reflexivity.
           ++ intros key. specialize (Hget key). clear IH Htr Hhas.
              unfold after_loop in *.
              rewrite !mem_cons. rewrite Hk in Hget.
              rewrite get_del, get_set in Hget.
              split_keys; unfold translated in *; rewrite ?Hobj in *; congruence.
      * (* a primitive under another key: untouched *)
        destruct (IH cur) as (res & Hres & Hnd & Hhas & Hget); auto.
        { intros k2 Hk2. apply Htr. right. exact Hk2. }
        exists res. split; [exact Hres|]. split; [exact Hnd|]. split.
        -- intros Hor. apply Hhas. rewrite mem_cons in Hor.
           destruct (String.eqb_spec "id" k); [congruence | exact Hor].
        -- intros key. specialize (Hget key). clear IH Htr Hhas.
           unfold after_loop in *.
           rewrite !mem_cons.
           split_keys; unfold translated in *; rewrite ?Hobj in *; congruence.
Qed.

(** ** The loop over the indices of an array *)

Lemma array_loop n idxs :
  forall cur : list JsVal,
    List.NoDup idxs ->
    (forall i v, In i idxs -> cur !! i = Some v ->
                 Js.instanceofObject v = true ->
                 exists r, translateIdsToMedusaIds n v = Some r) ->
    exists res,
      fold_left (array_step (translateIdsToMedusaIds n)) idxs (Some cur) = Some res /\
      length res = length cur /\
      (forall i v, In i idxs -> cur !! i = Some v ->
                   exists x, res !! i = Some x /\ translated n v x) /\
      (forall i, ~ In i idxs -> res !! i = cur !! i).
Proof.
  induction idxs as [|i0 idxs IH]; intros cur Hnd Htr.
  - exists cur. simpl. repeat split; auto. intros i v [].
  - inversion Hnd as [|? ? Hi0 Hnd']; subst.
    change (fold_left ?f (i0 :: idxs) ?a) with (fold_left f idxs (f a i0)).
    unfold array_step at 2.
    destruct (cur !! i0) as [child|] eqn:Hc.
    + destruct (Js.instanceofObject child) eqn:Hobj.
      * destruct (Htr i0 child (or_introl eq_refl) Hc Hobj) as (r & Hr). rewrite Hr.
        assert (Hlt : (i0 < length cur)%nat) by (eapply lookup_lt_Some; eauto).
        destruct (IH (<[i0 := r]> cur) Hnd') as (res & Hres & Hlen & Hin & Hout).
        { intros i v Hi Hl. assert (i0 <> i) by (intros ->; contradiction).
          rewrite list_lookup_insert_ne in Hl by assumption.
          intros Ho. apply (Htr i v); [right; exact Hi | exact Hl | exact Ho]. }
        exists res. split; [exact Hres|]. split; [rewrite Hlen; apply length_insert|].
        split.
        -- intros i v [<-|Hi] Hl.
           ++ exists r. rewrite (Hout i0 Hi0), list_lookup_insert_eq by exact Hlt.
              split; [reflexivity|]. unfold translated.
              assert (v = child) as -> by congruence. rewrite Hobj. exact Hr.
           ++ apply Hin; [exact Hi|]. assert (i0 <> i) by (intros ->; contradiction).
              rewrite list_lookup_insert_ne by assumption. exact Hl.
        -- intros i Hi. rewrite Hout by (intros H; apply Hi; right; exact H).
           apply list_lookup_insert_ne. intros ->. apply Hi. left. reflexivity.
      * destruct (IH cur Hnd') as (res & Hres & Hlen & Hin & Hout).
        { intros i v Hi Hl Ho. apply (Htr i v); [right; exact Hi | exact Hl | exact Ho]. }
        exists res. split; [exact Hres|]. split; [exact Hlen|]. split.
        -- intros i v [<-|Hi] Hl.
           ++ exists child. rewrite (Hout i0 Hi0). split; [exact Hc|].
              unfold translated. assert (v = child) as -> by congruence.
              rewrite Hobj. reflexivity.
           ++ apply Hin; assumption.
        -- intros i Hi. apply Hout. intros H. apply Hi. right. exact H.
    + destruct (IH cur Hnd') as (res & Hres & Hlen & Hin & Hout).
      { intros i v Hi Hl Ho. apply (Htr i v); [right; exact Hi | exact Hl | exact Ho]. }
      exists res. split; [exact Hres|]. split; [exact Hlen|]. split.
      * intros i v [<-|Hi] Hl; [congruence | apply Hin; assumption].
      * intros i Hi. apply Hout. intros H. apply Hi. right. exact H.
Qed.

(** ** Children of a payload *)

Lemma depth_entry es k v : In (k, v) es -> (Js.depth v < Js.depth (JObj es))%nat.
Proof.
  simpl. induction es as [|[k0 x] es IH]; simpl; [tauto|].
  intros [H|H]; [injection H as -> ->; lia | specialize (IH H); lia].
Qed.

Lemma depth_elem l v : In v l -> (Js.depth v < Js.depth (JArr l))%nat.
Proof.
  simpl. induction l as [|x l IH]; simpl; [tauto|].
  intros [->|H]; [lia | specialize (IH H); lia].
Qed.

Lemma get_entry es k :
  Js.get es k = JUndef \/ In (k, Js.get es k) es.
Proof.
  induction es as [|[k0 x] es IH]; simpl; [auto|].
  destruct (String.eqb_spec k0 k) as [->|Hne]; [auto|].
  destruct IH; auto.
Qed.

Lemma depth_get es k : (Js.depth (Js.get es k) < Js.depth (JObj es))%nat.
Proof.
  destruct (get_entry es k) as [->|H]; [simpl; lia | eapply depth_entry, H].
Qed.

Lemma plain_ids_entry es k v :
  plain_ids (JObj es) = true -> In (k, v) es -> plain_ids v = true.
Proof.
  simpl. rewrite !andb_true_iff. intros [_ H] Hin.
  rewrite forallb_forall in H. apply (H (k, v)), Hin.
Qed.

Lemma plain_ids_get es k :
  plain_ids (JObj es) = true -> plain_ids (Js.get es k) = true.
Proof.
  intros H. destruct (get_entry es k) as [->|Hin]; [reflexivity|].
  eapply plain_ids_entry; eauto.
Qed.

Lemma no_medusa_id_get es k :
  has_medusa_id_key (JObj es) = false -> has_medusa_id_key (Js.get es k) = false.
Proof.
  intros H. destruct (get_entry es k) as [->|Hin]; [reflexivity|].
  simpl in H. apply orb_false_iff in H as [_ H].
  apply not_true_is_false. intros Hc.
  assert (existsb (fun kv => has_medusa_id_key (snd kv)) es = true); [|congruence].
  apply existsb_exists. exists (k, Js.get es k). split; [exact Hin | exact Hc].
Qed.

Lemma primitive_clean v :
  Js.instanceofObject v = false ->
  has_id_key v = false /\ rename_ids v = v.
Proof. destruct v; simpl; intros; try discriminate; auto. Qed.

(** ** Reads of the renamed object *)

Lemma get_rename es key :
  Js.has es "medusa_id" = false ->
  Js.get (map (fun kv => (if String.eqb (fst kv) "id" then "medusa_id" else fst kv,
                          rename_ids (snd kv))) es) key =
    if String.eqb key "id" then JUndef
    else if String.eqb key "medusa_id" then rename_ids (Js.get es "id")
    else rename_ids (Js.get es key).
Proof.
  induction es as [|[k0 x] es IH]; simpl.
  - intros _. destruct (String.eqb key "id"), (String.eqb key "medusa_id"); reflexivity.
  - intros H. apply orb_false_iff in H as [Hk0 H]. specialize (IH H). rewrite IH.
    clear IH. split_keys.
Qed.

(** ** The translation of a payload with plain ids *)

Lemma Same_refl_prim v : Js.instanceofObject v = false -> Same v (rename_ids v).
Proof.
  intros H. destruct (primitive_clean v H) as [_ ->]. apply Same_prim, H.
Qed.

Lemma translate_spec n :
  forall v,
    plain_ids v = true -> (Js.depth v < n)%nat ->
    exists r,
      translateIdsToMedusaIds n v = Some r /\
      has_id_key r = false /\
      (has_medusa_id_key v = false -> Same r (rename_ids v)) /\
      match v with
      | JObj _ => exists es', r = JObj es'
      | JArr _ => exists l', r = JArr l'
      | _ => r = v
      end.
Proof.
  induction n as [|n IH]; intros v Hp Hd; [lia|].
  assert (Hchild : forall c x,
            plain_ids c = true -> (Js.depth c < n)%nat -> translated n c x ->
            has_id_key x = false /\
            (has_medusa_id_key c = false -> Same x (rename_ids c))).
  { intros c x Hpc Hdc Ht. unfold translated in Ht.
    destruct (Js.instanceofObject c) eqn:Ho.
    - destruct (IH c Hpc Hdc) as (r & Hr & Hc & Hs & _).
      assert (x = r) as -> by congruence. auto.
    - subst x. destruct (primitive_clean c Ho) as [H1 H2].
      split; [exact H1|]. intros _. apply Same_refl_prim, Ho. }
  assert (Htot : forall c,
            plain_ids c = true -> (Js.depth c < n)%nat ->
            exists r, translateIdsToMedusaIds n c = Some r).
  { intros c Hpc Hdc. destruct (IH c Hpc Hdc) as (r & Hr & _). eauto. }
  destruct v as [| | b | z | s | l | es]; simpl translateIdsToMedusaIds;
    try (eexists; split; [reflexivity|]; split; [reflexivity|];
         split; [intros _; apply Same_prim; reflexivity | reflexivity]).
  - (* arrays *)
    destruct (array_loop n (seq 0 (length l)) l) as (res & Hres & Hlen & Hin & _).
    { apply NoDup_ListNoDup, NoDup_seq. }
    { intros i c _ Hl _. apply Htot.
      - simpl in Hp. rewrite forallb_forall in Hp. apply Hp.
        apply list_elem_of_In. eapply list_elem_of_lookup_2, Hl.
      - assert (Hc : In c l)
          by (apply list_elem_of_In; eapply list_elem_of_lookup_2, Hl).
        pose proof (depth_elem l c Hc). lia. }
    rewrite Hres. simpl option_map. exists (JArr res).
    assert (Hall : Forall2 (translated n) l res).
    { apply Forall2_same_length_lookup. split; [symmetry; exact Hlen|].
      intros i c x Hl Hx. destruct (Hin i c) as (x' & Hx' & Ht); [|exact Hl|].
      - apply in_seq. apply lookup_lt_Some in Hl. lia.
      - assert (x = x') as -> by congruence. exact Ht. }
    assert (Hkids : forall c, In c l -> plain_ids c = true /\ (Js.depth c < n)%nat).
    { intros c Hc. split.
      - simpl in Hp. rewrite forallb_forall in Hp. apply Hp, Hc.
      - pose proof (depth_elem l c Hc). lia. }
    split; [reflexivity|]. split; [|split; [|eauto]].
    + simpl. apply not_true_is_false. intros He.
      apply existsb_exists in He as (x & Hx & Hk).
      apply list_elem_of_In, list_elem_of_lookup in Hx as (i & Hx).
      destruct (Forall2_lookup_r _ _ _ _ _ Hall Hx) as (c & Hc & Ht).
      assert (Hcl : In c l) by (apply list_elem_of_In; eapply list_elem_of_lookup_2, Hc).
      destruct (Hkids c Hcl) as [H1 H2].
      destruct (Hchild c x H1 H2 Ht) as [Hclean _]. congruence.
    + intros Hm. simpl. apply Same_arr.
      apply Forall2_same_length_lookup. split; [rewrite length_map; exact Hlen|].
      intros i x y Hx Hy.
      change (map rename_ids l) with (rename_ids <$> l) in Hy.
      rewrite list_lookup_fmap in Hy.
      destruct (l !! i) as [c|] eqn:Hc; [|discriminate]. injection Hy as <-.
      assert (Hcl : In c l) by (apply list_elem_of_In; eapply list_elem_of_lookup_2, Hc).
      destruct (Hkids c Hcl) as [H1 H2].
      pose proof (Forall2_lookup_lr _ _ _ _ _ _ Hall Hc Hx) as Ht.
      apply (Hchild c x H1 H2 Ht).
      simpl in Hm. apply not_true_is_false. intros Hcm.
      assert (existsb has_medusa_id_key l = true); [|congruence].
      apply existsb_exists. exists c. auto.
  - (* objects *)
    pose proof Hp as Hp'. simpl in Hp'.
    apply andb_true_iff in Hp' as [Hp' _]. apply andb_true_iff in Hp' as [Hnd Hid].
    apply nodup_keys_NoDup in Hnd. apply negb_true_iff in Hid.
    assert (Hkid : forall k, plain_ids (Js.get es k) = true /\
                             (Js.depth (Js.get es k) < n)%nat).
    { intros k. split; [apply plain_ids_get, Hp|].
      pose proof (depth_get es k). lia. }
    destruct (object_loop n (Js.keys es) es Hnd Hnd Hid)
      as (res & Hres & Hnd' & Hhas & Hget).
    { intros k _ _. destruct (Hkid k) as [H1 H2]. apply Htot; assumption. }
    rewrite Hres. simpl option_map. exists (JObj res).
    split; [reflexivity|]. split; [|split; [|eauto]].
    + simpl. apply orb_false_iff. split.
      * apply Hhas. destruct (Js.has es "id") eqn:Hh; [left|right; reflexivity].
        apply mem_In, has_In, Hh.
      * apply not_true_is_false. intros He.
        apply existsb_exists in He as ([k x] & Hx & Hk). simpl in Hk.
        pose proof (In_get res k x Hnd' Hx) as Hg.
        specialize (Hget k). rewrite Hg in Hget. unfold after_loop in Hget.
        destruct (Hkid k) as [H1 H2]. destruct (Hkid "id") as [H3 H4].
        assert (Hidc : has_id_key (Js.get es "id") = false)
          by apply (primitive_clean _ Hid).
        assert (Hund : mem k (Js.keys es) = false -> has_id_key (Js.get es k) = false).
        { intros Hm. rewrite has_false_get; [reflexivity|].
          apply not_true_is_false. intros Hh. apply has_In, mem_In in Hh. congruence. }
        assert (Hclean : has_id_key x = false).
        { destruct (mem "id" (Js.keys es)).
          - destruct (String.eqb k "id"); [rewrite Hget; reflexivity|].
            destruct (String.eqb k "medusa_id"); [rewrite Hget; exact Hidc|].
            destruct (mem k (Js.keys es)) eqn:Hm;
              [apply (Hchild _ _ H1 H2 Hget) | rewrite Hget; apply Hund; reflexivity].
          - destruct (mem k (Js.keys es)) eqn:Hm;
              [apply (Hchild _ _ H1 H2 Hget) | rewrite Hget; apply Hund; reflexivity]. }
        congruence.
    + intros Hm. simpl. apply Same_obj. intros key.
      assert (Hmid : Js.has es "medusa_id" = false)
        by (simpl in Hm; apply orb_false_iff in Hm; tauto).
      rewrite (get_rename es key Hmid).
      specialize (Hget key). unfold after_loop in Hget.
      destruct (Hkid key) as [H1 H2].
      pose proof (no_medusa_id_get es key Hm) as Hmk.
      assert (Hund : forall k, mem k (Js.keys es) = false -> Js.get es k = JUndef).
      { intros k Hk. apply has_false_get.
        apply not_true_is_false. intros Hh. apply has_In, mem_In in Hh. congruence. }
      assert (Hnomid : mem "medusa_id" (Js.keys es) = false).
      { apply not_true_is_false. intros Hh. apply mem_In, has_In in Hh. congruence. }
      destruct (mem "id" (Js.keys es)) eqn:Hmi.
      * destruct (String.eqb_spec key "id") as [Hk1|Hk1]; [subst key|].
        { rewrite Hget. apply Same_prim. reflexivity. }
        destruct (String.eqb_spec key "medusa_id") as [Hk2|Hk2]; [subst key|].
        { rewrite Hget. apply Same_refl_prim, Hid. }
        destruct (mem key (Js.keys es)) eqn:Hmk'.
        -- apply (Hchild _ _ H1 H2 Hget), Hmk.
        -- rewrite Hget, (Hund key Hmk'). apply Same_prim. reflexivity.
      * destruct (String.eqb_spec key "id") as [Hk1|Hk1]; [subst key|].
        { rewrite Hmi in Hget. rewrite Hget, (Hund "id" Hmi).
          apply Same_prim. reflexivity. }
        destruct (String.eqb_spec key "medusa_id") as [Hk2|Hk2]; [subst key|].
        { rewrite Hnomid in Hget. rewrite Hget, (Hund "medusa_id" Hnomid), (Hund "id" Hmi).
          apply Same_prim. reflexivity. }
        destruct (mem key (Js.keys es)) eqn:Hmk'.
        -- apply (Hchild _ _ H1 H2 Hget), Hmk.
        -- rewrite Hget, (Hund key Hmk'). apply Same_prim. reflexivity.
Qed.

(** ** The fuel is never short *)

Lemma object_loop_total n ks :
  forall cur,
    List.NoDup ks ->
    (forall k, In k ks -> Js.instanceofObject (Js.get cur k) = true ->
               exists r, translateIdsToMedusaIds n (Js.get cur k) = Some r) ->
    exists res,
      fold_left (object_step (translateIdsToMedusaIds n)) ks (Some cur) = Some res.
Proof.
  induction ks as [|k ks IH]; intros cur Hks Htr; [exists cur; reflexivity|].
  inversion Hks as [|? ? Hk Hks']; subst.
  change (fold_left ?f (k :: ks) ?a) with (fold_left f ks (f a k)).
  unfold object_step at 2.
  destruct (Js.instanceofObject (Js.get cur k)) eqn:Hobj.
  - destruct (Htr k (or_introl eq_refl) Hobj) as (r & ->).
    apply IH; [exact Hks'|]. intros k2 Hk2. rewrite get_set.
    destruct (String.eqb_spec k k2) as [->|_]; [contradiction|].
    apply Htr. right. exact Hk2.
  - destruct (String.eqb_spec k "id") as [->|_].
    + apply IH; [exact Hks'|]. intros k2 Hk2. rewrite get_del, get_set.
      destruct (String.eqb_spec "id" k2) as [<-|_]; [discriminate|].
      destruct (String.eqb_spec "medusa_id" k2) as [<-|_]; [congruence|].
      apply Htr. right. exact Hk2.
    + apply IH; [exact Hks'|]. intros k2 Hk2. apply Htr. right. exact Hk2.
Qed.

Lemma translateIdsToMedusaIds_fuel n :
  forall v, distinct_keys v = true -> (Js.depth v < n)%nat ->
            exists r, translateIdsToMedusaIds n v = Some r.
Proof.
  induction n as [|n IH]; intros v Hw Hd; [lia|].
  destruct v as [| | b | z | s | l | es]; simpl translateIdsToMedusaIds; eauto.
  - destruct (array_loop n (seq 0 (length l)) l) as (res & -> & _).
    + apply NoDup_ListNoDup, NoDup_seq.
    + intros i c _ Hl _.
      assert (Hc : In c l) by (apply list_elem_of_In; eapply list_elem_of_lookup_2, Hl).
      apply IH.
      * simpl in Hw. rewrite forallb_forall in Hw. apply Hw, Hc.
      * pose proof (depth_elem l c Hc). lia.
    + simpl. eauto.
  - simpl in Hw. apply andb_true_iff in Hw as [Hnd Hw].
    apply nodup_keys_NoDup in Hnd.
    destruct (object_loop_total n (Js.keys es) es Hnd) as (res & ->).
    + intros k _ _. apply IH.
      * destruct (get_entry es k) as [->|Hin]; [reflexivity|].
        rewrite forallb_forall in Hw. apply (Hw _ Hin).
      * pose proof (depth_get es k). lia.
    + simpl. eauto.
Qed.

Lemma translateIds_enough v :
  distinct_keys v = true ->
  translateIdsToMedusaIds (S (Js.depth v)) v = Some (translateIds v).
Proof.
  intros Hw. unfold translateIds.
  destruct (translateIdsToMedusaIds_fuel (S (Js.depth v)) v Hw) as (r & ->); [lia|].
  reflexivity.
Qed.

Lemma plain_ids_distinct v : plain_ids v = true -> distinct_keys v = true.
Proof.
  remember (Js.depth v) as d eqn:Hd. revert v Hd.
  induction d as [d IH] using lt_wf_ind. intros v -> Hp.
  destruct v as [| | b | z | s | l | es]; try reflexivity.
  - simpl in *. rewrite forallb_forall in *. intros c Hc.
    apply (IH (Js.depth c)); [|reflexivity | apply Hp, Hc].
    pose proof (depth_elem l c Hc). simpl in *. lia.
  - simpl in Hp |- *. apply andb_true_iff in Hp as [Hp Hk].
    apply andb_true_iff in Hp as [Hn _]. rewrite Hn. simpl.
    rewrite forallb_forall in *. intros [k c] Hc. simpl.
    apply (IH (Js.depth c)); [|reflexivity | apply (Hk _ Hc)].
    pose proof (depth_entry es k c Hc). simpl in *. lia.
Qed.

(** ** The body built for a request *)

Lemma clean_set es k v :
  existsb (fun kv => has_id_key (snd kv)) es = false -> has_id_key v = false ->
  existsb (fun kv => has_id_key (snd kv)) (Js.set es k v) = false.
Proof.
  intros He Hv. apply not_true_is_false. intros H.
  apply existsb_exists in H as (kv & Hin & Hk).
  apply In_set in Hin as [->|Hin]; [simpl in Hk; congruence|].
  assert (existsb (fun kv => has_id_key (snd kv)) es = true); [|congruence].
  apply existsb_exists. eauto.
Qed.

Lemma clean_del es k :
  existsb (fun kv => has_id_key (snd kv)) es = false ->
  existsb (fun kv => has_id_key (snd kv)) (Js.del es k) = false.
Proof.
  intros He. apply not_true_is_false. intros H.
  apply existsb_exists in H as (kv & Hin & Hk).
  apply In_del in Hin as [Hin _].
  assert (existsb (fun kv => has_id_key (snd kv)) es = true); [|congruence].
  apply existsb_exists. eauto.
Qed.

Lemma Same_get es1 es2 key :
  Same (JObj es1) (JObj es2) -> Same (Js.get es1 key) (Js.get es2 key).
Proof.
  intros H. inversion H as [v Hv|l1 l2 Hl|e1 e2 He]; subst; [discriminate | apply He].
Qed.

Lemma rename_ids_obj es :
  rename_ids (JObj es) =
    JObj (map (fun kv => (if String.eqb (fst kv) "id" then "medusa_id" else fst kv,
                          rename_ids (snd kv))) es).
Proof. reflexivity. Qed.

(** What [strapiSendDataLayer] makes of an entity whose ids are plain. *)
Lemma dataToSend_of_plain es :
  plain_ids (JObj es) = true ->
  exists body,
    dataToSend_of (Some es) = JObj body /\
    Js.get body "medusa_id" = Js.get es "id" /\
    Js.has body "id" = false /\
    has_id_key (JObj body) = false /\
    (has_medusa_id_key (JObj es) = false -> Same (JObj body) (rename_ids (JObj es))).
Proof.
  intros Hp. unfold dataToSend_of.
  pose proof (translateIds_enough (JObj es) (plain_ids_distinct _ Hp)) as He.
  destruct (translate_spec (S (Js.depth (JObj es))) (JObj es) Hp)
    as (r & Hr & Hclean & Hsame & (es' & ->)); [lia|].
  assert (translateIds (JObj es) = JObj es') as -> by congruence.
  assert (Hid : Js.instanceofObject (Js.get es "id") = false).
  { simpl in Hp. apply andb_true_iff in Hp as [Hp _].
    apply andb_true_iff in Hp as [_ Hp]. apply negb_true_iff, Hp. }
  eexists. split; [reflexivity|]. split; [|split; [|split]].
  - rewrite get_del, get_set. reflexivity.
  - rewrite has_del. reflexivity.
  - simpl in Hclean |- *. apply orb_false_iff in Hclean as [_ Hkids].
    apply orb_false_iff. split; [rewrite has_del; reflexivity|].
    apply clean_del, clean_set; [exact Hkids | apply (primitive_clean _ Hid)].
  - intros Hm. specialize (Hsame Hm). rewrite rename_ids_obj in Hsame |- *.
    apply Same_obj. intros key.
    pose proof (Same_get _ _ key Hsame) as Hk.
    assert (Hmid : Js.has es "medusa_id" = false)
      by (simpl in Hm; apply orb_false_iff in Hm; tauto).
    rewrite get_del, get_set.
    rewrite (get_rename es key Hmid) in Hk |- *.
    destruct (String.eqb_spec "id" key) as [<-|Hk1].
    { apply Same_prim. reflexivity. }
    destruct (String.eqb_spec key "id") as [|_]; [congruence|].
    destruct (String.eqb_spec "medusa_id" key) as [<-|Hk2].
    { simpl. apply Same_refl_prim, Hid. }
    exact Hk.
Qed.

End Translate.

Section Body.

Context `{env : Env}.

(** Every entry request of an executor call carries the method, token
    and body the call was given. *)
Lemma executeStrapiSend_requests m type token id data s :
  exists tr,
    wire (final (executeStrapiSend m type token id data s)) = wire s ++ tr /\
    Forall (fun r => call r = EntrySend ->
                     method r = m /\ bearer r = Some token /\
                     body r = default JUndef data) tr.
Proof.
  unfold executeStrapiSend, bind.
  pose proof (waitForHealth_extends s) as (_ & _ & trh & Hw & Hh).
  assert (Hhealth : Forall (fun r => call r = EntrySend ->
                      method r = m /\ bearer r = Some token /\
                      body r = default JUndef data) trh).
  { eapply Forall_impl; [exact Hh|]. intros r Hs Hc. unfold sends in Hs.
    simpl in Hs. rewrite Hc in Hs. destruct Hs as [Hs|[]]. discriminate. }
  destruct (waitForHealth s) as [[] s1|e s1|s1]; simpl in Hw;
    [|exists trh; auto ..].
  unfold try_catch.
  match goal with |- context [axios ?rq s1] =>
    destruct (axios_from_first retries 0 rq s1) as (rest & Ha & Hr);
    fold (axios rq) in Ha;
    exists (trh ++ with_attempt 0 rq :: rest);
    assert (Hfin : wire (final match axios rq s1 with
                               | Returned a s' => Returned a s'
                               | Thrown e s' =>
                                   _axiosError e
                                     (if Js.truthy id then Some (Js.toString id) else None)
                                     (Some type) (Some m) s'
                               | Hangs s' => Hangs s'
                               end) = wire (final (axios rq s1)))
      by (destruct (axios rq s1); reflexivity)
  end.
  rewrite Hfin, Ha, Hw, <- app_assoc. split; [reflexivity|].
  apply Forall_app. split; [exact Hhealth|].
  constructor; [destruct m; intros _; repeat split|].
  eapply Forall_impl; [exact Hr|]. intros r (j & _ & ->) _.
  destruct m; repeat split.
Qed.

(** C8 (amended). For a payload in which no "id" key holds an object or
    an array, the body sent with an entry write is the payload with
    every "id" key renamed to "medusa_id" at every nesting level (the
    payload having no "medusa_id" key of its own), its top-level
    "medusa_id" is the entity's original id, and no "id" key is left in
    it.  An "id" key that holds an object or an array is not renamed. *)
Theorem ids_are_translated
  (p : StrapiSendParams) (es : list (string * JsVal)) (s : State) :
  sp_data p = Some es ->
  Payload.plain_ids (JObj es) = true ->
  let sent := dataToSend_of (sp_data p) in
  Js.prop sent "medusa_id" = Some (Js.get es "id") /\
  Payload.has_id_key sent = false /\
  (Payload.has_medusa_id_key (JObj es) = false ->
   Payload.Same sent (Payload.rename_ids (JObj es))) /\
  (forall r, In r (wire (final (strapiSendDataLayer p s))) ->
             ~ In r (wire s) -> call r = EntrySend ->
             body r = JObj [("data", sent)]).
Proof.
  intros Hd Hp. cbv zeta. rewrite Hd.
  destruct (Translate.dataToSend_of_plain es Hp)
    as (entity & Hbody & Hmid & _ & Hclean & Hsame).
  rewrite Hbody.
  split; [simpl; rewrite Hmid; reflexivity|]. split; [exact Hclean|].
  split; [exact Hsame|].
  intros r Hin Hold Hc. rewrite strapiSendDataLayer_eq, Hd in Hin.
  pose proof (strapiLoginSendDatalayer_extends (sp_authInterface p) s)
    as (_ & _ & trl & Hwl & Hl).
  assert (Hlogin : forall r, In r trl -> call r <> EntrySend).
  { intros r0 Hr0 Hc0. rewrite Forall_forall in Hl.
    specialize (Hl r0 (proj2 (list_elem_of_In _ _) Hr0)).
    unfold sends in Hl. simpl in Hl. rewrite Hc0 in Hl.
    destruct Hl as [Hl|[Hl|[]]]; discriminate. }
  destruct (strapiLoginSendDatalayer (sp_authInterface p) s)
    as [[creds|] s1|e s1|s1]; simpl in Hwl;
    try (simpl in Hin; rewrite Hwl in Hin; apply in_app_or in Hin as [Hin|Hin];
         [contradiction | exfalso; eapply Hlogin; eauto]).
  match type of Hin with context [executeStrapiSend ?m ?t ?k ?i ?d s1] =>
    destruct (executeStrapiSend_requests m t k i d s1) as (tr & Hw & Hreq);
    assert (Hfin : In r (wire (final (executeStrapiSend m t k i d s1))))
  end.
  { destruct (executeStrapiSend _ _ _ _ _ s1) as [result s2|e s2|s2]; simpl in *;
      try exact Hin.
    destruct (Js.prop (data result) "id"), (Js.prop (data result) "medusa_id");
      exact Hin. }
  rewrite Hw, Hwl in Hfin. apply in_app_or in Hfin as [Hfin|Hfin].
  - apply in_app_or in Hfin as [Hfin|Hfin];
      [contradiction | exfalso; eapply Hlogin; eauto].
  - rewrite Forall_forall in Hreq.
    destruct (Hreq r (proj2 (list_elem_of_In _ _) Hfin) Hc) as (_ & _ & ->).
    rewrite <- Hbody. reflexivity.
Qed.

End Body.

(** * The first revision: one more login, one more attempt *)

Section FirstRevision.

Context `{env : Env}.

Lemma V1_axios_final rq s :
  V1.wire (V1.final (V1.axios rq s)) = V1.wire s ++ [rq] /\
  V1.userTokens (V1.final (V1.axios rq s)) = V1.userTokens s.
Proof.
  unfold V1.axios. destruct (remote _ _ _); [destruct (_ && _)|]; split; reflexivity.
Qed.

Lemma V1_checkStrapiHealth_final s :
  V1.wire (snd (V1.checkStrapiHealth s)) = V1.wire s ++ [V1.health_request] /\
  V1.userTokens (snd (V1.checkStrapiHealth s)) = V1.userTokens s.
Proof.
  unfold V1.checkStrapiHealth.
  destruct (V1_axios_final V1.health_request s) as [Hw Hu].
  destruct (V1.axios V1.health_request s); simpl in *; auto.
Qed.

(** A login is a health probe, then at most the login request; it never
    removes an entry of the cache. *)
Lemma V1_loginAsStrapiUser_final email password s :
  let o := V1.loginAsStrapiUser email password s in
  (exists tr, V1.wire (V1.final o) = V1.wire s ++ V1.health_request :: tr /\
              (tr = [] \/ tr = [V1.login_request email password])) /\
  (forall k, is_Some (V1.userTokens s !! k) ->
             is_Some (V1.userTokens (V1.final o) !! k)).
Proof.
  cbv zeta. unfold V1.loginAsStrapiUser.
  destruct (V1_checkStrapiHealth_final s) as [Hw Hu].
  destruct (V1.checkStrapiHealth s) as [[] s1]; simpl in Hw, Hu;
    [|split; [exists []; simpl; rewrite Hw; auto | intros k; simpl; rewrite Hu; auto]].
  destruct (V1_axios_final (V1.login_request email password) s1) as [Hw2 Hu2].
  assert (Hwire : forall s2, V1.wire s2 = V1.wire s1 ++ [V1.login_request email password] ->
            exists tr, V1.wire s2 = V1.wire s ++ V1.health_request :: tr /\
                       (tr = [] \/ tr = [V1.login_request email password])).
  { intros s2 H2. eexists. split; [|right; reflexivity].
    rewrite H2, Hw, <- app_assoc. reflexivity. }
  destruct (V1.axios _ s1) as [res s2|e s2]; simpl in Hw2, Hu2.
  - destruct (Js.prop (data res) "jwt") as [jwt|]; [destruct (Js.truthy jwt)|];
      simpl; (split; [apply Hwire, Hw2|]); intros k Hk;
      rewrite ?Hu2, ?Hu; try exact Hk.
    destruct (decide (V1.key email = k)) as [<-|Hne].
    + rewrite lookup_insert_eq. eauto.
    + rewrite lookup_insert_ne by exact Hne. exact Hk.
  - simpl. split; [apply Hwire, Hw2|]. intros k Hk. rewrite Hu2, Hu. exact Hk.
Qed.

(** An executor call is a health probe, then at most the entry request;
    when it rejects, the entry request was made. *)
Lemma V1_executeStrapiSend_final method type token id data s :
  let o := V1.executeStrapiSend method type token id data s in
  (exists tr, V1.wire (V1.final o) = V1.wire s ++ V1.health_request :: tr /\
              (tr = [] \/ tr = [V1.send_request method type token id data])) /\
  V1.userTokens (V1.final o) = V1.userTokens s /\
  (forall e s', o = V1.Rejected e s' ->
     V1.wire s' = V1.wire s ++
       [V1.health_request; V1.send_request method type token id data]).
Proof.
  cbv zeta. unfold V1.executeStrapiSend.
  destruct (V1_checkStrapiHealth_final s) as [Hw Hu].
  destruct (V1.checkStrapiHealth s) as [[] s1]; simpl in Hw, Hu;
    [|split; [exists []; simpl; rewrite Hw; auto | split; [exact Hu | discriminate]]].
  destruct (V1_axios_final (V1.send_request method type token id data) s1)
    as [Hw2 Hu2].
  destruct (V1.axios _ s1) as [res s2|e s2]; simpl in Hw2, Hu2 |- *;
    (split; [eexists; split; [|right; reflexivity];
             rewrite Hw2, Hw, <- app_assoc; reflexivity|]);
    (split; [congruence|]); [discriminate|].
  intros e' s' [= _ <-]. rewrite Hw2, Hw, <- app_assoc. reflexivity.
Qed.


Lemma V1_login_calls email password tr :
  tr = [] \/ tr = [V1.login_request email password] ->
  (calls_of UserLogin (V1.health_request :: tr) <= 1)%nat /\
  calls_of EntrySend (V1.health_request :: tr) = 0%nat.
Proof. intros [->| ->]; vm_compute; split; (lia || reflexivity). Qed.

Lemma V1_send_calls method type token id data tr :
  tr = [] \/ tr = [V1.send_request method type token id data] ->
  calls_of UserLogin (V1.health_request :: tr) = 0%nat /\
  (calls_of EntrySend (V1.health_request :: tr) <= 1)%nat.
Proof. intros [->| ->]; vm_compute; split; (lia || reflexivity). Qed.

Lemma V1_adds_refl s : V1_adds s s 0 0.
Proof.
  exists []. rewrite app_nil_r. repeat split; vm_compute; lia.
Qed.

Lemma V1_adds_trans s1 s2 s3 l1 n1 l2 n2 :
  V1_adds s1 s2 l1 n1 -> V1_adds s2 s3 l2 n2 ->
  V1_adds s1 s3 (l1 + l2) (n1 + n2).
Proof.
  intros (t1 & H1 & Hl1 & Hn1) (t2 & H2 & Hl2 & Hn2). exists (t1 ++ t2).
  rewrite H2, H1, <- app_assoc, !calls_of_app. repeat split; lia.
Qed.

Lemma V1_adds_weaken s s' l n l' n' :
  V1_adds s s' l n -> (l <= l')%nat -> (n <= n')%nat -> V1_adds s s' l' n'.
Proof. intros (t & H & Hl & Hn) ? ?. exists t. repeat split; [exact H | lia | lia]. Qed.

Lemma V1_loginAsStrapiUser_adds email password s :
  V1_adds s (V1.final (V1.loginAsStrapiUser email password s)) 1 0.
Proof.
  destruct (V1_loginAsStrapiUser_final email password s) as [(tr & Hw & Htr) _].
  destruct (V1_login_calls _ _ _ Htr) as [Hl Hn].
  eexists. split; [exact Hw|]. split; [exact Hl | rewrite Hn; lia].
Qed.

Lemma V1_executeStrapiSend_adds method type token id data s :
  V1_adds s (V1.final (V1.executeStrapiSend method type token id data s)) 0 1.
Proof.
  destruct (V1_executeStrapiSend_final method type token id data s)
    as [(tr & Hw & Htr) _].
  destruct (V1_send_calls _ _ _ _ _ _ Htr) as [Hl Hn].
  eexists. split; [exact Hw|]. split; [rewrite Hl; lia | exact Hn].
Qed.

Lemma V1_first_token_final username password email s :
  let o := V1.first_token username password email s in
  (V1.nullish (V1.fetchUserToken email s) = false ->
     o = V1.Resolved (V1.fetchUserToken email s) s) /\
  V1_adds s (V1.final o) 1 0 /\
  (forall k, is_Some (V1.userTokens s !! k) ->
             is_Some (V1.userTokens (V1.final o) !! k)).
Proof.
  cbv zeta. unfold V1.first_token.
  destruct (V1.nullish (V1.fetchUserToken email s)).
  - split; [discriminate|].
    pose proof (V1_loginAsStrapiUser_adds (V1.or_else email username) password s) as Ha.
    destruct (V1_loginAsStrapiUser_final (V1.or_else email username) password s)
      as [_ Hk].
    cbv zeta in Hk.
    destruct (V1.loginAsStrapiUser _ _ s) as [[res|] s1|e s1]; simpl in *;
      [destruct (Js.prop (data res) "jwt")|..]; simpl; auto.
  - split; [reflexivity|]. split; [|auto].
    eapply V1_adds_weaken; [apply V1_adds_refl | lia | lia].
Qed.

(** [strapiSend]: when the first attempt fails, for whatever reason, the
    service logs in once more and makes one more attempt, whose outcome
    is the outcome of the call; no entry of the cache is ever removed. *)
Lemma V1_strapiSend_relogs_once method type id data username password email s :
  let o := V1.strapiSend method type id data username password email s in
  V1_adds s (V1.final o) 2 2 /\
  (V1.nullish (V1.fetchUserToken email s) = false ->
     V1_adds s (V1.final o) 1 2) /\
  (forall k, is_Some (V1.userTokens s !! k) ->
             is_Some (V1.userTokens (V1.final o) !! k)) /\
  (forall token s1 e s2,
     V1.first_token username password email s = V1.Resolved token s1 ->
     V1.executeStrapiSend method type token id data s1 = V1.Rejected e s2 ->
     V1.wire s2 = V1.wire s1 ++
       [V1.health_request; V1.send_request method type token id data] /\
     match V1.loginAsStrapiUser (V1.or_else email username) password s2 with
     | V1.Rejected e' s3 => o = V1.Rejected e' s3
     | V1.Resolved _ s3 =>
         o = V1.executeStrapiSend method type (V1.fetchUserToken email s3)
               id data s3
     end).
Proof.
  cbv zeta.
  assert (Hgen : forall l0,
            V1_adds s (V1.final (V1.first_token username password email s)) l0 0 ->
            V1_adds s (V1.final (V1.strapiSend method type id data username
                                   password email s)) (l0 + 1) 2).
  { intros l0 H0. unfold V1.strapiSend.
    destruct (V1.first_token username password email s) as [token s1|e s1];
      simpl in H0; [|eapply V1_adds_weaken; [exact H0 | lia | lia]].
    pose proof (V1_executeStrapiSend_adds method type token id data s1) as H1.
    destruct (V1.executeStrapiSend method type token id data s1)
      as [r s2|e s2]; simpl in H1;
      [eapply V1_adds_weaken; [exact (V1_adds_trans _ _ _ _ _ _ _ H0 H1) | lia | lia]|].
    pose proof (V1_loginAsStrapiUser_adds (V1.or_else email username) password s2)
      as H2.
    destruct (V1.loginAsStrapiUser _ _ s2) as [r s3|e' s3]; simpl in H2.
    - pose proof (V1_executeStrapiSend_adds method type
                    (V1.fetchUserToken email s3) id data s3) as H3.
      eapply V1_adds_weaken;
        [exact (V1_adds_trans _ _ _ _ _ _ _
                  (V1_adds_trans _ _ _ _ _ _ _
                     (V1_adds_trans _ _ _ _ _ _ _ H0 H1) H2) H3) | lia | lia].
    - eapply V1_adds_weaken;
        [exact (V1_adds_trans _ _ _ _ _ _ _
                  (V1_adds_trans _ _ _ _ _ _ _ H0 H1) H2) | lia | lia]. }
  destruct (V1_first_token_final username password email s) as (Hc & Ha & Hk).
  cbv zeta in Hc, Ha, Hk.
  split; [exact (Hgen 1%nat Ha)|]. split; [|split].
  - intros Hn. apply (Hgen 0%nat). rewrite (Hc Hn). apply V1_adds_refl.
  - intros k Hs. specialize (Hk k Hs). unfold V1.strapiSend.
    destruct (V1.first_token username password email s) as [token s1|e s1];
      simpl in Hk; [|exact Hk].
    destruct (V1_executeStrapiSend_final method type token id data s1)
      as (_ & Hu1 & _). cbv zeta in Hu1.
    destruct (V1.executeStrapiSend method type token id data s1)
      as [r s2|e s2]; simpl in Hu1 |- *; [rewrite Hu1; exact Hk|].
    destruct (V1_loginAsStrapiUser_final (V1.or_else email username) password s2)
      as [_ Hk2]. cbv zeta in Hk2. specialize (Hk2 k).
    rewrite Hu1 in Hk2. specialize (Hk2 Hk).
    destruct (V1.loginAsStrapiUser _ _ s2) as [r s3|e' s3]; simpl in Hk2 |- *;
      [|exact Hk2].
    destruct (V1_executeStrapiSend_final method type
                (V1.fetchUserToken email s3) id data s3) as (_ & Hu3 & _).
    cbv zeta in Hu3. rewrite Hu3. exact Hk2.
  - intros token s1 e s2 Hf He.
    destruct (V1_executeStrapiSend_final method type token id data s1)
      as (_ & _ & Hrej). cbv zeta in Hrej.
    split; [exact (Hrej e s2 He)|].
    unfold V1.strapiSend. rewrite Hf, He.
    destruct (V1.loginAsStrapiUser _ _ s2); reflexivity.
Qed.

End FirstRevision.

(** * Failed sends *)

Section FailedSend.

Context `{env : Env}.

(** C1 (amended). No request is retried by the data layer of the current
    revision: [strapiSendDataLayer] logs in at most once and calls the
    executor at most once, and when that call is rejected, for lack of
    authorization or for any other reason, the result is [{status: 400}]
    at once, with the cached credential as it was, no further login and
    no further attempt.  The first revision's [strapiSend] does repeat a
    failed attempt: whatever made the first attempt fail, it logs in
    once more and makes exactly one more attempt with the token then in
    the cache, whose outcome (or the failure of the login) is the
    outcome of the call; it makes at most two attempts and, with a token
    cached, at most one login, and it never removes an entry of the
    cache. *)
Theorem failed_send_policy :
  (forall (p : StrapiSendParams) (s : State),
     let o := strapiSendDataLayer p s in
     (calls_of EntrySend (wire (final o)) <= S (calls_of EntrySend (wire s)))%nat /\
     (calls_of UserLogin (wire (final o)) <= S (calls_of UserLogin (wire s)))%nat /\
     (forall creds s1 e s2,
        strapiLoginSendDatalayer (sp_authInterface p) s = Returned (Some creds) s1 ->
        executeStrapiSend (sp_method p) (sp_type p) (token creds) (sp_id p)
          (Some (JObj [("data", dataToSend_of (sp_data p))])) s1 = Thrown e s2 ->
        o = Returned status400 s2 /\
        userTokens s2 = userTokens s1 /\
        calls_of UserLogin (wire s2) = calls_of UserLogin (wire s1) /\
        calls_of EntrySend (wire s2) = S (calls_of EntrySend (wire s1)))) /\
  (forall method type id data username password email (s : V1.State),
     let o := V1.strapiSend method type id data username password email s in
     V1_adds s (V1.final o) 2 2 /\
     (V1.nullish (V1.fetchUserToken email s) = false ->
        V1_adds s (V1.final o) 1 2) /\
     (forall k, is_Some (V1.userTokens s !! k) ->
                is_Some (V1.userTokens (V1.final o) !! k)) /\
     (forall token s1 e s2,
        V1.first_token username password email s = V1.Resolved token s1 ->
        V1.executeStrapiSend method type token id data s1 = V1.Rejected e s2 ->
        V1.wire s2 = V1.wire s1 ++
          [V1.health_request; V1.send_request method type token id data] /\
        match V1.loginAsStrapiUser (V1.or_else email username) password s2 with
        | V1.Rejected e' s3 => o = V1.Rejected e' s3
        | V1.Resolved _ s3 =>
            o = V1.executeStrapiSend method type (V1.fetchUserToken email s3)
                  id data s3
        end)).
Proof.
  split.
  - intros p s. apply strapiSendDataLayer_sends_once.
  - intros. apply V1_strapiSend_relogs_once.
Qed.

End FailedSend.

(** * The methods at work *)

(** C3 (defect of the code). With a remote service that has no "regions"
    type, [deleteRegionInStrapi] asks for the "product-variants" type,
    never for "regions", and then sends the delete of the "regions" entry;
    it does the same when it is "product-variants" that the remote
    service lacks, while [createRegionInStrapi] asks for "regions". *)
Theorem region_delete_probes_variants :
  map Shop.line
    (wire (final (@deleteRegionInStrapi Shop.regionless Shop.region_gone
                    Shop.customer Shop.logged_in))) =
    [(GET, "http://cms/api/product-variants/");
     (DELETE, "http://cms/api/regions/reg_1")] /\
  map Shop.line
    (wire (final (@deleteRegionInStrapi Shop.variantless Shop.region_gone
                    Shop.customer Shop.logged_in))) =
    [(GET, "http://cms/api/product-variants/");
     (DELETE, "http://cms/api/regions/reg_1")] /\
  map Shop.line
    (wire (final (@createRegionInStrapi Shop.open_shop (JStr "reg_1")
                    Shop.customer Shop.logged_in))) =
    [(GET, "http://cms/api/regions/"); (POST, "http://cms/api/regions")].
Proof. repeat split; vm_compute; reflexivity. Qed.

(** With a fresh token in the cache and a remote service that no longer
    accepts it, an entry write through [strapiSendDataLayer] is sent once,
    refused as unauthorized, and reported as [{status: 400}]: no login
    follows, the refused token stays in the cache, and nothing is sent
    again, though a login would have yielded a token the remote service
    accepts. *)
Lemma unauthorized_send_is_not_retried :
  let o := @strapiSendDataLayer Shop.stale_shop (Shop.put Shop.shirt)
             Shop.logged_in in
  o = Returned status400 (final o) /\
  map (fun rq => (call rq, bearer rq, Shop.expiring [] 1000000 rq))
    (wire (final o)) =
    [(EntrySend, Some (JStr "jwt-1"), Shop.answer 401 JUndef)] /\
  userTokens (final o) !! "medusa@shop.test" = Some Shop.cached /\
  (exists rq, In rq (wire (final o)) /\
     Shop.expiring [] 1000000
       (mkRequest (call rq) (method rq) (url rq) (Some (JStr "jwt-2"))
          (body rq) 0) = Shop.answer 200 Shop.stored).
Proof.
  cbv zeta. split; [vm_compute; reflexivity|]. split; [vm_compute; reflexivity|].
  split; [vm_compute; reflexivity|].
  eexists. split; [vm_compute; left; reflexivity | vm_compute; reflexivity].
Qed.

(** An update whose [fields] are outside the allow-list is not without
    requests: the product update asks the remote service for the type
    first.  And it is not always without a write: the region update
    falls back on the event's own keys, and writes when one of them is in
    the allow-list. *)
Lemma irrelevant_update_reaches_the_wire :
  (fields_disjoint product_updateFields Shop.untouched /\
   map Shop.line
     (wire (final (@updateProductInStrapi Shop.open_shop Shop.untouched
                     Shop.customer Shop.logged_in))) =
     [(GET, "http://cms/api/products/")]) /\
  (fields_disjoint region_updateFields Shop.named /\
   map Shop.line
     (wire (final (@updateRegionInStrapi Shop.open_shop Shop.named
                     Shop.customer Shop.logged_in))) =
     [(GET, "http://cms/api/regions/"); (PUT, "http://cms/api/regions/reg_1")]).
Proof.
  split; (split; [|vm_compute; reflexivity]);
    (exists [JStr "metadata"]; split; [reflexivity|]);
    repeat constructor; intros name [= <-]; simpl; intuition discriminate.
Qed.

(** An "id" key that holds an object is not renamed: it is sent as it
    is. *)
Lemma object_valued_id_is_sent :
  dataToSend_of (Some Shop.imported) =
    JObj [("origin", JObj [("id", JObj [("erp", JNum 7)])]);
          ("medusa_id", JStr "prod_1")] /\
  Payload.has_id_key (dataToSend_of (Some Shop.imported)) = true /\
  map body
    (wire (final (@strapiSendDataLayer Shop.open_shop (Shop.put Shop.imported)
                    Shop.logged_in))) =
    [JObj [("data", dataToSend_of (Some Shop.imported))]].
Proof. repeat split; vm_compute; reflexivity. Qed.

(** The token of an identity that nobody has logged in as, whose email is
    the name of a member of [Object.prototype]: the read finds the
    member, and [undefined] is returned where a TypeError was to be
    thrown. *)
Lemma fetchUserToken_of_a_member_name :
  userTokens Shop.logged_in !! "constructor" = None /\
  @fetchUserToken Shop.open_shop (Some "constructor") Shop.logged_in =
    Returned JUndef Shop.logged_in /\
  @fetchUserToken Shop.open_shop (Some "toString") Shop.logged_in =
    Returned JUndef Shop.logged_in.
Proof. repeat split; vm_compute; reflexivity. Qed.

(** A remote service that is down, with the default interval of 120
    seconds: the first call probes it, and the call made one second
    later probes it again, though the last active probe is one second
    old. *)
Lemma failed_probe_is_repeated_at_once :
  let s1 := final (@checkStrapiHealth Depot.down_shop Depot.started) in
  let s2 := set_now (now s1 + 1000) s1 in
  @timeInterval Depot.down_shop = 120000 /\
  map Shop.line (wire s1) = [(HEAD, "http://cms/_health")] /\
  now s2 - now s1 = 1000 /\
  @checkStrapiHealth Depot.down_shop s2 =
    Returned false (final (@checkStrapiHealth Depot.down_shop s2)) /\
  map Shop.line (wire (final (@checkStrapiHealth Depot.down_shop s2))) =
    [(HEAD, "http://cms/_health"); (HEAD, "http://cms/_health")].
Proof. cbv zeta. repeat split; vm_compute; reflexivity. Qed.


(** * The theorems at work on the deployments *)

Ltac run := vm_compute; first [reflexivity | discriminate].

(** Nobody has logged in as "nobody@shop.test": asking for that token
    throws; the default user has, and the cached token is returned. *)
Lemma fetchUserToken_without_entry_witness :
  @fetchUserToken Shop.open_shop (Some "nobody@shop.test") Shop.logged_in =
    Thrown TypeError Shop.logged_in /\
  @fetchUserToken Shop.open_shop None Shop.logged_in =
    Returned (JStr "jwt-1") Shop.logged_in.
Proof.
  split.
  - apply (proj1 (@fetchUserToken_without_entry Shop.open_shop
                    (Some "nobody@shop.test") Shop.logged_in ltac:(run))).
    run.
  - apply (proj2 (@fetchUserToken_without_entry Shop.open_shop None
                    Shop.logged_in ltac:(run)) Shop.cached).
    run.
Defined.

(** Ten seconds after a probe the cached flag is returned; a long time
    later the service is probed; a probe that fails leaves the time of
    the last probe where it was. *)
Lemma checkStrapiHealth_probe_or_cache_witness :
  @checkStrapiHealth Shop.open_shop Shop.logged_in =
    Returned true Shop.logged_in /\
  (exists rest,
     wire (final (@checkStrapiHealth Shop.open_shop Shop.much_later)) =
       wire Shop.much_later ++ @health_request Shop.open_shop :: rest /\
     Forall (fun r => call r = HealthProbe) rest) /\
  (exists s1,
     @checkStrapiHealth Depot.down_shop Depot.started = Returned false s1 /\
     lastHealthCheckTime s1 = lastHealthCheckTime Depot.started).
Proof.
  split; [|split].
  - apply (proj1 (proj2 (@checkStrapiHealth_probe_or_cache Shop.open_shop
                           Shop.logged_in))). run.
  - apply (proj2 (proj2 (@checkStrapiHealth_probe_or_cache Shop.open_shop
                           Shop.much_later))); run.
  - destruct (proj2 (proj2 (@checkStrapiHealth_probe_or_cache Depot.down_shop
                              Depot.started)) ltac:(run) ltac:(run))
      as (_ & Hprobe).
    destruct (@axios Depot.down_shop (@health_request Depot.down_shop)
                Depot.started) as [r s1|e s1|s1] eqn:Hax;
      [vm_compute in Hax; discriminate | | contradiction].
    destruct Hprobe as (Hc & Hl & _).
    exists (set_isHealthy false s1). split; [exact Hc | exact Hl].
Defined.


(** A remote service that throttles every request is asked 101 times;
    the delays the two headers give. *)
Lemma rate_limit_retry_witness :
  length (wire (final (@axios Shop.throttled (@health_request Shop.throttled)
                         Shop.booted))) =
    (length (wire Shop.booted) + 101)%nat /\
  retryDelay_value 1000000 3 (mkResponse 429 (Some 2) None JUndef) = 3 * 1000 * 2 /\
  retryDelay_value 1000000 3 (mkResponse 429 None (Some 1010) JUndef) =
    (Z.abs (1010 - 1000000 / 1000) + 2) * 1000.
Proof.
  destruct (@rate_limit_retry Shop.throttled)
    as (_ & _ & _ & _ & Hall & Hafter & Hreset & _).
  split; [|split].
  - apply Hall. intros h t q. eexists _, _. split; reflexivity.
  - apply Hafter. reflexivity.
  - apply Hreset; reflexivity.
Defined.

(** An event about "metadata" alone: the variant update does nothing,
    the product update writes nothing. *)
Lemma irrelevant_update_writes_nothing_witness :
  @updateProductVariantInStrapi Shop.open_shop Shop.untouched Shop.customer
    Shop.logged_in = Returned status400 Shop.logged_in /\
  entry_writes
    (wire (final (@updateProductInStrapi Shop.open_shop Shop.untouched
                    Shop.customer Shop.logged_in))) =
    entry_writes (wire Shop.logged_in).
Proof.
  split.
  - apply (proj1 (@irrelevant_update_writes_nothing Shop.open_shop Shop.untouched
                    Shop.customer Shop.logged_in)).
    + exists [JStr "metadata"]. split; [reflexivity|].
      repeat constructor. intros name [= <-]. simpl. intuition discriminate.
    + repeat constructor; simpl; intuition discriminate.
  - apply (proj1 (proj2 (@irrelevant_update_writes_nothing Shop.open_shop
                           Shop.untouched Shop.customer Shop.logged_in))).
    + exists [JStr "metadata"]. split; [reflexivity|].
      repeat constructor. intros name [= <-]. simpl. intuition discriminate.
    + repeat constructor; simpl; intuition discriminate.
Defined.

(** A token the remote service no longer accepts: the first revision
    logs in once more, the data layer reports [{status: 400}] after one
    attempt. *)
Lemma failed_send_policy_witness :
  V1_adds Shop.first_revision
    (V1.final (@V1.strapiSend Shop.stale_shop PUT "products" (Some "prod_1")
                 (Some (JObj Shop.shirt)) None None (Some "medusa@shop.test")
                 Shop.first_revision)) 1 2 /\
  (exists s2,
     @strapiSendDataLayer Shop.stale_shop (Shop.put Shop.shirt) Shop.logged_in =
       Returned status400 s2 /\
     userTokens s2 = userTokens Shop.logged_in /\
     calls_of EntrySend (wire s2) = 1%nat).
Proof.
  destruct (@failed_send_policy Shop.stale_shop) as [Hnow Hfirst]. split.
  - apply Hfirst. run.
  - destruct (Hnow (Shop.put Shop.shirt) Shop.logged_in) as (_ & _ & Hrejected).
    destruct (@executeStrapiSend Shop.stale_shop PUT "products" (JStr "jwt-1")
                (JStr "prod_1")
                (Some (JObj [("data", dataToSend_of (Some Shop.shirt))]))
                (set_strapiRetryDelay (Some 180000) Shop.logged_in))
      as [r s2|e s2|s2] eqn:Hsend; [vm_compute in Hsend; discriminate| |
                                    vm_compute in Hsend; discriminate].
    destruct (Hrejected Shop.cached
                (set_strapiRetryDelay (Some 180000) Shop.logged_in) e s2)
      as (Ho & Hu & _ & Hn); [run | exact Hsend |].
    exists s2. split; [exact Ho|]. split; [exact Hu | exact Hn].
Defined.

(** The body sent for a product with one option. *)
Lemma ids_are_translated_witness :
  Js.prop (dataToSend_of (Some Shop.shirt)) "medusa_id" = Some (JStr "prod_1") /\
  Payload.has_id_key (dataToSend_of (Some Shop.shirt)) = false /\
  Payload.Same (dataToSend_of (Some Shop.shirt)) (Payload.rename_ids (JObj Shop.shirt)).
Proof.
  destruct (@ids_are_translated Shop.open_shop (Shop.put Shop.shirt) Shop.shirt
              Shop.logged_in eq_refl eq_refl) as (Hid & Hclean & Hsame & _).
  split; [exact Hid|]. split; [exact Hclean | apply Hsame; reflexivity].
Defined.


(** * Further properties of the service *)

(** ** The health monitor *)

Section Health.

Context `{env : Env}.

Lemma executeStrapiHealthCheck_flag s b s' :
  executeStrapiHealthCheck s = Returned b s' -> isHealthy s' = b.
Proof.
  unfold executeStrapiHealthCheck, try_catch. unfold bind at 1.
  destruct (health_probe_loop _ None s) as [[r|] s1|e s1|s1]; simpl;
    unfold bind, gets, modify, ret; simpl; intros [= <- <-]; reflexivity.
Qed.

Lemma checkStrapiHealth_flag s b s' :
  checkStrapiHealth s = Returned b s' -> isHealthy s' = b.
Proof.
  unfold checkStrapiHealth, bind, gets.
  destruct (_ >? _); [apply executeStrapiHealthCheck_flag|].
  intros [= <- <-]. reflexivity.
Qed.

Lemma waitForHealth_loop_flag n s s' :
  waitForHealth_loop n s = Returned tt s' -> isHealthy s' = true.
Proof.
  revert s. induction n as [|n IH]; intros s; simpl; [discriminate|].
  unfold bind at 1.
  destruct (checkStrapiHealth s) as [[|] s1|e s1|s1] eqn:Hc; try discriminate.
  - intros [= <-]. apply (checkStrapiHealth_flag _ _ _ Hc).
  - unfold bind, sleep, modify. apply IH.
Qed.

(** X1. [waitForHealth] never throws, returns only with the health flag set,
    and does return when the remote service answers its probes. *)
Theorem waitForHealth_ends_healthy (s : State) :
  (forall e s', waitForHealth s <> Thrown e s') /\
  (forall s', waitForHealth s = Returned tt s' -> isHealthy s' = true) /\
  (Calm -> Ready s -> exists s', waitForHealth s = Returned tt s').
Proof.
  split; [apply waitForHealth_never_throws|]. split.
  - apply waitForHealth_loop_flag.
  - intros Hc Hr. destruct (live_waitForHealth Hc s Hr) as [_ Hl].
    pose proof (waitForHealth_never_throws s) as Hn.
    destruct (waitForHealth s) as [[] s'|e s'|s']; [eauto| |discriminate].
    exfalso. eapply Hn. reflexivity.
Qed.

(** X2. An unhealthy verdict is not kept: when a probe that was due fails,
    the time of the last probe stays as it was, so the next call probes
    again however soon it comes; a healthy verdict is kept, with the
    time at which it was reached. *)
Theorem failed_probe_is_not_kept (s s' : State) (b : bool) :
  timeInterval < now s - lastHealthCheckTime s -> 0 < timeInterval ->
  checkStrapiHealth s = Returned b s' ->
  if b then lastHealthCheckTime s' = now s'
  else lastHealthCheckTime s' = lastHealthCheckTime s /\
       timeInterval < now s' - lastHealthCheckTime s'.
Proof.
  intros Hdue Hpos. rewrite (checkStrapiHealth_due s Hdue),
    (executeStrapiHealthCheck_eq s Hpos).
  pose proof (axios_from_lastHealthCheckTime retries 0 health_request s) as Hl.
  pose proof (axios_extends health_request s) as (Ht & _).
  fold (axios health_request) in Hl.
  destruct (axios health_request s) as [r s1|e s1|s1]; simpl in Hl, Ht;
    intros [= <- <-]; simpl; [reflexivity|].
  split; [exact Hl | rewrite Hl; lia].
Qed.

End Health.

(** A service that is down is probed by one call and again by the next. *)
Lemma failed_probe_is_not_kept_witness :
  lastHealthCheckTime (final (@checkStrapiHealth Depot.down_shop Depot.started)) =
    lastHealthCheckTime Depot.started /\
  @timeInterval Depot.down_shop <
    now (final (@checkStrapiHealth Depot.down_shop Depot.started)) -
    lastHealthCheckTime (final (@checkStrapiHealth Depot.down_shop Depot.started)).
Proof.
  apply (@failed_probe_is_not_kept Depot.down_shop Depot.started
           (final (@checkStrapiHealth Depot.down_shop Depot.started)) false);
    vm_compute; reflexivity.
Defined.

(** ** The entry data layer *)

Section Layer.

Context `{env : Env}.

Lemma added_intro {A} s (o : Outcome A) tr r :
  wire (final o) = wire s ++ tr -> In r tr -> added s o r.
Proof. intros H1 H2. exists tr. auto. Qed.

Lemma added_elim {A} s (o : Outcome A) tr r :
  wire (final o) = wire s ++ tr -> added s o r -> In r tr.
Proof.
  intros H1 (tr' & H2 & Hin). rewrite H1 in H2. apply app_inv_head in H2.
  subst. exact Hin.
Qed.

(** An executor call sends health probes and the one request it is
    given, possibly more than once. *)
Lemma executeStrapiSend_shape m type token id data s :
  exists tr,
    wire (final (executeStrapiSend m type token id data s)) = wire s ++ tr /\
    Forall (fun r => call r = EntrySend ->
              attempt_of (mkRequest EntrySend m (entry_url m type id) (Some token)
                            (default JUndef data) 0) r) tr.
Proof.
  unfold executeStrapiSend, bind.
  pose proof (waitForHealth_extends s) as (_ & _ & trh & Hw & Hh).
  assert (Hhealth : Forall (fun r => call r = EntrySend ->
                      attempt_of (mkRequest EntrySend m (entry_url m type id)
                                    (Some token) (default JUndef data) 0) r) trh).
  { eapply Forall_impl; [exact Hh|]. intros r Hs Hc. unfold sends in Hs.
    simpl in Hs. rewrite Hc in Hs. destruct Hs as [Hs|[]]. discriminate. }
  destruct (waitForHealth s) as [[] s1|e s1|s1]; simpl in Hw;
    [|exists trh; auto ..].
  unfold try_catch.
  match goal with |- context [axios ?rq s1] =>
    destruct (axios_from_first retries 0 rq s1) as (rest & Ha & Hr);
    fold (axios rq) in Ha;
    exists (trh ++ with_attempt 0 rq :: rest);
    assert (Hfin : wire (final match axios rq s1 with
                               | Returned a s' => Returned a s'
                               | Thrown e s' =>
                                   _axiosError e
                                     (if Js.truthy id then Some (Js.toString id) else None)
                                     (Some type) (Some m) s'
                               | Hangs s' => Hangs s'
                               end) = wire (final (axios rq s1)))
      by (destruct (axios rq s1); reflexivity)
  end.
  rewrite Hfin, Ha, Hw, <- app_assoc. split; [reflexivity|].
  apply Forall_app. split; [exact Hhealth|].
  constructor; [intros _; exists 0; destruct m; reflexivity|].
  eapply Forall_impl; [exact Hr|]. intros r (j & _ & ->) _.
  exists j. destruct m; reflexivity.
Qed.

(** Every entry request of a data layer call is the request built from
    its command and from the token the credential layer returned. *)
Lemma strapiSendDataLayer_shape p s r :
  added s (strapiSendDataLayer p s) r -> call r = EntrySend ->
  exists creds s1,
    strapiLoginSendDatalayer (sp_authInterface p) s = Returned (Some creds) s1 /\
    attempt_of (layer_request p (token creds)) r.
Proof.
  intros Hadd Hc.
  pose proof (strapiLoginSendDatalayer_extends (sp_authInterface p) s)
    as (_ & _ & trl & Hwl & Hl).
  assert (Hlogin : forall r, In r trl -> call r <> EntrySend).
  { intros r0 Hr0 Hc0. rewrite Forall_forall in Hl.
    specialize (Hl r0 (proj2 (list_elem_of_In _ _) Hr0)).
    unfold sends in Hl. simpl in Hl. rewrite Hc0 in Hl.
    destruct Hl as [Hl|[Hl|[]]]; discriminate. }
  rewrite strapiSendDataLayer_eq in Hadd.
  destruct (strapiLoginSendDatalayer (sp_authInterface p) s)
    as [[creds|] s1|e s1|s1]; simpl in Hwl;
    try (exfalso; apply (added_elim _ _ trl) in Hadd; [|exact Hwl];
         eapply Hlogin; eauto).
  exists creds, s1. split; [reflexivity|].
  match type of Hadd with context [executeStrapiSend ?m ?t ?k ?i ?d s1] =>
    destruct (executeStrapiSend_shape m t k i d s1) as (tr & Hw & Hreq);
    assert (Hfin : In r (trl ++ tr))
  end.
  { eapply added_elim; [|exact Hadd]. rewrite app_assoc, <- Hwl, <- Hw.
    destruct (executeStrapiSend _ _ _ _ _ s1) as [result s2|e s2|s2];
      try reflexivity.
    destruct (Js.prop (data result) "id"), (Js.prop (data result) "medusa_id");
      reflexivity. }
  apply in_app_or in Hfin as [Hfin|Hfin]; [exfalso; eapply Hlogin; eauto|].
  rewrite Forall_forall in Hreq.
  apply (Hreq r (proj2 (list_elem_of_In _ _) Hfin) Hc).
Qed.

Lemma processStrapiEntry_wire p s :
  wire (final (processStrapiEntry p s)) = wire (final (strapiSendDataLayer p s)).
Proof.
  unfold processStrapiEntry, try_catch.
  destruct (strapiSendDataLayer p s); reflexivity.
Qed.

Lemma processStrapiEntry_shape p s r :
  added s (processStrapiEntry p s) r -> call r = EntrySend ->
  exists creds s1,
    strapiLoginSendDatalayer (sp_authInterface p) s = Returned (Some creds) s1 /\
    attempt_of (layer_request p (token creds)) r.
Proof.
  intros (tr & Hw & Hin). apply strapiSendDataLayer_shape.
  exists tr. rewrite <- processStrapiEntry_wire. auto.
Qed.

(** X3. Whatever method a command names, [createEntryInStrapi] posts to the
    collection of the type (the id is not in the address),
    [updateEntryInStrapi] puts and [deleteEntryInStrapi] deletes at the
    entry of the id, or at the collection itself when the command has
    no id; each sends the translated payload under [data]. *)
Theorem entry_operations_address (c : StrapiSendParams) (s : State) (r : Request) :
  call r = EntrySend ->
  (added s (createEntryInStrapi c s) r ->
     method r = POST /\
     url r = strapi_url options_ +:+ "/api/" +:+ sp_type c) /\
  (added s (updateEntryInStrapi c s) r ->
     method r = PUT /\
     url r = strapi_url options_ +:+ "/api/" +:+ sp_type c +:+
               (if Js.truthy (sp_id c) then "/" +:+ Js.toString (sp_id c) else "/")) /\
  (added s (deleteEntryInStrapi c s) r ->
     method r = DELETE /\
     url r = strapi_url options_ +:+ "/api/" +:+ sp_type c +:+
               (if Js.truthy (sp_id c) then "/" +:+ Js.toString (sp_id c) else "/")) /\
  (added s (createEntryInStrapi c s) r \/ added s (updateEntryInStrapi c s) r \/
   added s (deleteEntryInStrapi c s) r ->
     body r = JObj [("data", dataToSend_of (sp_data c))]).
Proof.
  intros Hc. unfold createEntryInStrapi, updateEntryInStrapi, deleteEntryInStrapi.
  assert (Hshape : forall m, added s (processStrapiEntry (with_method m c) s) r ->
            method r = m /\ url r = entry_url m (sp_type c) (sp_id c) /\
            body r = JObj [("data", dataToSend_of (sp_data c))]).
  { intros m H.
    apply processStrapiEntry_shape in H as (creds & s1 & _ & k & ->);
      [|exact Hc]. repeat split. }
  split; [|split; [|split]].
  - intros H. destruct (Hshape _ H) as (H1 & H2 & _). auto.
  - intros H. destruct (Hshape _ H) as (H1 & H2 & _). auto.
  - intros H. destruct (Hshape _ H) as (H1 & H2 & _). auto.
  - intros [H|[H|H]]; destruct (Hshape _ H) as (_ & _ & H3); exact H3.
Qed.

End Layer.

Section LayerKeeps.

Context `{env : Env} {A : Type} (f : State -> A) (a : AuthInterface).
Hypothesis Hf : transport_blind f.
Hypothesis Hcache :
  forall c s, f (set_userTokens (<[email a := c]> (userTokens s)) s) = f s.

Lemma strapiLoginSendDatalayer_keeps :
  stable (Keeps f) (strapiLoginSendDatalayer a).
Proof.
  destruct Hf as (_ & _ & Hd & _).
  unfold strapiLoginSendDatalayer, login_and_cache. repeat stable_step;
    first [ apply (executeLoginAsStrapiUser_keeps f Hf)
          | sapply @stable_modify; intros s; unfold Keeps; auto ].
Qed.

Lemma strapiSendDataLayer_keeps p :
  sp_authInterface p = a -> stable (Keeps f) (strapiSendDataLayer p).
Proof.
  intros Hp. unfold strapiSendDataLayer. rewrite Hp. repeat stable_step;
    first [ apply strapiLoginSendDatalayer_keeps
          | apply (executeStrapiSend_keeps f Hf) ].
Qed.

Lemma processStrapiEntry_keeps p :
  sp_authInterface p = a -> stable (Keeps f) (processStrapiEntry p).
Proof.
  intros Hp. unfold processStrapiEntry. repeat stable_step.
  apply strapiSendDataLayer_keeps, Hp.
Qed.

End LayerKeeps.

Section LayerResults.

Context `{env : Env}.

Lemma executeStrapiSend_2xx m type token id data s r s' :
  executeStrapiSend m type token id data s = Returned r s' ->
  200 <= status r < 300.
Proof.
  unfold executeStrapiSend, bind.
  destruct (waitForHealth s) as [[] s1|e s1|s1]; try discriminate.
  unfold try_catch.
  match goal with |- context [axios ?rq s1] =>
    destruct (axios rq s1) as [r0 s2|e s2|s2] eqn:Hax end; try discriminate.
  intros [= <- <-]. eapply axios_from_2xx. exact Hax.
Qed.

Lemma strapiSendDataLayer_status p s r s' :
  strapiSendDataLayer p s = Returned r s' ->
  result_status r = 400 \/ 200 <= result_status r < 300.
Proof.
  rewrite strapiSendDataLayer_eq.
  destruct (strapiLoginSendDatalayer (sp_authInterface p) s)
    as [[creds|] s1|e s1|s1]; try discriminate;
    [|intros [= <- <-]; left; reflexivity].
  destruct (executeStrapiSend _ _ _ _ _ s1) as [result s2|e s2|s2] eqn:Hs;
    try discriminate; [|intros [= <- <-]; left; reflexivity].
  apply executeStrapiSend_2xx in Hs.
  destruct (Js.prop (data result) "id"), (Js.prop (data result) "medusa_id");
    intros [= <- <-]; simpl; auto.
Qed.

Lemma processStrapiEntry_never_throws p : never_throws (processStrapiEntry p).
Proof.
  intros s e s'. unfold processStrapiEntry, try_catch.
  destruct (strapiSendDataLayer p s); discriminate.
Qed.

Lemma processStrapiEntry_status p s r s' :
  processStrapiEntry p s = Returned r s' ->
  result_status r = 400 \/ 200 <= result_status r < 300.
Proof.
  unfold processStrapiEntry, try_catch.
  destruct (strapiSendDataLayer p s) as [r0 s0|e s0|s0] eqn:Hl; try discriminate.
  - intros [= <- <-]. eapply strapiSendDataLayer_status, Hl.
  - intros [= <- <-]. left. reflexivity.
Qed.

(** X4. Whatever the remote service answers, an entry operation reports a
    2xx status or 400: [processStrapiEntry] never throws, not even when
    the login does, which [strapiSendDataLayer] lets through. *)
Theorem entry_result_status (p : StrapiSendParams) (s : State) :
  (forall e s', processStrapiEntry p s <> Thrown e s') /\
  (forall r s', processStrapiEntry p s = Returned r s' ->
     result_status r = 400 \/ 200 <= result_status r < 300) /\
  (forall r s', strapiSendDataLayer p s = Returned r s' ->
     result_status r = 400 \/ 200 <= result_status r < 300) /\
  (forall e s1,
     strapiLoginSendDatalayer (sp_authInterface p) s = Thrown e s1 ->
     strapiSendDataLayer p s = Thrown e s1 /\
     processStrapiEntry p s = Returned status400 s1).
Proof.
  split; [apply processStrapiEntry_never_throws|].
  split; [apply processStrapiEntry_status|].
  split; [apply strapiSendDataLayer_status|].
  intros e s1 Hl. unfold processStrapiEntry, try_catch.
  rewrite strapiSendDataLayer_eq, Hl. auto.
Qed.

Lemma hasType_eq type a s :
  hasType type a s =
    match strapiSendDataLayer (mkSendParams GET type JUndef None a) s with
    | Returned _ s' => Returned true s'
    | Thrown _ s' => Returned false s'
    | Hangs s' => Hangs s'
    end.
Proof.
  unfold hasType, getType, try_catch, bind.
  destruct (strapiSendDataLayer _ s); reflexivity.
Qed.

(** X5. The type probe answers false exactly when the login throws: a reply
    of the remote service, 404 included, never makes it false.
    [checkType] is the same probe. *)
Theorem type_probe_answer (type : string) (a : AuthInterface) (s : State) :
  checkType type a s = hasType type a s /\
  (forall s', hasType type a s = Returned false s' <->
              exists e, strapiLoginSendDatalayer a s = Thrown e s').
Proof.
  split; [reflexivity|]. intros s'. rewrite hasType_eq, strapiSendDataLayer_eq.
  simpl sp_authInterface.
  destruct (strapiLoginSendDatalayer a s) as [[creds|] s1|e s1|s1].
  - destruct (executeStrapiSend _ _ _ _ _ s1) as [result s2|e s2|s2].
    + destruct (Js.prop (data result) "id"), (Js.prop (data result) "medusa_id").
      all: split; [discriminate | intros [e0 He]; discriminate He].
    + split; [discriminate | intros [e0 He]; discriminate He].
    + split; [discriminate | intros [e0 He]; discriminate He].
  - split; [discriminate | intros [e0 He]; discriminate He].
  - split; [intros [= <-]; eauto
           | intros [e0 He]; injection He as _ <-; reflexivity].
  - split; [discriminate | intros [e0 He]; discriminate He].
Qed.

(** X6. An entry operation for one identity leaves the rest of the service
    as it was: the marker store, the privileged identity, the cached
    credential of every other identity; the clock does not go back, and
    what it sends are health probes, logins and entry requests of its
    method. *)
Theorem entry_operation_frame (c : StrapiSendParams) (s : State) :
  let s' := final (processStrapiEntry c s) in
  now s <= now s' /\
  redis s' = redis s /\
  strapiSuperAdminAuthToken s' = strapiSuperAdminAuthToken s /\
  userAdminProfile s' = userAdminProfile s /\
  lastAdminLoginAttemptTime s' = lastAdminLoginAttemptTime s /\
  (forall e, e <> email (sp_authInterface c) ->
             userTokens s' !! e = userTokens s !! e) /\
  (exists tr, wire s' = wire s ++ tr /\
              Forall (sends (layer_calls (sp_method c))) tr).
Proof.
  cbv zeta. pose proof (processStrapiEntry_extends c s) as (Ht & Hr & Hw).
  split; [exact Ht|]. split; [exact Hr|].
  split; [|split; [|split; [|split; [|exact Hw]]]].
  - apply (processStrapiEntry_keeps strapiSuperAdminAuthToken
             (sp_authInterface c)); [repeat split | reflexivity | reflexivity].
  - apply (processStrapiEntry_keeps userAdminProfile
             (sp_authInterface c)); [repeat split | reflexivity | reflexivity].
  - apply (processStrapiEntry_keeps lastAdminLoginAttemptTime
             (sp_authInterface c)); [repeat split | reflexivity | reflexivity].
  - intros e He.
    apply (processStrapiEntry_keeps (fun s => userTokens s !! e)
             (sp_authInterface c)); [repeat split | | reflexivity].
    intros cr s0. simpl. apply lookup_insert_ne. congruence.
Qed.

End LayerResults.

(** ** Echo markers, field relevance, the privileged login *)

Section Guards.

Context `{env : Env}.


Lemma find_field_found updateFields fields :
  ~ In "" updateFields ->
  (Js.truthy (find_field updateFields fields) = true <->
   exists name, In (JStr name) fields /\ In name updateFields).
Proof.
  intros Hne. unfold find_field.
  destruct (List.find (includes updateFields) fields) as [f|] eqn:Hf; simpl.
  - apply List.find_some in Hf as [Hin Hinc].
    destruct f; simpl in Hinc; try discriminate.
    apply existsb_exists in Hinc as (x & Hx & He).
    apply String.eqb_eq in He. subst x. split.
    + intros _. exists s. auto.
    + intros _. simpl. apply negb_true_iff, String.eqb_neq.
      intros ->. contradiction.
  - split; [discriminate|]. intros (name & Hin & Hu). exfalso.
    pose proof (List.find_none _ _ Hf _ Hin) as Hn. simpl in Hn.
    assert (existsb (String.eqb name) updateFields = true) as Ht; [|congruence].
    apply existsb_exists. exists name. split; [exact Hu | apply String.eqb_refl].
Qed.

Lemma own_key_found updateFields data :
  existsb (fun field => existsb (fun uf => String.eqb uf field) updateFields)
    (Js.keys data) = true <->
  exists key, In key (Js.keys data) /\ In key updateFields.
Proof.
  rewrite existsb_exists. split.
  - intros (key & Hk & He). apply existsb_exists in He as (uf & Hu & He).
    apply String.eqb_eq in He. subst uf. eauto.
  - intros (key & Hk & Hu). exists key. split; [exact Hk|].
    apply existsb_exists. exists key. split; [exact Hu | apply String.eqb_refl].
Qed.

(** X8. [verifyDataContainsFields] answers with something truthy exactly
    when a member of the event's [fields] or one of the event's own
    keys is in the allow-list; it changes nothing, and it throws when
    [fields] is neither absent nor a list. *)
Theorem verifyDataContainsFields_decides
  (data : list (string * JsVal)) (updateFields : list string) (s : State) :
  ~ In "" updateFields ->
  match Js.get data "fields" with
  | JUndef | JNull | JArr _ =>
      exists v,
        verifyDataContainsFields data updateFields s = Returned v s /\
        (Js.truthy v = true <->
         (exists name, In (JStr name) (listed_fields data) /\
                       In name updateFields) \/
         (exists key, In key (Js.keys data) /\ In key updateFields))
  | _ => verifyDataContainsFields data updateFields s = Thrown TypeError s
  end.
Proof.
  intros Hne. unfold verifyDataContainsFields, listed_fields, bind.
  destruct (Js.get data "fields") as [| | | | |fields|]; try reflexivity.
  - eexists. split; [reflexivity|]. simpl. rewrite own_key_found.
    split; [auto | intros [(n & [] & _)|H]; exact H].
  - eexists. split; [reflexivity|]. simpl. rewrite own_key_found.
    split; [auto | intros [(n & [] & _)|H]; exact H].
  - unfold ret at 1.
    pose proof (find_field_found updateFields fields Hne) as Hf.
    destruct (Js.truthy (find_field updateFields fields)) eqn:Ht; simpl.
    + eexists. split; [reflexivity|]. rewrite Ht. split; [|auto].
      intros _. left. apply Hf. reflexivity.
    + eexists. split; [reflexivity|]. simpl. rewrite own_key_found.
      split; [auto|]. intros [H|H]; [|exact H].
      apply Hf in H. discriminate.
Qed.

End Guards.

Section AdminLogin.

Context `{env : Env}.

Lemma executeLoginAsStrapiSuperAdmin_eq s :
  executeLoginAsStrapiSuperAdmin s =
    if truthy_delay (strapiRetryDelay s) &&
       ((now s - default 0 (lastAdminLoginAttemptTime s)) / 1000 <?
        default 0 (strapiRetryDelay s))
    then Returned (userAdminProfile s, strapiSuperAdminAuthToken s) s
    else
      match waitForHealth (set_lastAdminLoginAttemptTime (Some (now s)) s) with
      | Returned _ s1 =>
          match axios (mkRequest AdminLogin POST
                         (strapi_url options_ +:+ "/admin/login") None
                         admin_auth 0) s1 with
          | Returned response s2 =>
              match Js.prop (data response) "data" with
              | Some inner =>
                  match Js.prop inner "user", Js.prop inner "token" with
                  | Some user, Some token =>
                      Returned (user, token)
                        (set_userAdminProfile user
                           (set_strapiSuperAdminAuthToken token s2))
                  | _, _ => Thrown (WrappedError None None None TypeError) s2
                  end
              | None => Thrown (WrappedError None None None TypeError) s2
              end
          | Thrown e s2 => Thrown (WrappedError None None None e) s2
          | Hangs s2 => Hangs s2
          end
      | Thrown e s1 => Thrown e s1
      | Hangs s1 => Hangs s1
      end.
Proof.
  unfold executeLoginAsStrapiSuperAdmin, bind at 1 2 3, gets at 1 2 3.
  destruct (_ && _); [reflexivity|].
  unfold bind at 1, modify at 1. unfold bind at 1.
  destruct (waitForHealth _) as [[] s1|e s1|s1]; try reflexivity.
  unfold try_catch, bind at 1.
  destruct (axios _ s1) as [response s2|e s2|s2]; try reflexivity.
  unfold bind, prop, modify, ret, throw, _axiosError.
  destruct (Js.prop (data response) "data") as [inner|]; [|reflexivity].
  destruct (Js.prop inner "user") as [user|];
    destruct (Js.prop inner "token") as [token|]; reflexivity.
Qed.

Lemma live_executeLoginAsStrapiSuperAdmin :
  Calm -> live executeLoginAsStrapiSuperAdmin.
Proof.
  intros HC. unfold executeLoginAsStrapiSuperAdmin. repeat live_step;
    first [apply live_waitForHealth, HC | apply live_axios | live_field].
Qed.

(** X9. The privileged login is reused only while [strapiRetryDelay] is
    set, not zero, and larger than the seconds since the last attempt:
    then the stored profile and token come back and nothing is sent.
    Otherwise the attempt is recorded before it is made and one login
    call is made, provided the wait for health ends, which it does when
    the remote service answers its probes; when the login fails, the
    stored token and profile stay as they were, and the attempt stays
    recorded.  [strapiRetryDelay] is set by the retry layer on a rate
    limit, and also by the credential layer of the users, which sets it
    to 180e3 when it reads the cache and finds it unset or zero. *)
Theorem admin_login_window (s : State) :
  let o := executeLoginAsStrapiSuperAdmin s in
  let timeDiff := (now s - default 0 (lastAdminLoginAttemptTime s)) / 1000 in
  (forall d, strapiRetryDelay s = Some d -> d <> 0 -> timeDiff < d ->
     o = Returned (userAdminProfile s, strapiSuperAdminAuthToken s) s) /\
  (falsy_delay (strapiRetryDelay s) = true \/
   (exists d, strapiRetryDelay s = Some d /\ d <= timeDiff) ->
   lastAdminLoginAttemptTime (final o) = Some (now s) /\
   (is_hang o = false ->
      calls_of AdminLogin (wire (final o)) = S (calls_of AdminLogin (wire s))) /\
   (Calm -> Ready s -> is_hang o = false) /\
   (forall e s1, o = Thrown e s1 ->
      strapiSuperAdminAuthToken s1 = strapiSuperAdminAuthToken s /\
      userAdminProfile s1 = userAdminProfile s)) /\
  (forall k r,
     strapiRetryDelay (final (retryDelay k r s)) =
       Some (retryDelay_value (now s) k r)) /\
  (forall a creds,
     lookup_member (userTokens s) (email a) = Some creds ->
     falsy_delay (strapiRetryDelay s) = true ->
     strapiRetryDelay (login_state a s) = Some 180000 /\
     (age s creds < 180000 ->
      strapiLoginSendDatalayer a s = Returned (Some creds) (login_state a s)) /\
     (timeDiff < 180000 ->
      executeLoginAsStrapiSuperAdmin (login_state a s) =
        Returned (userAdminProfile s, strapiSuperAdminAuthToken s)
          (login_state a s))).
Proof.
  cbv zeta. split; [|split; [|split]].
  4:{ intros a creds Hl Hf.
      assert (Hw : reuse_window s = 180000).
      { unfold reuse_window. unfold falsy_delay in Hf.
        destruct (strapiRetryDelay s) as [d|]; [rewrite Hf|]; reflexivity. }
      assert (Hs : login_state a s = set_strapiRetryDelay (Some 180000) s).
      { unfold login_state. rewrite Hl, Hw. reflexivity. }
      split; [rewrite Hs; reflexivity|]. split.
      - intros Ha. rewrite Hs, <- Hw.
        apply strapiLoginSendDatalayer_hit; [exact Hl | lia].
      - intros Hlt. rewrite Hs, executeLoginAsStrapiSuperAdmin_eq. simpl.
        replace (_ <? 180000) with true by (symmetry; apply Z.ltb_lt; exact Hlt).
        reflexivity. }
  3:{ intros k r. reflexivity. }
  all: rewrite executeLoginAsStrapiSuperAdmin_eq.
  - intros d Hd Hz Hlt. rewrite Hd. unfold truthy_delay, falsy_delay. simpl.
    replace (d =? 0) with false by (symmetry; apply Z.eqb_neq; exact Hz).
    replace (_ <? d) with true by (symmetry; apply Z.ltb_lt; exact Hlt).
    reflexivity.
  - intros Hout.
    assert (Hlive : Calm -> Ready s ->
              is_hang (executeLoginAsStrapiSuperAdmin s) = false).
    { intros HC Hs. apply (live_executeLoginAsStrapiSuperAdmin HC s Hs). }
    rewrite executeLoginAsStrapiSuperAdmin_eq in Hlive.
    replace (truthy_delay (strapiRetryDelay s) && _) with false in Hlive |- *.
    2:{ symmetry. destruct Hout as [Hf|(d & Hd & Hle)].
        - unfold truthy_delay. rewrite Hf. reflexivity.
        - rewrite Hd. simpl. apply andb_false_iff. right. apply Z.ltb_ge. exact Hle. }
    set (s0 := set_lastAdminLoginAttemptTime (Some (now s)) s) in *.
    assert (Hblind : transport_blind
              (fun s => (lastAdminLoginAttemptTime s, strapiSuperAdminAuthToken s,
                         userAdminProfile s))) by (repeat split).
    pose proof (waitForHealth_keeps _ Hblind s0) as Hk1.
    pose proof (waitForHealth_extends s0) as Hx1.
    destruct (waitForHealth s0) as [[] s1|e s1|s1] eqn:Hwait; simpl in Hk1, Hx1.
    + set (rq := mkRequest AdminLogin POST _ None admin_auth 0) in *.
      pose proof (axios_keeps _ Hblind rq s1) as Hk2.
      pose proof (axios_calls AdminLogin rq s1 eq_refl) as Hc2.
      pose proof (axios_from_no_hang retries 0 rq s1) as Hn2.
      fold (axios rq) in Hn2.
      assert (Hc1 : calls_of AdminLogin (wire s1) = calls_of AdminLogin (wire s)).
      { apply (Extends_calls_of AdminLogin health_calls s0 s1 Hx1).
        simpl. intuition discriminate. }
      unfold Keeps in Hk1, Hk2. simpl in Hk1.
      destruct (axios rq s1) as [response s2|e s2|s2]; simpl in Hk2, Hc2, Hn2;
        try discriminate.
      * injection Hk1 as H1 H2 H3. injection Hk2 as H4 H5 H6.
        rewrite Hc1 in Hc2. simpl in Hc2.
        destruct (Js.prop (data response) "data") as [inner|];
          [destruct (Js.prop inner "user") as [user|],
                    (Js.prop inner "token") as [token|]|];
          simpl; (split; [congruence|]); (split; [intros _; lia|]);
          (split; [intros _ _; reflexivity|]);
          intros e' s' Heq;
          first [discriminate Heq | injection Heq as _ <-; split; congruence].
      * injection Hk1 as H1 H2 H3. injection Hk2 as H4 H5 H6.
        rewrite Hc1 in Hc2. simpl in Hc2. simpl.
        split; [congruence|]. split; [intros _; lia|].
        split; [intros _ _; reflexivity|].
        intros e' s' Heq. injection Heq as _ <-. split; congruence.
    + exfalso. eapply waitForHealth_never_throws. exact Hwait.
    + injection Hk1 as H1 H2 H3. simpl.
      split; [congruence|]. split; [discriminate|].
      split; [exact Hlive | discriminate].
Qed.

End AdminLogin.

(** ** What the create and metafield operations send *)

#[global] Instance Sends_preorder P : PreOrder (Sends P).
Proof.
  split.
  - intros s. exists []. rewrite app_nil_r. auto.
  - intros s1 s2 s3 (t1 & H1 & F1) (t2 & H2 & F2). exists (t1 ++ t2).
    rewrite H2, H1, <- app_assoc. split; [reflexivity | apply Forall_app; auto].
Qed.

Lemma Sends_added P {A} (m : M A) s r :
  stable (Sends P) m -> added s (m s) r -> P r.
Proof.
  intros Hm (tr & Hw & Hin). destruct (Hm s) as (tr' & Hw' & HP).
  rewrite Hw' in Hw. apply app_inv_head in Hw. subst tr'.
  rewrite Forall_forall in HP. apply HP, list_elem_of_In, Hin.
Qed.

Section Payloads.

Context `{env : Env}.

(** A data layer call sends requests that are not entry requests, and
    attempts of the request built from its command. *)
Lemma strapiSendDataLayer_sends (P : Request -> Prop) p :
  (forall r, call r <> EntrySend -> P r) ->
  (forall token r, attempt_of (layer_request p token) r -> P r) ->
  stable (Sends P) (strapiSendDataLayer p).
Proof.
  intros Hother Hentry s.
  pose proof (strapiSendDataLayer_extends p s) as (_ & _ & tr & Hw & _).
  exists tr. split; [exact Hw|]. apply Forall_forall. intros r Hin.
  apply list_elem_of_In in Hin.
  destruct (decide (call r = EntrySend)) as [Hc|Hc]; [|apply Hother, Hc].
  destruct (strapiSendDataLayer_shape p s r) as (creds & s1 & _ & Ha);
    [exists tr; auto | exact Hc |].
  eapply Hentry, Ha.
Qed.

Lemma processStrapiEntry_sends (P : Request -> Prop) p :
  (forall r, call r <> EntrySend -> P r) ->
  (forall token r, attempt_of (layer_request p token) r -> P r) ->
  stable (Sends P) (processStrapiEntry p).
Proof.
  intros Hother Hentry. unfold processStrapiEntry. repeat stable_step.
  apply strapiSendDataLayer_sends; assumption.
Qed.

(** A type probe sends no entry request but reads of the type. *)
Lemma getType_sends (P : Request -> Prop) type a :
  (forall r, call r <> EntrySend -> P r) ->
  (forall r, call r = EntrySend -> method r = GET ->
             url r = strapi_url options_ +:+ "/api/" +:+ type +:+ "/" -> P r) ->
  stable (Sends P) (getType type a).
Proof.
  intros Hother Hget. unfold getType. apply strapiSendDataLayer_sends;
    [exact Hother|].
  intros token r (k & ->). apply Hget; reflexivity.
Qed.

Lemma hasType_sends (P : Request -> Prop) type a :
  (forall r, call r <> EntrySend -> P r) ->
  (forall r, call r = EntrySend -> method r = GET ->
             url r = strapi_url options_ +:+ "/api/" +:+ type +:+ "/" -> P r) ->
  stable (Sends P) (hasType type a).
Proof.
  intros Hother Hget. unfold hasType. repeat stable_step.
  apply getType_sends; assumption.
Qed.

Ltac key_cases key :=
  repeat match goal with
  | |- context [String.eqb ?l key] =>
      destruct (String.eqb_spec l key) as [<-|?]; [reflexivity|]
  | |- context [String.eqb key ?l] =>
      destruct (String.eqb_spec key l) as [?|?]; [congruence|]
  end.

(** The payload of a created product: the four relations are gone from
    under their names and are found under the names of the remote
    types; every other property is as it was. *)
Lemma productToSend_reads (product : list (string * JsVal)) (key : string) :
  Js.get (productToSend product) key =
    (if existsb (String.eqb key) product_relations then JUndef
     else if String.eqb key "product-type" then Js.get product "type"
     else if String.eqb key "product-tag" then Js.get product "tags"
     else if String.eqb key "product-option" then Js.get product "options"
     else if String.eqb key "product-variant" then Js.get product "variants"
     else Js.get product key) /\
  (In key product_relations -> Js.has (productToSend product) key = false).
Proof.
  unfold productToSend, move_key, product_relations. split.
  - repeat (rewrite Translate.get_del || rewrite Translate.get_set).
    simpl existsb. key_cases key. reflexivity.
  - intros Hin. repeat (rewrite Translate.has_del || rewrite Translate.has_set).
    simpl in Hin. destruct Hin as [<-|[<-|[<-|[<-|[]]]]]; reflexivity.
Qed.

(** The payload of a created variant: the prices move to "money-amount";
    the options are copied to "product-option" and stay under
    "options" as well. *)
Lemma variantToSend_reads (variant : list (string * JsVal)) (key : string) :
  Js.get (variantToSend variant) key =
    (if String.eqb key "prices" then JUndef
     else if String.eqb key "money-amount" then Js.get variant "prices"
     else if String.eqb key "product-option" then Js.get variant "options"
     else Js.get variant key) /\
  Js.get (variantToSend variant) "options" = Js.get variant "options" /\
  Js.has (variantToSend variant) "prices" = false.
Proof.
  unfold variantToSend, move_key. cbv zeta. split; [|split].
  - repeat (rewrite Translate.get_del || rewrite Translate.get_set).
    key_cases key. reflexivity.
  - repeat (rewrite Translate.get_del || rewrite Translate.get_set).
    reflexivity.
  - repeat (rewrite Translate.has_del || rewrite Translate.has_set). reflexivity.
Qed.

End Payloads.

Section Creation.

Context `{env : Env}.

Lemma translateIds_object es : exists tr, translateIds (JObj es) = JObj tr.
Proof.
  unfold translateIds. simpl.
  destruct (fold_left _ (Js.keys es) (Some es)); simpl; eauto.
Qed.

(** An entity with no "id" of its own is sent with an undefined
    "medusa_id", whatever "medusa_id" it had. *)
Lemma dataToSend_of_without_id es :
  Js.has es "id" = false ->
  exists d, dataToSend_of (Some es) = JObj d /\ Js.get d "medusa_id" = JUndef /\
            Js.has d "id" = false.
Proof.
  intros Hid. unfold dataToSend_of.
  destruct (translateIds_object es) as (tr & ->).
  eexists. split; [reflexivity|]. split.
  - rewrite Translate.get_del, Translate.get_set. simpl.
    apply Translate.has_false_get, Hid.
  - rewrite Translate.has_del. reflexivity.
Qed.

Lemma stable_bind_domain (R : State -> State -> Prop) `{!PreOrder R} {A B}
  (r : Err + A) (k : A -> M B) :
  (forall a, r = inr a -> stable R (k a)) -> stable R (bind (domain r) k).
Proof.
  intros Hk. destruct r as [e|a]; intros s; simpl; [reflexivity|].
  apply (Hk a eq_refl).
Qed.

Ltac sends_step :=
  first [ sapply @stable_bind_domain; [intros ? ?] | stable_step ].

Ltac sends_leaf :=
  first
    [ apply getType_sends
    | apply hasType_sends
    | apply processStrapiEntry_sends ].

(** X10. [createProductInStrapi] reads the type "products" and then posts, to
    the collection of that type, the product it retrieved with its four
    relations renamed after the remote types: they are gone from under
    their own names, and every other property is as it was. *)
Theorem created_product_is_sent_renamed
  (productId : JsVal) (a : AuthInterface) (s : State) (r : Request) :
  added s (createProductInStrapi productId a s) r -> call r = EntrySend ->
  (method r = GET /\ url r = strapi_url options_ +:+ "/api/" +:+ "products" +:+ "/") \/
  (exists p,
     productService_retrieve productId = inr (Some p) /\
     method r = POST /\
     url r = strapi_url options_ +:+ "/api/" +:+ "products" /\
     body r = JObj [("data", dataToSend_of (Some (productToSend p)))] /\
     (forall key,
        Js.get (productToSend p) key =
          if existsb (String.eqb key) product_relations then JUndef
          else if String.eqb key "product-type" then Js.get p "type"
          else if String.eqb key "product-tag" then Js.get p "tags"
          else if String.eqb key "product-option" then Js.get p "options"
          else if String.eqb key "product-variant" then Js.get p "variants"
          else Js.get p key) /\
     (forall key, In key product_relations ->
                  Js.has (productToSend p) key = false)).
Proof.
  intros Hadd Hc. revert Hc. pattern r.
  eapply Sends_added; [|exact Hadd]. clear Hadd r.
  unfold createProductInStrapi, createEntryInStrapi.
  repeat sends_step; sends_leaf;
    try (intros r Hn Hc; contradiction);
    try (intros r Hc Hm Hu _; left; auto).
  intros token r (k & ->) _. right. eexists.
  split; [eassumption|]. do 3 (split; [reflexivity|]).
  split; intros key; apply (productToSend_reads _ key).
Qed.

(** X11. [createProductVariantInStrapi] reads the type "product-variants" and
    then posts the variant it retrieved with its prices moved to
    "money-amount" and its options copied to "product-option": the
    options stay under "options" as well. *)
Theorem created_variant_is_sent_renamed
  (variantId : JsVal) (a : AuthInterface) (s : State) (r : Request) :
  added s (createProductVariantInStrapi variantId a s) r -> call r = EntrySend ->
  (method r = GET /\ url r = strapi_url options_ +:+ "/api/" +:+ "product-variants" +:+ "/") \/
  (exists v,
     productVariantService_retrieve variantId = inr (Some v) /\
     method r = POST /\
     url r = strapi_url options_ +:+ "/api/" +:+ "product-variants" /\
     body r = JObj [("data", dataToSend_of (Some (variantToSend v)))] /\
     (forall key,
        Js.get (variantToSend v) key =
          if String.eqb key "prices" then JUndef
          else if String.eqb key "money-amount" then Js.get v "prices"
          else if String.eqb key "product-option" then Js.get v "options"
          else Js.get v key) /\
     Js.get (variantToSend v) "options" = Js.get v "options" /\
     Js.has (variantToSend v) "prices" = false).
Proof.
  intros Hadd Hc. revert Hc. pattern r.
  eapply Sends_added; [|exact Hadd]. clear Hadd r.
  unfold createProductVariantInStrapi, createEntryInStrapi.
  repeat sends_step; sends_leaf;
    try (intros r Hn Hc; contradiction);
    try (intros r Hc Hm Hu _; left; auto).
  intros token r (k & ->) _. right. eexists.
  split; [eassumption|]. do 3 (split; [reflexivity|]).
  split; [intros key; apply (variantToSend_reads _ key)|].
  split; apply (variantToSend_reads _ "").
Qed.

(** X12. [updateProductMetafieldInStrapi] reads the type "metafields" and
    writes an entry of the type "product-metafields"; the id is deleted
    from the payload before it is handed over, so the entry is sent with
    an undefined "medusa_id". *)
Theorem metafield_update_loses_the_id
  (data : list (string * JsVal)) (a : AuthInterface) (s : State) (r : Request) :
  added s (updateProductMetafieldInStrapi data a s) r -> call r = EntrySend ->
  (method r = GET /\ url r = strapi_url options_ +:+ "/api/" +:+ "metafields" +:+ "/") \/
  (method r = PUT /\
   url r = entry_url PUT "product-metafields" (Js.get data "id") /\
   exists d, body r = JObj [("data", JObj d)] /\
             Js.get d "medusa_id" = JUndef /\ Js.has d "id" = false).
Proof.
  intros Hadd Hc. revert Hc. pattern r.
  eapply Sends_added; [|exact Hadd]. clear Hadd r.
  unfold updateProductMetafieldInStrapi, checkType, product_info,
    updateEntryInStrapi.
  repeat stable_step; sends_leaf;
    try (intros r Hn Hc; contradiction);
    try (intros r Hc Hm Hu _; left; auto).
  intros token r (k & ->) _. right. split; [reflexivity|].
  split; [reflexivity|]. unfold layer_request, with_method. cbn [body sp_data].
  match goal with |- context [dataToSend_of (Some ?es)] =>
    destruct (dataToSend_of_without_id es) as (d & -> & Hm & Hi)
  end.
  - rewrite Translate.has_del. reflexivity.
  - exists d. auto.
Qed.

End Creation.

(** ** The id translation on payloads without ids *)

Lemma set_get_same es k :
  Js.has es k = true -> Js.set es k (Js.get es k) = es.
Proof.
  induction es as [|[k0 x] es IH]; simpl; [discriminate|].
  destruct (String.eqb_spec k0 k) as [->|Hne]; simpl; [reflexivity|].
  intros H. rewrite (IH H). reflexivity.
Qed.

Lemma has_id_key_get es k :
  Payload.has_id_key (JObj es) = false -> Payload.has_id_key (Js.get es k) = false.
Proof.
  intros H. simpl in H. apply orb_false_iff in H as [_ H].
  destruct (Translate.get_entry es k) as [->|Hin]; [reflexivity|].
  apply not_true_is_false. intros Ht.
  assert (existsb (fun kv => Payload.has_id_key kv.2) es = true) as Hex; [|congruence].
  apply existsb_exists. exists (k, Js.get es k). auto.
Qed.

Lemma translateIdsToMedusaIds_without_id n :
  forall v, Payload.has_id_key v = false -> (Js.depth v < n)%nat ->
            translateIdsToMedusaIds n v = Some v.
Proof.
  induction n as [|n IH]; intros v Hid Hd; [lia|].
  destruct v as [| | b | z | str | l | es]; simpl translateIdsToMedusaIds;
    try reflexivity.
  - assert (Hloop : forall ixs,
              fold_left (array_step (translateIdsToMedusaIds n)) ixs (Some l) =
                Some l).
    { induction ixs as [|i ixs IHi]; [reflexivity|].
      cbn [fold_left]. unfold array_step at 2.
      destruct (l !! i) as [child|] eqn:Hl; [|exact IHi].
      destruct (Js.instanceofObject child); [|exact IHi].
      assert (Hc : In child l)
        by (apply list_elem_of_In; eapply list_elem_of_lookup_2, Hl).
      rewrite IH.
      - rewrite (list_insert_id _ _ _ Hl). exact IHi.
      - simpl in Hid. apply not_true_is_false. intros Ht.
        assert (existsb Payload.has_id_key l = true) as Hex; [|congruence].
        apply existsb_exists. eauto.
      - pose proof (Translate.depth_elem l child Hc). lia. }
    rewrite Hloop. reflexivity.
  - assert (Hloop : forall ks,
              (forall k, In k ks -> Js.has es k = true) ->
              fold_left (object_step (translateIdsToMedusaIds n)) ks (Some es) =
                Some es).
    { induction ks as [|k ks IHk]; intros Hks; [reflexivity|].
      cbn [fold_left]. unfold object_step at 2.
      assert (Hk : Js.has es k = true) by (apply Hks; left; reflexivity).
      assert (Hrest : forall k', In k' ks -> Js.has es k' = true)
        by (intros k' Hk'; apply Hks; right; exact Hk').
      destruct (Js.instanceofObject (Js.get es k)).
      - rewrite IH.
        + rewrite (set_get_same es k Hk). apply IHk, Hrest.
        + apply has_id_key_get, Hid.
        + pose proof (Translate.depth_get es k). lia.
      - destruct (String.eqb_spec k "id") as [->|Hne]; [|apply IHk, Hrest].
        simpl in Hid. apply orb_false_iff in Hid as [Hid _]. congruence. }
    rewrite Hloop; [reflexivity|]. intros k Hk. apply Translate.has_In, Hk.
Qed.

(** X13. The translation returns a payload that has no "id" key as it is, and
    translating a second time changes nothing. *)
Theorem translation_is_idempotent (v : JsVal) :
  (Payload.has_id_key v = false -> translateIds v = v) /\
  (Payload.plain_ids v = true -> translateIds (translateIds v) = translateIds v).
Proof.
  assert (Hfix : forall w, Payload.has_id_key w = false -> translateIds w = w).
  { intros w Hw. unfold translateIds.
    rewrite translateIdsToMedusaIds_without_id; [reflexivity | exact Hw | lia]. }
  split; [apply Hfix|]. intros Hp. apply Hfix.
  destruct (Translate.translate_spec (S (Js.depth v)) v Hp) as (r & Hr & Hc & _);
    [lia|].
  unfold translateIds. rewrite Hr. exact Hc.
Qed.

(** ** Deleting the service account *)

Lemma Extends_Sends l s s' : Extends l s s' -> Sends (fun _ => True) s s'.
Proof.
  intros (_ & _ & tr & Hw & _). exists tr. split; [exact Hw|].
  apply Forall_forall. auto.
Qed.

Lemma added_bind {A B} (m : M A) (k : A -> M B) s r :
  Sends (fun _ => True) s (final (m s)) ->
  (forall a s1, m s = Returned a s1 -> Sends (fun _ => True) s1 (final (k a s1))) ->
  added s (bind m k s) r ->
  added s (m s) r \/ exists a s1, m s = Returned a s1 /\ added s1 (k a s1) r.
Proof.
  intros (t1 & H1 & _) Hk (tr & Hw & Hin). unfold bind in Hw.
  destruct (m s) as [a s1|e s1|s1] eqn:Hm; simpl in H1;
    [|left; exists tr; auto ..].
  destruct (Hk a s1 eq_refl) as (t2 & H2 & _).
  rewrite H2, H1, <- app_assoc in Hw. apply app_inv_head in Hw. subst tr.
  apply in_app_or in Hin as [Hin|Hin].
  - left. exists t1. auto.
  - right. exists a, s1. split; [reflexivity|]. exists t2. auto.
Qed.

Section UserDeletion.

Context `{env : Env}.

Lemma strapiSendDataLayer_failed p s r s' :
  strapiSendDataLayer p s = Returned r s' -> result_status r = 400 ->
  r = status400.
Proof.
  rewrite strapiSendDataLayer_eq.
  destruct (strapiLoginSendDatalayer (sp_authInterface p) s)
    as [[creds|] s1|e s1|s1]; try discriminate;
    [|intros [= <- <-]; reflexivity].
  destruct (executeStrapiSend _ _ _ _ _ s1) as [result s2|e s2|s2] eqn:Hs;
    try discriminate; [|intros [= <- <-]; reflexivity].
  apply executeStrapiSend_2xx in Hs.
  destruct (Js.prop (data result) "id"), (Js.prop (data result) "medusa_id");
    intros [= <- <-]; simpl; try reflexivity; lia.
Qed.

(** X14. [deleteMedusaUserFromStrapi] looks the user up at "users/me" and
    then sends a delete with the token of what the read
    [userTokens[email]] finds after the lookup (the entry of the
    identity, or [undefined] as the token of an inherited member).  The
    delete is addressed to the entry of the id the lookup found, for an
    id that is a string or a number that a double holds exactly; when
    the lookup failed there is no id, and the delete is addressed to
    the collection "users" itself. *)
Theorem user_deletion_address (a : AuthInterface) (s : State) (r : Request) :
  pristine (userTokens s) ->
  added s (deleteMedusaUserFromStrapi a s) r -> call r = EntrySend ->
  (method r = GET /\
   url r = strapi_url options_ +:+ "/api/" +:+ "users" +:+ "/me") \/
  (exists fetched s1 creds,
     strapiSendDataLayer (mkSendParams GET "users" (JStr "me") None a) s =
       Returned fetched s1 /\
     lookup_member (userTokens s1) (email a) = Some creds /\
     method r = DELETE /\
     bearer r = Some (token creds) /\
     (Js.exact (result_id fetched) = true ->
      url r = entry_url DELETE "users" (id_toString (result_id fetched))) /\
     (result_status fetched = 400 ->
      url r = strapi_url options_ +:+ "/api/" +:+ "users" +:+ "/")).
Proof.
  intros _ Hadd Hc. unfold deleteMedusaUserFromStrapi in Hadd.
  apply added_bind in Hadd as [Hadd|(fetched & s1 & Hf & Hadd)].
  - left. apply strapiSendDataLayer_shape in Hadd as (creds & s1 & _ & k & ->);
      [|exact Hc]. split; reflexivity.
  - right. unfold bind at 1, gets at 1 in Hadd.
    destruct (lookup_member (userTokens s1) (email a)) as [creds|] eqn:Hu.
    + exists fetched, s1, creds. split; [exact Hf|]. split; [exact Hu|].
      unfold bind at 1, ret at 1 in Hadd.
      assert (Hex : added s1
                (executeStrapiSend DELETE "users" (token creds)
                   (id_toString (result_id fetched)) None s1) r).
      { destruct Hadd as (tr & Hw & Hin). exists tr. split; [|exact Hin].
        rewrite <- Hw. unfold bind.
        destruct (executeStrapiSend _ _ _ _ _ s1); reflexivity. }
      destruct (executeStrapiSend_shape DELETE "users" (token creds)
                  (id_toString (result_id fetched)) None s1) as (tr & Hw & Hall).
      apply (added_elim _ _ tr) in Hex; [|exact Hw].
      rewrite Forall_forall in Hall.
      destruct (Hall r (proj2 (list_elem_of_In _ _) Hex) Hc) as (k & ->).
      do 2 (split; [reflexivity|]). split; [reflexivity|].
      intros H400. rewrite (strapiSendDataLayer_failed _ _ _ _ Hf H400).
      reflexivity.
    + exfalso. destruct Hadd as (tr & Hw & Hin). simpl in Hw.
      rewrite <- (app_nil_r (wire s1)) in Hw at 1.
      apply app_inv_head in Hw. subst tr. exact Hin.
  - eapply Extends_Sends, strapiSendDataLayer_extends.
  - intros fetched s1 _. unfold bind at 1, gets at 1.
    destruct (lookup_member (userTokens s1) (email a)) as [creds|];
      [|reflexivity].
    assert (Hs : stable (Sends (fun _ => True))
              (let* result := executeStrapiSend DELETE "users" (token creds)
                                (id_toString (result_id fetched)) None in
               ret (mkResult JUndef JUndef (status result) (data result)))).
    { repeat stable_step. intros s0.
      eapply Extends_Sends, executeStrapiSend_extends. }
    apply Hs.
Qed.

Lemma deleteMedusaUserFromStrapi_2xx a s r s' :
  deleteMedusaUserFromStrapi a s = Returned r s' ->
  200 <= result_status r < 300.
Proof.
  unfold deleteMedusaUserFromStrapi. unfold bind at 1.
  destruct (strapiSendDataLayer _ s) as [fetched s1|e s1|s1]; try discriminate.
  unfold bind at 1, gets at 1.
  destruct (lookup_member (userTokens s1) (email a)) as [creds|];
    [|discriminate].
  unfold bind, ret.
  destruct (executeStrapiSend _ _ _ _ _ s1) as [result s2|e s2|s2] eqn:Hs;
    try discriminate.
  intros [= <- <-]. simpl. eapply executeStrapiSend_2xx, Hs.
Qed.

(** X15. [deleteDefaultMedusaUser] never throws.  When the deletion
    succeeds the cached credential of the service account is dropped,
    so that in the state the deletion leaves [fetchUserToken()] finds
    no entry: it throws a TypeError, or returns [undefined] when the
    account's email names a member of [Object.prototype].  When the
    result is [undefined] the deletion has thrown, and the cache is as
    the failed attempt left it. *)
Theorem default_user_deletion (s : State) :
  (forall e s', deleteDefaultMedusaUser s <> Thrown e s') /\
  (forall r s',
     deleteDefaultMedusaUser s = Returned (Some r) s' ->
     200 <= result_status r < 300 /\
     (exists s1,
        deleteMedusaUserFromStrapi defaultAuthInterface s = Returned r s1 /\
        s' = set_userTokens (delete_member defaultUserEmail (userTokens s1)) s1) /\
     (pristine (userTokens s) -> defaultUserEmail <> "__proto__" ->
      userTokens s' !! defaultUserEmail = None /\
      fetchUserToken None s' =
        if inherited defaultUserEmail then Returned JUndef s'
        else Thrown TypeError s')) /\
  (forall s',
     deleteDefaultMedusaUser s = Returned None s' ->
     exists e, deleteMedusaUserFromStrapi defaultAuthInterface s = Thrown e s').
Proof.
  unfold deleteDefaultMedusaUser, try_catch, bind, modify, ret.
  destruct (deleteMedusaUserFromStrapi defaultAuthInterface s)
    as [response s1|e s1|s1] eqn:Hd.
  - split; [discriminate|]. split; [|discriminate].
    intros r s' [= <- <-]. split; [eapply deleteMedusaUserFromStrapi_2xx, Hd|].
    split; [exists s1; split; reflexivity|].
    intros _ Hne.
    assert (Hnone : userTokens
              (set_userTokens
                 (delete_member (email defaultAuthInterface) (userTokens s1)) s1)
              !! defaultUserEmail = None).
    { simpl. unfold delete_member.
      change (email defaultAuthInterface) with defaultUserEmail.
      destruct (String.eqb defaultUserEmail "__proto__") eqn:Hq;
        [apply String.eqb_eq in Hq; contradiction | apply lookup_delete_eq]. }
    split; [exact Hnone|].
    unfold fetchUserToken, bind, gets, lookup_member. cbv beta.
    change (default defaultUserEmail None) with defaultUserEmail.
    rewrite Hnone. destruct (inherited defaultUserEmail); reflexivity.
  - split; [discriminate|]. split; [discriminate|].
    intros s' [= <-]. eauto.
  - split; [discriminate|]. split; discriminate.
Qed.

End UserDeletion.

(** ** The privileged sender, the user's synchronisation, reads *)

Lemma Extends_Sends_only (P : Request -> Prop) l s s' :
  Extends l s s' -> (forall r, sends l r -> P r) -> Sends P s s'.
Proof.
  intros (_ & _ & tr & Hw & Hall) HP. exists tr. split; [exact Hw|].
  eapply Forall_impl; [exact Hall | exact HP].
Qed.

Section Senders.

Context `{env : Env}.

Lemma axios_sends (P : Request -> Prop) rq :
  (forall k, P (with_attempt k rq)) -> stable (Sends P) (axios rq).
Proof.
  intros HP s. destruct (axios_from_first retries 0 rq s) as (rest & Hw & Hr).
  exists (with_attempt 0 rq :: rest). split; [exact Hw|].
  constructor; [apply HP|]. eapply Forall_impl; [exact Hr|].
  intros r (j & _ & ->). apply HP.
Qed.

Lemma executeStrapiAdminSend_2xx m type id action data query s r s' :
  executeStrapiAdminSend m type id action data query s = Returned r s' ->
  200 <= status r < 300.
Proof.
  unfold executeStrapiAdminSend. unfold bind at 1.
  destruct (executeLoginAsStrapiSuperAdmin s) as [res s1|e s1|s1];
    try discriminate.
  unfold bind, modify, gets, try_catch. simpl.
  match goal with |- context [axios ?rq ?s0] =>
    destruct (axios rq s0) as [r0 s2|e s2|s2] eqn:Hax end; try discriminate.
  intros [= <- <-]. eapply axios_from_2xx, Hax.
Qed.

(** X16. [strapiAdminSendDatalayer] never throws: it reports a 2xx status
    with the data of the reply, or 400 with no data.  Its request goes
    to "/admin/" followed by the type, the action and the id, in that
    order, those that are given. *)
Theorem admin_send_result (c : StrapiAdminSendParams) (s : State) :
  (forall e s', strapiAdminSendDatalayer c s <> Thrown e s') /\
  (forall d st s',
     strapiAdminSendDatalayer c s = Returned (d, st) s' ->
     (st = 400 /\ d = JUndef) \/ 200 <= st < 300) /\
  (forall r,
     added s (strapiAdminSendDatalayer c s) r -> call r = AdminSend ->
     method r = ap_method c /\
     url r = strapi_url options_ +:+ "/admin/" +:+
               admin_path (ap_type c) (ap_action c) (ap_id c) +:+
               match ap_query c with
               | Some qs => if String.eqb qs "" then "" else "?" +:+ qs
               | None => ""
               end).
Proof.
  split; [|split].
  - intros e s'. unfold strapiAdminSendDatalayer, try_catch.
    destruct (bind _ _ s); discriminate.
  - intros d st s'. unfold strapiAdminSendDatalayer, try_catch. unfold bind at 1.
    destruct (executeStrapiAdminSend _ _ _ _ _ _ s) as [r s1|e s1|s1] eqn:Hs;
      try discriminate.
    + intros [= <- <- <-]. right. eapply executeStrapiAdminSend_2xx, Hs.
    + intros [= <- <- <-]. left. auto.
  - intros r Hadd Hc. revert Hc. pattern r.
    eapply Sends_added; [|exact Hadd]. clear Hadd r.
    unfold strapiAdminSendDatalayer, executeStrapiAdminSend.
    repeat stable_step;
      lazymatch goal with
      | |- stable _ (axios _) => apply axios_sends; intros k _; split; reflexivity
      | |- stable _ (modify _) =>
          sapply @stable_modify; intros s0; exists []; rewrite app_nil_r; auto
      | |- stable _ executeLoginAsStrapiSuperAdmin =>
          intros s0; eapply Extends_Sends_only;
            [apply executeLoginAsStrapiSuperAdmin_extends|];
            intros r [Hr|[Hr|[]]] Hc; injection Hr as Hr _;
            rewrite <- Hr in Hc; discriminate
      end.
Qed.

Lemma executeSync_2xx token s r s' :
  executeSync token s = Returned r s' -> 200 <= status r < 300.
Proof.
  unfold executeSync, bind.
  destruct (waitForHealth s) as [[] s1|e s1|s1]; try discriminate.
  apply axios_from_2xx.
Qed.

Lemma configureStrapiMedusaForUser_eq a s :
  configureStrapiMedusaForUser a s =
    match strapiLoginSendDatalayer a s with
    | Returned (Some creds) s1 =>
        if Js.truthy (token creds) then
          match executeSync (token creds) s1 with
          | Returned result s2 => Returned (status_only (status result)) s2
          | Thrown _ s2 => Returned status400 s2
          | Hangs s2 => Hangs s2
          end
        else Returned status400 s1
    | Returned None s1 => Returned status400 s1
    | Thrown _ s1 => Returned status400 s1
    | Hangs s1 => Hangs s1
    end.
Proof.
  unfold configureStrapiMedusaForUser, try_catch, bind.
  destruct (strapiLoginSendDatalayer a s) as [[creds|] s1|e s1|s1];
    try reflexivity.
  simpl. destruct (Js.truthy (token creds)); simpl; [|reflexivity].
  destruct (executeSync (token creds) s1); reflexivity.
Qed.

(** X17. [configureStrapiMedusaForUser] never throws and reports a 2xx status
    or 400; the synchronisation it starts is authorised by the token of
    the user, which the credential layer returned. *)
Theorem user_sync_result (a : AuthInterface) (s : State) :
  (forall e s', configureStrapiMedusaForUser a s <> Thrown e s') /\
  (forall r s',
     configureStrapiMedusaForUser a s = Returned r s' ->
     result_status r = 400 \/ 200 <= result_status r < 300) /\
  (forall r,
     added s (configureStrapiMedusaForUser a s) r -> call r = SyncTables ->
     exists creds s1,
       strapiLoginSendDatalayer a s = Returned (Some creds) s1 /\
       Js.truthy (token creds) = true /\
       bearer r = Some (token creds)).
Proof.
  rewrite configureStrapiMedusaForUser_eq.
  pose proof (strapiLoginSendDatalayer_extends a s) as (_ & _ & trl & Hwl & Hl).
  assert (Hlogin : forall r, In r trl -> call r <> SyncTables).
  { intros r Hin Hc. rewrite Forall_forall in Hl.
    specialize (Hl r (proj2 (list_elem_of_In _ _) Hin)).
    unfold sends in Hl. simpl in Hl. rewrite Hc in Hl.
    destruct Hl as [Hl|[Hl|[]]]; discriminate. }
  assert (Hnone : forall (o : Outcome StrapiResult) r,
            wire (final o) = wire (final (strapiLoginSendDatalayer a s)) ->
            added s o r -> call r <> SyncTables).
  { intros o r Ho Hadd. apply (added_elim _ _ trl) in Hadd; [auto|].
    rewrite Ho. exact Hwl. }
  destruct (strapiLoginSendDatalayer a s) as [[creds|] s1|e s1|s1];
    simpl in Hwl;
    try (split; [discriminate|];
         split; [first [discriminate | intros r s' [= <- <-]; left; reflexivity]|];
         intros r Hadd Hc; exfalso; eapply Hnone; eauto; reflexivity).
  destruct (Js.truthy (token creds)) eqn:Ht;
    try (split; [discriminate|];
         split; [intros r s' [= <- <-]; left; reflexivity|];
         intros r Hadd Hc; exfalso; eapply Hnone; eauto; reflexivity).
  destruct (executeSync_bearer (token creds) s1) as (tr & Hw & Hb & _).
  assert (Hsync : forall (o : Outcome StrapiResult) r,
            wire (final o) = wire (final (executeSync (token creds) s1)) ->
            added s o r -> call r = SyncTables ->
            exists creds0 s0,
              Returned (Some creds) s1 = Returned (Some creds0) s0 /\
              Js.truthy (token creds0) = true /\
              bearer r = Some (token creds0)).
  { intros o r Ho Hadd Hc. exists creds, s1. split; [reflexivity|].
    split; [exact Ht|].
    apply (added_elim _ _ (trl ++ tr)) in Hadd;
      [|rewrite Ho, Hw, Hwl, <- app_assoc; reflexivity].
    apply in_app_or in Hadd as [Hin|Hin]; [exfalso; eapply Hlogin; eauto|].
    rewrite Forall_forall in Hb.
    apply (Hb r (proj2 (list_elem_of_In _ _) Hin) Hc). }
  destruct (executeSync (token creds) s1) as [result s2|e s2|s2] eqn:Hs.
  - split; [discriminate|]. split.
    + intros r s' [= <- <-]. right. simpl. eapply executeSync_2xx, Hs.
    + intros r. apply Hsync. reflexivity.
  - split; [discriminate|]. split.
    + intros r s' [= <- <-]. left. reflexivity.
    + intros r. apply Hsync. reflexivity.
  - split; [discriminate|]. split; [discriminate|].
    intros r. apply Hsync. reflexivity.
Qed.

(** X18. [getEntitiesFromStrapi] never throws and never reports the 404 of
    its handler: whatever the remote service answers, its status is a
    2xx status or 400. *)
Theorem read_result_status (type : string) (id : JsVal) (a : AuthInterface)
  (s : State) :
  (forall e s', getEntitiesFromStrapi type id a s <> Thrown e s') /\
  (forall d st s',
     getEntitiesFromStrapi type id a s = Returned (d, st) s' ->
     st = 400 \/ 200 <= st < 300).
Proof.
  unfold getEntitiesFromStrapi, getEntriesInStrapi. unfold bind at 1 3.
  pose proof (hasType_never_throws type a s) as Hn.
  change (hasType type a s) with (checkType type a s) in Hn.
  destruct (checkType type a s) as [b s1|e s1|s1];
    [|exfalso; eapply Hn; reflexivity | split; discriminate].
  unfold try_catch, bind, ret.
  pose proof (processStrapiEntry_never_throws
                (with_method GET (mkSendParams GET type id None a)) s1) as Hp.
  destruct (processStrapiEntry _ s1) as [r s2|e s2|s2] eqn:Hr;
    [|exfalso; eapply Hp; reflexivity | split; discriminate].
  split; [discriminate|]. intros d st s' [= <- <- <-].
  eapply processStrapiEntry_status, Hr.
Qed.

End Senders.

(** ** Failures of the updates, logins without a token, the first
    revision's health gate *)

Section Failures.

Context `{env : Env}.

Lemma verifyDataContainsFields_returns data updateFields s :
  fields_wellformed data ->
  exists v, verifyDataContainsFields data updateFields s = Returned v s.
Proof.
  unfold fields_wellformed, verifyDataContainsFields, bind.
  destruct (Js.get data "fields"); intros H; try contradiction; simpl;
    try (eexists; reflexivity).
  destruct (negb _); eexists; reflexivity.
Qed.

Lemma bind_returned {A B} (m : M A) (k : A -> M B) s a s1 :
  m s = Returned a s1 -> bind m k s = k a s1.
Proof. intros H. unfold bind. rewrite H. reflexivity. Qed.

Lemma updateEntryInStrapi_never_throws c : never_throws (updateEntryInStrapi c).
Proof. apply processStrapiEntry_never_throws. Qed.

(** X19. On an event whose [fields] is absent or a list, the region and the
    variant updates never throw: a failure of the domain service, and a
    read of the echo marker that the store refuses, are reported as
    status 400.  The product update passes both on: what it throws is
    the error of the refused read, thrown at a time at which the store
    refuses, or the error with which the product service failed. *)
Theorem update_failures
  (data : list (string * JsVal)) (a : AuthInterface) (s : State) :
  fields_wellformed data ->
  (forall e s', updateRegionInStrapi data a s <> Thrown e s') /\
  (forall e s', updateProductVariantInStrapi data a s <> Thrown e s') /\
  (forall e s', updateProductInStrapi data a s = Thrown e s' ->
                (e = RedisError /\ redis_refuses (now s') = true) \/
                productService_retrieve (Js.get data "id") = inl e) /\
  (forall s1 found,
     hasType "products" a s = Returned true s1 ->
     verifyDataContainsFields data product_updateFields s1 = Returned found s1 ->
     Js.truthy found = true ->
     (redis_refuses (now s1) = true ->
      updateProductInStrapi data a s = Thrown RedisError s1) /\
     (forall e, redis_refuses (now s1) = false ->
                marker_live (ignore_key (Js.get data "id") "strapi") s1 = false ->
                productService_retrieve (Js.get data "id") = inl e ->
                updateProductInStrapi data a s = Thrown e s1)) /\
  (forall s1 found,
     hasType "regions" a s = Returned true s1 ->
     verifyDataContainsFields data region_updateFields s1 = Returned found s1 ->
     Js.truthy found = true ->
     (redis_refuses (now s1) = true \/
      (redis_refuses (now s1) = false /\
       marker_live (ignore_key (Js.get data "id") "strapi") s1 = false /\
       exists e, regionService_retrieve (Js.get data "id") = inl e)) ->
     updateRegionInStrapi data a s = Returned status400 s1).
Proof.
  intros Hwf. split; [|split; [|split; [|split]]].
  - intros e s'. unfold updateRegionInStrapi. unfold bind at 1.
    pose proof (hasType_never_throws "regions" a s) as Hn.
    destruct (hasType "regions" a s) as [[] s1|e1 s1|s1]; simpl;
      try discriminate; [|exfalso; eapply Hn; reflexivity].
    unfold bind at 1.
    destruct (verifyDataContainsFields_returns data region_updateFields s1 Hwf)
      as (v & ->).
    destruct (negb (Js.truthy v)); [discriminate|].
    unfold try_catch. destruct (bind _ _ s1); discriminate.
  - intros e s'. unfold updateProductVariantInStrapi.
    match goal with |- bind ?m ?k s <> _ =>
      assert (Hp : exists b, m s = Returned b s);
        [|destruct Hp as (b & Hp); rewrite (bind_returned m k s b s Hp)]
    end.
    { pose proof (verifyDataContainsFields_returns data variant_updateFields s Hwf)
        as (v & Hv).
      unfold fields_wellformed in Hwf.
      destruct (Js.get data "fields") as [| | | | |fields|]; try contradiction;
        simpl; try (eexists; reflexivity).
      unfold bind.
      destruct (Js.truthy (find_field variant_updateFields fields));
        [eexists; reflexivity|].
      rewrite Hv. eexists. reflexivity. }
    destruct (negb b); [discriminate|].
    unfold try_catch. destruct (bind _ _ s); discriminate.
  - intros e s'. unfold updateProductInStrapi. unfold bind at 1.
    pose proof (hasType_never_throws "products" a s) as Hn.
    destruct (hasType "products" a s) as [[] s1|e1 s1|s1]; simpl;
      try discriminate; [|intros H; exfalso; eapply Hn; reflexivity].
    unfold bind at 1.
    destruct (verifyDataContainsFields_returns data product_updateFields s1 Hwf)
      as (v & ->).
    destruct (negb (Js.truthy v)); [discriminate|].
    unfold try_catch. rewrite guard_eq.
    destruct (redis_refuses (now s1)) eqn:Hr;
      [intros [= <- <-]; left; auto|].
    destruct (marker_live _ s1); [discriminate|].
    unfold bind at 1, domain.
    destruct (productService_retrieve (Js.get data "id")) as [e0|[p|]];
      simpl; try discriminate.
    + intros [= <- _]. right. reflexivity.
    + intros H. exfalso. eapply updateEntryInStrapi_never_throws.
      destruct (updateEntryInStrapi _ s1) eqn:Hu; try discriminate.
      injection H as <- <-. exact Hu.
  - intros s1 found Hh Hv Ht. split.
    + intros Hr. unfold updateProductInStrapi.
      rewrite (bind_returned _ _ _ _ _ Hh). cbn [negb].
      rewrite (bind_returned _ _ _ _ _ Hv), Ht. cbn [negb].
      unfold try_catch. rewrite guard_eq, Hr. reflexivity.
    + intros e Hr Hm He. unfold updateProductInStrapi.
      rewrite (bind_returned _ _ _ _ _ Hh). cbn [negb].
      rewrite (bind_returned _ _ _ _ _ Hv), Ht. cbn [negb].
      unfold try_catch. rewrite guard_eq, Hr, Hm.
      unfold bind, domain. rewrite He. reflexivity.
  - intros s1 found Hh Hv Ht Hcase. unfold updateRegionInStrapi.
    rewrite (bind_returned _ _ _ _ _ Hh). cbn [negb].
    rewrite (bind_returned _ _ _ _ _ Hv), Ht. cbn [negb].
    unfold try_catch. rewrite guard_eq.
    destruct Hcase as [->|(-> & -> & e & He)]; [reflexivity|].
    unfold bind, domain. rewrite He. reflexivity.
Qed.

(** X20. When the login yields no token the credential layer returns
    [undefined] and leaves the cache as it was, stale entry included;
    the data layer then reports status 400 without sending the entry
    request. *)
Theorem login_without_token (p : StrapiSendParams) (s s1 : State) :
  strapiLoginSendDatalayer (sp_authInterface p) s = Returned None s1 ->
  userTokens s1 = userTokens s /\
  strapiSendDataLayer p s = Returned status400 s1 /\
  calls_of EntrySend (wire s1) = calls_of EntrySend (wire s).
Proof.
  intros Hl. split; [|split].
  - revert Hl. rewrite strapiLoginSendDatalayer_eq.
    assert (Hlc : forall s0, login_and_cache (sp_authInterface p) s0 = Returned None s1 ->
                             userTokens s1 = userTokens s0).
    { intros s0. rewrite login_and_cache_eq.
      pose proof (executeLoginAsStrapiUser_keeps userTokens userTokens_blind
                    (sp_authInterface p) s0) as Hk. unfold Keeps in Hk.
      destruct (executeLoginAsStrapiUser (sp_authInterface p) s0)
        as [res s2|e s2|s2]; simpl in Hk; try discriminate.
      destruct (Js.prop (data res) "jwt") as [jwt|]; try discriminate.
      destruct (Js.truthy jwt); [|intros [= <-]; exact Hk].
      destruct (Js.prop (data res) "user"); discriminate. }
    destruct (lookup_member (userTokens s) (email (sp_authInterface p)))
      as [creds|];
      [|apply Hlc].
    cbv zeta. destruct (_ <? _); [discriminate|].
    intros H. apply Hlc in H. exact H.
  - rewrite strapiSendDataLayer_eq, Hl. reflexivity.
  - pose proof (strapiLoginSendDatalayer_calls (sp_authInterface p) s) as [_ Hc].
    cbv zeta in Hc. rewrite Hl in Hc. exact Hc.
Qed.

(** X21. The first revision counts the remote service healthy on a 204 reply
    to the probe and on nothing else, a 200 included; while it is not
    healthy, a login and a send resolve with [undefined] after the probe
    alone. *)
Theorem first_revision_health_gate
  (method : Method) (type : string) (token : JsVal) (id : option string)
  (data : option JsVal) (email password : option string) (s : V1.State) :
  (fst (V1.checkStrapiHealth s) = true <->
   exists r took,
     remote (V1.wire s) (V1.now s) V1.health_request = Replied r took /\
     status r = 204) /\
  (fst (V1.checkStrapiHealth s) = false ->
   V1.executeStrapiSend method type token id data s =
     V1.Resolved None (snd (V1.checkStrapiHealth s)) /\
   V1.loginAsStrapiUser email password s =
     V1.Resolved None (snd (V1.checkStrapiHealth s)) /\
   V1.wire (snd (V1.checkStrapiHealth s)) = V1.wire s ++ [V1.health_request] /\
   V1.isHealthy (snd (V1.checkStrapiHealth s)) = false).
Proof.
  split.
  - unfold V1.checkStrapiHealth, V1.axios.
    destruct (remote (V1.wire s) (V1.now s) V1.health_request) as [r took|took].
    + destruct ((200 <=? status r) && (status r <? 300)) eqn:Hb; simpl.
      * rewrite Z.eqb_eq. split; [eauto | intros (r0 & t0 & [= <- <-] & H); exact H].
      * split; [discriminate|]. intros (r0 & t0 & [= <- <-] & H).
        rewrite H in Hb. discriminate.
    + simpl. split; [discriminate | intros (r0 & t0 & H & _); discriminate].
  - intros Hf. unfold V1.executeStrapiSend, V1.loginAsStrapiUser.
    destruct (V1_checkStrapiHealth_final s) as [Hw _].
    destruct (V1.checkStrapiHealth s) as [b s1] eqn:Hc. simpl in Hf, Hw |- *.
    subst b. repeat split; try exact Hw.
    revert Hc. unfold V1.checkStrapiHealth.
    destruct (V1.axios V1.health_request s) as [r s2|e s2].
    + intros [= Hb <-]. simpl. exact Hb.
    + intros [= <-]. reflexivity.
Qed.

End Failures.
(** ** The echo guard at the moment it is consulted *)

Section EchoWindow.

Context `{env : Env}.












End EchoWindow.


(** * The further properties at work on the deployments *)

Ltac on_wire := vm_compute; repeat (first [left; reflexivity | right]).

Ltac sent_last :=
  match goal with
  | |- added ?s ?o ?r =>
      exists (wire (final o)); split; [vm_compute; reflexivity | on_wire]
  end.

(** A command that names PUT, handed to [createEntryInStrapi]. *)
Lemma entry_operations_address_witness :
  method (Depot.last_sent (@createEntryInStrapi Shop.open_shop (Shop.put Shop.shirt)
                             Shop.logged_in)) = POST /\
  url (Depot.last_sent (@createEntryInStrapi Shop.open_shop (Shop.put Shop.shirt)
                          Shop.logged_in)) = "http://cms/api/products".
Proof.
  destruct (@entry_operations_address Shop.open_shop (Shop.put Shop.shirt)
              Shop.logged_in
              (Depot.last_sent (@createEntryInStrapi Shop.open_shop
                                  (Shop.put Shop.shirt) Shop.logged_in)))
    as (Hcreate & _); [vm_compute; reflexivity|].
  apply Hcreate. sent_last.
Defined.


(** An event about the title, for the product update. *)
Lemma verifyDataContainsFields_decides_witness :
  exists v,
    @verifyDataContainsFields Shop.retitled product_updateFields Shop.logged_in =
      Returned v Shop.logged_in /\
    (Js.truthy v = true <->
     (exists name, In (JStr name) (listed_fields Shop.retitled) /\
                   In name product_updateFields) \/
     (exists key, In key (Js.keys Shop.retitled) /\ In key product_updateFields)).
Proof.
  apply (@verifyDataContainsFields_decides Shop.retitled product_updateFields
           Shop.logged_in).
  simpl. intuition discriminate.
Defined.

(** The product "prod_1" is posted with its options under
    "product-option". *)
Lemma created_product_is_sent_renamed_witness :
  exists p,
    Shop.product (JStr "prod_1") = inr (Some p) /\
    body (Depot.last_sent (@createProductInStrapi Shop.open_shop (JStr "prod_1")
                             Shop.customer Shop.logged_in)) =
      JObj [("data", dataToSend_of (Some (productToSend p)))] /\
    Js.get (productToSend p) "product-option" = Js.get p "options" /\
    Js.has (productToSend p) "options" = false.
Proof.
  destruct (@created_product_is_sent_renamed Shop.open_shop (JStr "prod_1")
              Shop.customer Shop.logged_in
              (Depot.last_sent (@createProductInStrapi Shop.open_shop (JStr "prod_1")
                                  Shop.customer Shop.logged_in)))
    as [[Hm _]|(p & Hp & _ & _ & Hb & Hg & Hh)];
    [sent_last | reflexivity | vm_compute in Hm; discriminate |].
  exists p. split; [exact Hp|]. split; [exact Hb|]. split.
  - apply (Hg "product-option").
  - apply Hh. vm_compute. auto.
Defined.

(** The variant "variant_1" is posted with its options kept. *)
Lemma created_variant_is_sent_renamed_witness :
  exists v,
    Shop.variant (JStr "variant_1") = inr (Some v) /\
    body (Depot.last_sent (@createProductVariantInStrapi Shop.open_shop
                             (JStr "variant_1") Shop.customer Shop.logged_in)) =
      JObj [("data", dataToSend_of (Some (variantToSend v)))] /\
    Js.get (variantToSend v) "options" = Js.get v "options".
Proof.
  destruct (@created_variant_is_sent_renamed Shop.open_shop (JStr "variant_1")
              Shop.customer Shop.logged_in
              (Depot.last_sent (@createProductVariantInStrapi Shop.open_shop
                                  (JStr "variant_1") Shop.customer Shop.logged_in)))
    as [[Hm _]|(v & Hv & _ & _ & Hb & _ & Hg & _)];
    [sent_last | reflexivity | vm_compute in Hm; discriminate |].
  exists v. auto.
Defined.

(** The metafields of "prod_1" are put without the id of the product. *)
Lemma metafield_update_loses_the_id_witness :
  exists d,
    body (Depot.last_sent (@updateProductMetafieldInStrapi Shop.open_shop
                             Depot.metafield Shop.customer Shop.logged_in)) =
      JObj [("data", JObj d)] /\
    Js.get d "medusa_id" = JUndef.
Proof.
  destruct (@metafield_update_loses_the_id Shop.open_shop Depot.metafield
              Shop.customer Shop.logged_in
              (Depot.last_sent (@updateProductMetafieldInStrapi Shop.open_shop
                                  Depot.metafield Shop.customer Shop.logged_in)))
    as [[Hm _]|(_ & _ & d & Hb & Hg & _)];
    [sent_last | reflexivity | vm_compute in Hm; discriminate |].
  exists d. auto.
Defined.

(** With a remote service on which no user is found, the delete goes to
    the collection; with one that finds the user 11, to that entry, with
    the cached token. *)
Lemma user_deletion_address_witness :
  url (Depot.last_sent (@deleteMedusaUserFromStrapi Depot.empty_shop Shop.customer
                          Shop.logged_in)) = "http://cms/api/users/" /\
  url (Depot.last_sent (@deleteMedusaUserFromStrapi Shop.open_shop Shop.customer
                          Shop.logged_in)) = "http://cms/api/users/11" /\
  bearer (Depot.last_sent (@deleteMedusaUserFromStrapi Shop.open_shop Shop.customer
                             Shop.logged_in)) = Some (JStr "jwt-1").
Proof.
  split.
  - destruct (@user_deletion_address Depot.empty_shop Shop.customer Shop.logged_in
                (Depot.last_sent (@deleteMedusaUserFromStrapi Depot.empty_shop
                                    Shop.customer Shop.logged_in)))
      as [[Hm _]|(fetched & s1 & creds & Hf & _ & _ & _ & _ & H400)];
      [vm_compute; reflexivity | sent_last | reflexivity
      | vm_compute in Hm; discriminate |].
    apply H400. vm_compute in Hf. injection Hf as <- _. reflexivity.
  - destruct (@user_deletion_address Shop.open_shop Shop.customer Shop.logged_in
                (Depot.last_sent (@deleteMedusaUserFromStrapi Shop.open_shop
                                    Shop.customer Shop.logged_in)))
      as [[Hm _]|(fetched & s1 & creds & Hf & Hl & _ & Hb & Hu & _)];
      [vm_compute; reflexivity | sent_last | reflexivity
      | vm_compute in Hm; discriminate |].
    vm_compute in Hf. injection Hf as <- <-.
    vm_compute in Hl. injection Hl as <-.
    split; [apply Hu; reflexivity | exact Hb].
Defined.

(** After a successful deletion the token of the service account is no
    longer there to fetch. *)
Lemma default_user_deletion_witness :
  exists r s',
    @deleteDefaultMedusaUser Shop.open_shop Shop.logged_in = Returned (Some r) s' /\
    userTokens s' !! "medusa@shop.test" = None /\
    @fetchUserToken Shop.open_shop None s' = Thrown TypeError s'.
Proof.
  destruct (@deleteDefaultMedusaUser Shop.open_shop Shop.logged_in)
    as [[r|] s'|e s'|s'] eqn:Hd; [|vm_compute in Hd; discriminate ..].
  exists r, s'. split; [reflexivity|].
  apply (proj1 (proj2 (@default_user_deletion Shop.open_shop Shop.logged_in))
           r s' Hd);
    [vm_compute; reflexivity | vm_compute; discriminate].
Defined.

(** An event about the title: the updates return; when the store
    refuses the read of the marker, the product update throws and the
    region update reports status 400. *)
Lemma update_failures_witness :
  is_thrown (@updateRegionInStrapi Shop.open_shop Shop.retitled Shop.customer
               Shop.logged_in) = false /\
  is_thrown (@updateProductVariantInStrapi Shop.open_shop Shop.retitled
               Shop.customer Shop.logged_in) = false /\
  (exists s1,
     @updateProductInStrapi Depot.storeless_shop Shop.retitled Shop.customer
       Shop.logged_in = Thrown RedisError s1) /\
  (exists s1,
     @updateRegionInStrapi Depot.storeless_shop Shop.named Shop.customer
       Shop.logged_in = Returned status400 s1).
Proof.
  destruct (@update_failures Shop.open_shop Shop.retitled Shop.customer
              Shop.logged_in I) as (Hr & Hv & _).
  split; [|split; [|split]].
  - destruct (@updateRegionInStrapi Shop.open_shop Shop.retitled Shop.customer
                Shop.logged_in) as [r s'|e s'|s'] eqn:Ho; try reflexivity.
    exfalso. apply (Hr e s'). reflexivity.
  - destruct (@updateProductVariantInStrapi Shop.open_shop Shop.retitled
                Shop.customer Shop.logged_in) as [r s'|e s'|s'] eqn:Ho;
      try reflexivity.
    exfalso. apply (Hv e s'). reflexivity.
  - destruct (@hasType Depot.storeless_shop "products" Shop.customer
                Shop.logged_in) as [[|] s1|e s1|s1] eqn:Hh;
      [|vm_compute in Hh; discriminate ..].
    exists s1.
    destruct (@update_failures Depot.storeless_shop Shop.retitled Shop.customer
                Shop.logged_in I) as (_ & _ & _ & Hp & _).
    assert (Hfound : @verifyDataContainsFields Shop.retitled product_updateFields s1 =
                   Returned (JStr "title") s1) by reflexivity.
    apply (proj1 (Hp s1 (JStr "title") Hh Hfound eq_refl)). reflexivity.
  - destruct (@hasType Depot.storeless_shop "regions" Shop.customer
                Shop.logged_in) as [[|] s1|e s1|s1] eqn:Hh;
      [|vm_compute in Hh; discriminate ..].
    exists s1.
    destruct (@update_failures Depot.storeless_shop Shop.named Shop.customer
                Shop.logged_in I) as (_ & _ & _ & _ & Hg).
    assert (Hfound : @verifyDataContainsFields Shop.named region_updateFields s1 =
                   Returned (JBool true) s1) by reflexivity.
    apply (Hg s1 (JBool true) Hh Hfound eq_refl). left. reflexivity.
Defined.

(** A login that is answered without a token. *)
Lemma login_without_token_witness :
  @strapiSendDataLayer Depot.tokenless_shop (Shop.put Shop.shirt) Shop.booted =
    Returned status400
      (final (@strapiLoginSendDatalayer Depot.tokenless_shop Shop.customer
                Shop.booted)).
Proof.
  apply (@login_without_token Depot.tokenless_shop (Shop.put Shop.shirt) Shop.booted).
  vm_compute. reflexivity.
Defined.

(** With a remote service that refuses the login the probe answers
    false, and only then. *)
Lemma type_probe_answer_witness :
  exists e,
    @strapiLoginSendDatalayer Depot.no_login_shop Shop.customer Depot.started =
      Thrown e (final (@hasType Depot.no_login_shop "regions" Shop.customer
                         Depot.started)).
Proof.
  apply (proj2 (@type_probe_answer Depot.no_login_shop "regions" Shop.customer
                  Depot.started)).
  vm_compute. reflexivity.
Defined.

(** After the default user's credential has been read from the cache,
    the privileged login sends nothing: it returns what is stored, here
    nothing yet. *)
Lemma admin_login_window_witness :
  strapiRetryDelay (login_state Shop.customer Shop.logged_in) = Some 180000 /\
  @executeLoginAsStrapiSuperAdmin Shop.open_shop
    (login_state Shop.customer Shop.logged_in) =
    Returned (JUndef, JUndef) (login_state Shop.customer Shop.logged_in).
Proof.
  pose proof (@admin_login_window Shop.open_shop Shop.logged_in) as H.
  cbv zeta in H. destruct H as (_ & _ & _ & Hopen).
  destruct (Hopen Shop.customer Shop.cached) as (Hd & _ & Hreuse);
    [vm_compute; reflexivity ..|].
  split; [exact Hd|]. apply Hreuse. vm_compute. reflexivity.
Defined.
